(** * Book scraper: the scrape-and-normalise pipeline of [app.py]

    A shallow embedding of [scrape_books] and [load_data] together with the
    parts of the Python runtime and of the libraries they call
    ([str] slicing, [str.strip], [str.replace], [float], the BeautifulSoup
    tree queries, [requests.get], the [pandas] frame constructor and
    [Series.map]), followed by the properties of the pipeline. *)

From Stdlib Require Import List NArith ZArith String Ascii Bool Lia.
From Stdlib Require Import PrimFloat.
From Stdlib Require Import Sorted Permutation.
From Stdlib Require Uint63.
From Stdlib Require FloatOps SpecFloat.
Import ListNotations.

#[local] Set Warnings "-inexact-float".

Set Implicit Arguments.
Open Scope string_scope.
Open Scope list_scope.

(** ** Python strings

    A Python [str] is a sequence of Unicode code points; slicing and
    [replace] count code points, not bytes, so the pound sign is one
    element. *)

Definition str := list N.

(** Literals are written as UTF-8 text and decoded once. *)

Fixpoint utf8_go (need : nat) (acc : N) (l : list N) : str :=
  match l with
  | [] => []
  | b :: r =>
      match need with
      | O =>
          if (b <? 128)%N then b :: utf8_go 0 0 r
          else if (b <? 224)%N then utf8_go 1 (b - 192) r
          else if (b <? 240)%N then utf8_go 2 (b - 224) r
          else utf8_go 3 (b - 240) r
      | S k =>
          let acc' := (acc * 64 + b mod 64)%N in
          match k with
          | O => acc' :: utf8_go 0 0 r
          | S _ => utf8_go k acc' r
          end
      end
  end.

Definition py (s : string) : str :=
  utf8_go 0 0 (map N_of_ascii (list_ascii_of_string s)).

Fixpoint str_eqb (a b : str) : bool :=
  match a, b with
  | [], [] => true
  | x :: a', y :: b' => (x =? y)%N && str_eqb a' b'
  | _, _ => false
  end.

(** [s.startswith(p)] *)
Fixpoint startswith (p s : str) : bool :=
  match p, s with
  | [], _ => true
  | x :: p', y :: s' => (x =? y)%N && startswith p' s'
  | _ :: _, [] => false
  end.

(** [sep.join(l)] *)
Fixpoint join (sep : str) (l : list str) : str :=
  match l with
  | [] => []
  | [x] => x
  | x :: r => x ++ sep ++ join sep r
  end.

(** [str.isspace] on one code point: the white space of the Unicode
    database (bidirectional classes WS, B, S and category Zs). *)
Definition isspace (c : N) : bool :=
  ((9 <=? c) && (c <=? 13) || (28 <=? c) && (c <=? 32)
   || (c =? 133) || (c =? 160) || (c =? 5760)
   || (8192 <=? c) && (c <=? 8202)
   || (c =? 8232) || (c =? 8233) || (c =? 8239) || (c =? 8287)
   || (c =? 12288))%N.

Fixpoint dropwhile (f : N -> bool) (s : str) : str :=
  match s with
  | [] => []
  | c :: r => if f c then dropwhile f r else s
  end.

(** [s.strip()] with no argument *)
Definition strip (s : str) : str :=
  rev (dropwhile isspace (rev (dropwhile isspace s))).

(** [s.replace(old, new)]: every occurrence of [old], found left to right
    without overlap, becomes [new].  [skip] counts the code points of the
    occurrence just replaced that are still to be passed over. *)
Fixpoint replace_go (old new : str) (skip : nat) (s : str) : str :=
  match s with
  | [] => []
  | c :: r =>
      match skip with
      | S k => replace_go old new k r
      | O =>
          if startswith old s
          then new ++ replace_go old new (List.length old - 1) r
          else c :: replace_go old new 0 r
      end
  end.

Definition replace (old new s : str) : str :=
  match old with
  | [] => new ++ flat_map (fun c => c :: new) s
  | _ :: _ => replace_go old new 0 s
  end.

(** [str(n)] for a non-negative integer, as the f-string of the listing URL
    formats the page number. *)
Fixpoint uint_str (u : Decimal.uint) : str :=
  match u with
  | Decimal.Nil => []
  | Decimal.D0 r => 48%N :: uint_str r
  | Decimal.D1 r => 49%N :: uint_str r
  | Decimal.D2 r => 50%N :: uint_str r
  | Decimal.D3 r => 51%N :: uint_str r
  | Decimal.D4 r => 52%N :: uint_str r
  | Decimal.D5 r => 53%N :: uint_str r
  | Decimal.D6 r => 54%N :: uint_str r
  | Decimal.D7 r => 55%N :: uint_str r
  | Decimal.D8 r => 56%N :: uint_str r
  | Decimal.D9 r => 57%N :: uint_str r
  end.

Definition str_of_int (n : N) : str := uint_str (N.to_uint n).

(** ** Exceptions

    The exceptions the two functions can raise, under their Python names.
    [RequestException] is the failure of [requests.get] (the spec's
    FetchError); [AttributeError], [TypeError], [KeyError] and [IndexError]
    come from the structural lookups on a parsed page (the spec's
    ParseError); [ValueError] is raised by [float] (the spec's
    FormatError). *)

Inductive exception : Type :=
| RequestException
| AttributeError
| TypeError
| KeyError
| IndexError
| ValueError.

Inductive result (A : Type) : Type :=
| Ok (a : A)
| Raise (e : exception).

Arguments Ok {A} a.
Arguments Raise {A} e.

(** Sequencing of expressions that may raise. *)
Definition and_then {A B : Type} (r : result A) (k : A -> result B)
  : result B :=
  match r with
  | Ok a => k a
  | Raise e => Raise e
  end.

Notation "'try' x := r 'in' k" := (and_then r (fun x => k))
  (at level 61, x name, r at next level, right associativity).

(** ** [float(str)]

    The value is kept as the decimal that was read: [Finite neg m e] stands
    for (-1)^neg * m * 10^e.  CPython stores the binary64 number nearest to
    it. *)

Inductive pyfloat : Type :=
| Finite (negative : bool) (digits : N) (exp10 : Z)
| Infinity (negative : bool)
| NaN.

(** The binary64 number CPython stores for a decimal, in the range where
    one correctly rounded operation on exact operands gives it: a
    significand below 2^53 scaled by a power of ten up to 10^18.  [None]
    outside that range, where the embedding keeps the decimal only. *)
Definition binary64 (f : pyfloat) : option PrimFloat.float :=
  match f with
  | Finite neg m e =>
      if (m <? 2 ^ 53)%N && (-18 <=? e)%Z && (e <=? 18)%Z then
        let x := PrimFloat.of_uint63 (Uint63.of_Z (Z.of_N m)) in
        let p := PrimFloat.of_uint63 (Uint63.of_Z (10 ^ Z.abs e)) in
        let v := if (e <? 0)%Z then PrimFloat.div x p else PrimFloat.mul x p in
        Some (if neg then PrimFloat.opp v else v)
      else None
  | Infinity neg =>
      Some (if neg then PrimFloat.neg_infinity else PrimFloat.infinity)
  | NaN => Some PrimFloat.nan
  end.

Definition is_digit (c : N) : bool := ((48 <=? c) && (c <=? 57))%N.

(** C [isspace] in the C locale ([Py_ISSPACE]) *)
Definition Py_ISSPACE (c : N) : bool :=
  ((9 <=? c) && (c <=? 13) || (c =? 32))%N.

(** The leading run of ASCII digits, as digit values, and what follows. *)
Fixpoint take_digits (s : str) : list N * str :=
  match s with
  | [] => ([], [])
  | c :: r =>
      if is_digit c
      then let (ds, rest) := take_digits r in ((c - 48)%N :: ds, rest)
      else ([], s)
  end.

Definition digits_value (ds : list N) : N :=
  fold_left (fun a d => (10 * a + d)%N) ds 0%N.

Definition take_sign (s : str) : bool * str :=
  match s with
  | 45%N :: r => (true, r)
  | 43%N :: r => (false, r)
  | _ => (false, s)
  end.

Definition lower (c : N) : N :=
  if ((65 <=? c) && (c <=? 90))%N then (c + 32)%N else c.

(** The number grammar of [_Py_dg_strtod]: sign, digits with an optional
    point, at least one digit, then an optional exponent that is only
    consumed when it has a digit.  Returns the value and the unread rest. *)
Definition strtod (s : str) : option (pyfloat * str) :=
  let (neg, s1) := take_sign s in
  let (ip, s2) := take_digits s1 in
  let (fp, s3) :=
    match s2 with
    | 46%N :: r => take_digits r
    | _ => ([], s2)
    end in
  match ip ++ fp with
  | [] => None
  | _ :: _ =>
      let m := digits_value (ip ++ fp) in
      let scale := Z.of_nat (List.length fp) in
      match s3 with
      | c :: r =>
          if ((c =? 101) || (c =? 69))%N then
            let (eneg, r1) := take_sign r in
            let (ed, r2) := take_digits r1 in
            match ed with
            | [] => Some (Finite neg m (- scale), s3)
            | _ :: _ =>
                let e := Z.of_N (digits_value ed) in
                Some (Finite neg m ((if eneg then - e else e) - scale), r2)
            end
          else Some (Finite neg m (- scale), s3)
      | [] => Some (Finite neg m (- scale), s3)
      end
  end.

(** [_Py_parse_inf_or_nan]: sign, then [inf], [infinity] or [nan] in any
    letter case. *)
Definition parse_inf_or_nan (s : str) : option (pyfloat * str) :=
  let (neg, s1) := take_sign s in
  let l := map lower s1 in
  if startswith (py "inf") l then
    if startswith (py "infinity") l
    then Some (Infinity neg, skipn 8 s1)
    else Some (Infinity neg, skipn 3 s1)
  else if startswith (py "nan") l then Some (NaN, skipn 3 s1)
  else None.

(** [PyOS_string_to_double] followed by the check that the whole text was
    read. *)
Definition float_from_string_inner (s : str) : result pyfloat :=
  match strtod s with
  | Some (v, []) => Ok v
  | Some (_, _ :: _) => Raise ValueError
  | None =>
      match parse_inf_or_nan s with
      | Some (v, []) => Ok v
      | _ => Raise ValueError
      end
  end.

(** [_Py_string_to_number_with_underscores]: an underscore is accepted only
    between two digits and is then dropped.  [prev] is the previous code
    point (0 at the start). *)
Fixpoint drop_underscores (prev : N) (s : str) : option str :=
  match s with
  | [] => if (prev =? 95)%N then None else Some []
  | c :: r =>
      if (c =? 95)%N then
        if is_digit prev then drop_underscores c r else None
      else if (prev =? 95)%N && negb (is_digit c) then None
      else option_map (cons c) (drop_underscores c r)
  end.

Definition is_ascii (s : str) : bool := forallb (fun c => (c <? 128)%N) s.

Section Interpreter.

(** [Py_UNICODE_TODECIMAL] of the interpreter's Unicode database, asked only
    about code points from 127 on: the decimal digit a code point stands for,
    if it is one. *)
Variable todecimal : N -> option N.

(** [_PyUnicode_TransformDecimalAndSpaceToASCII]: an ASCII string is
    returned as it is; otherwise white space becomes a blank, a decimal digit
    of any script its ASCII digit, and the first other non-ASCII code point
    becomes a question mark that ends the text. *)
Fixpoint transform_go (s : str) : str :=
  match s with
  | [] => []
  | c :: r =>
      if (c <? 127)%N then c :: transform_go r
      else if isspace c then 32%N :: transform_go r
      else match todecimal c with
           | Some d => (48 + d)%N :: transform_go r
           | None => [63%N]
           end
  end.

Definition transform (s : str) : str :=
  if is_ascii s then s else transform_go s.

(** [float(s)] for a [str] argument *)
Definition float (s : str) : result pyfloat :=
  let t := transform s in
  let t := rev (dropwhile Py_ISSPACE (rev (dropwhile Py_ISSPACE t))) in
  if existsb (N.eqb 95) t then
    match drop_underscores 0 t with
    | Some u => float_from_string_inner u
    | None => Raise ValueError
    end
  else float_from_string_inner t.

End Interpreter.

(** ** Parsed pages

    A page as BeautifulSoup's [html.parser] tree, restricted to what the
    program can observe: tags and plain text ([get_text] skips comments and
    the like).  [class_] is the token list bs4 keeps for the multi-valued
    [class] attribute ([None] when the tag has none); [attrs] holds the
    single-valued attributes as the dictionary [Tag.attrs], read by first
    match. *)

Unset Elimination Schemes.
Inductive node : Type :=
| NavigableString (text : str)
| Tag (name : str) (class_ : option (list str)) (attrs : list (str * str))
      (contents : list node).
Set Elimination Schemes.

(** [BeautifulSoup(content, "html.parser")]: the top-level nodes under the
    document object, itself a tag named [[document]]. *)
Definition BeautifulSoup (content : list node) : node :=
  Tag (py "[document]") None [] content.

(** Matching a tag against a name, and against a name and a [class_]
    string.  bs4 accepts a class string when it equals one of the tag's
    class tokens or the tokens joined by single blanks. *)
Definition name_is (n : str) (x : node) : bool :=
  match x with
  | Tag m _ _ _ => str_eqb m n
  | NavigableString _ => false
  end.

Definition class_matches (c : str) (x : node) : bool :=
  match x with
  | Tag _ (Some toks) _ _ =>
      existsb (fun t => str_eqb t c) toks || str_eqb (join (py " ") toks) c
  | _ => false
  end.

Definition name_class_is (n c : str) (x : node) : bool :=
  name_is n x && class_matches c x.

(** The nodes of a subtree that satisfy [m], the root included, in document
    order. *)
Fixpoint matching (m : node -> bool) (x : node) : list node :=
  match x with
  | NavigableString _ => []
  | Tag _ _ _ cs => (if m x then [x] else []) ++ flat_map (matching m) cs
  end.

(** [x.find_all(...)]: the matching descendants of [x] in document order. *)
Definition find_all (m : node -> bool) (x : node) : list node :=
  match x with
  | NavigableString _ => []
  | Tag _ _ _ cs => flat_map (matching m) cs
  end.

(** [x.find(...)]: the first of them, or [None]. *)
Definition find (m : node -> bool) (x : node) : option node :=
  hd_error (find_all m x).

(** [x.text]: the text nodes under [x], concatenated. *)
Fixpoint get_text (x : node) : str :=
  match x with
  | NavigableString s => s
  | Tag _ _ _ cs => flat_map get_text cs
  end.

Fixpoint dict_get {V : Type} (d : list (str * V)) (k : str) : option V :=
  match d with
  | [] => None
  | (k', v) :: r => if str_eqb k' k then Some v else dict_get r k
  end.

(** The attribute and item accesses of the program on a value that is a tag
    or [None], with the exception each raises. *)

(** [x.find(name, class_=c)] *)
Definition find_method (x : option node) (n c : str) : result (option node) :=
  match x with
  | None => Raise AttributeError
  | Some t => Ok (find (name_class_is n c) t)
  end.

(** [x.n] for a tag name [n], as in [book.h3]: [Tag.__getattr__] is [find]. *)
Definition getattr (x : option node) (n : str) : result (option node) :=
  match x with
  | Some (Tag _ _ _ _ as t) => Ok (find (name_is n) t)
  | _ => Raise AttributeError
  end.

(** [x.find_all(n)] *)
Definition find_all_method (x : option node) (n : str) : result (list node) :=
  match x with
  | None => Raise AttributeError
  | Some t => Ok (find_all (name_is n) t)
  end.

(** [x.text] *)
Definition text (x : option node) : result str :=
  match x with
  | None => Raise AttributeError
  | Some t => Ok (get_text t)
  end.

(** [x[key]] for a single-valued attribute *)
Definition getitem (x : option node) (key : str) : result str :=
  match x with
  | Some (Tag _ _ attrs _) =>
      match dict_get attrs key with
      | Some v => Ok v
      | None => Raise KeyError
      end
  | _ => Raise TypeError
  end.

(** [x["class"]] *)
Definition getitem_class (x : option node) : result (list str) :=
  match x with
  | Some (Tag _ (Some toks) _ _) => Ok toks
  | Some (Tag _ None _ _) => Raise KeyError
  | _ => Raise TypeError
  end.

(** [l[i]] on a list *)
Definition list_index {A : Type} (l : list A) (i : nat) : result A :=
  match nth_error l i with
  | Some a => Ok a
  | None => Raise IndexError
  end.

(** ** Effects

    The only effect of the program is the GET request.  A computation
    threads the log of the URLs requested so far and ends in a value or in
    an exception; the log is kept in both cases. *)

Definition M (A : Type) : Type := list str -> result A * list str.

Definition ret {A : Type} (a : A) : M A := fun log => (Ok a, log).

Definition bind {A B : Type} (m : M A) (k : A -> M B) : M B :=
  fun log =>
    match m log with
    | (Ok a, log') => k a log'
    | (Raise e, log') => (Raise e, log')
    end.

Definition lift {A : Type} (r : result A) : M A := fun log => (r, log).

Notation "x <- m ;; k" := (bind m (fun x => k))
  (at level 61, m at next level, right associativity).

(** [for x in l: body], the loop state passed along. *)
Fixpoint for_each {A S : Type} (l : list A) (body : A -> S -> M S) (s : S)
  : M S :=
  match l with
  | [] => ret s
  | x :: r => s' <- body x s ;; for_each r body s'
  end.

(** What a GET to a URL gives: [None] when [requests.get] raises, otherwise
    the body of the response as the parser reads it, whatever the status
    code. *)
Definition website : Type := str -> option (list node).

(** [BeautifulSoup(requests.get(url).content, "html.parser")] *)
Definition requests_get (site : website) (url : str) : M node :=
  fun log =>
    match site url with
    | Some content => (Ok (BeautifulSoup content), log ++ [url])
    | None => (Raise RequestException, log ++ [url])
    end.

(** ** Data frames

    A frame is the ordered dictionary of its columns; a cell holds a string,
    a float, an integer or the missing value NaN. *)

Inductive cell : Type :=
| CStr (s : str)
| CFloat (f : pyfloat)
| CInt (n : Z)
| CNaN.

Definition DataFrame : Type := list (str * list cell).

(** [df[key]] *)
Definition df_getitem (df : DataFrame) (key : str) : result (list cell) :=
  match dict_get df key with
  | Some col => Ok col
  | None => Raise KeyError
  end.

(** [df[key] = col]: an existing column is replaced where it stands, a new
    one is added last. *)
Fixpoint df_setitem (df : DataFrame) (key : str) (col : list cell)
  : DataFrame :=
  match df with
  | [] => [(key, col)]
  | (k, c) :: r =>
      if str_eqb k key then (k, col) :: r else (k, c) :: df_setitem r key col
  end.

(** [series.map(d)] for a dictionary [d] with string keys: a value that is
    not a key gives NaN. *)
Definition series_map (d : list (str * Z)) (col : list cell) : list cell :=
  map (fun c =>
         match c with
         | CStr s => match dict_get d s with Some v => CInt v | None => CNaN end
         | _ => CNaN
         end) col.

Definition column_names (df : DataFrame) : list str := map fst df.

(** Row [i] of a frame, as its cells in column order. *)
Definition iloc (df : DataFrame) (i : nat) : option (list (str * cell)) :=
  fold_right
    (fun kc acc =>
       match nth_error (snd kc) i, acc with
       | Some c, Some row => Some ((fst kc, c) :: row)
       | _, _ => None
       end)
    (Some []) df.

Definition len (df : DataFrame) : nat :=
  match df with
  | [] => 0
  | (_, c) :: _ => List.length c
  end.

(** [range(lo, hi)] *)
Definition range (lo hi : N) : list N :=
  map N.of_nat (seq (N.to_nat lo) (N.to_nat hi - N.to_nat lo)).

(** ** The program *)

(** The five lists [scrape_books] fills, one entry per book. *)
Record columns : Type := Columns {
  titles : list str;
  prices : list pyfloat;
  availabilities : list str;
  ratings : list str;
  categories : list str
}.

Definition no_columns : columns := Columns [] [] [] [] [].

(** [f"http://books.toscrape.com/catalogue/page-{page}.html"] *)
Definition page_url (page : N) : str :=
  py "http://books.toscrape.com/catalogue/page-" ++ str_of_int page
  ++ py ".html".

(** [soup.find_all("article", class_="product_pod")] *)
Definition product_pods (soup : node) : list node :=
  find_all (name_class_is (py "article") (py "product_pod")) soup.

(** Line 23: [book.h3.a["title"]] *)
Definition book_title (book : node) : result str :=
  try h3 := getattr (Some book) (py "h3") in
  try a := getattr h3 (py "a") in
  getitem a (py "title").

(** Line 24: [book.find("p", class_="price_color").text] *)
Definition book_price (book : node) : result str :=
  try p := find_method (Some book) (py "p") (py "price_color") in
  text p.

(** Line 25:
    [book.find("p", class_="instock availability").text.strip()] *)
Definition book_availability (book : node) : result str :=
  try p := find_method (Some book) (py "p") (py "instock availability") in
  try t := text p in
  Ok (strip t).

(** Line 26: [book.p["class"][1]] *)
Definition book_rating (book : node) : result str :=
  try p := getattr (Some book) (py "p") in
  try cls := getitem_class p in
  list_index cls 1.

(** Line 27: [book.h3.a["href"]] *)
Definition book_href (book : node) : result str :=
  try h3 := getattr (Some book) (py "h3") in
  try a := getattr h3 (py "a") in
  getitem a (py "href").

(** Line 28: ["http://books.toscrape.com/catalogue/" +
    book_relative_url.replace('../../../', '')] *)
Definition book_url (book_relative_url : str) : str :=
  py "http://books.toscrape.com/catalogue/"
  ++ replace (py "../../../") (py "") book_relative_url.

(** Line 31: [book_soup.find("ul", class_="breadcrumb")
    .find_all("li")[2].text.strip()] *)
Definition soup_category (book_soup : node) : result str :=
  try ul := find_method (Some book_soup) (py "ul") (py "breadcrumb") in
  try lis := find_all_method ul (py "li") in
  try li := list_index lis 2 in
  try t := text (Some li) in
  Ok (strip t).

(** [pd.DataFrame({"Title": titles, ...})]; the five lists have one length
    whenever the constructor is reached. *)
Definition to_frame (c : columns) : DataFrame :=
  [ (py "Title", map CStr (titles c));
    (py "Price", map CFloat (prices c));
    (py "Availability", map CStr (availabilities c));
    (py "Rating", map CStr (ratings c));
    (py "Category", map CStr (categories c)) ].

Definition rating_map : list (str * Z) :=
  [ (py "One", 1%Z); (py "Two", 2%Z); (py "Three", 3%Z); (py "Four", 4%Z);
    (py "Five", 5%Z) ].

Section Scraper.

Variable todecimal : N -> option N.
Variable site : website.

(** Line 34: [float(price[1:])] *)
Definition parse_price (price : str) : result pyfloat :=
  float todecimal (skipn 1 price).

(** The body of the inner loop, lines 23 to 37, for one [book]: the five
    listing fields, the detail page and its category, then the five
    [append]s with the price conversion between the first and the second. *)
Definition scrape_book (book : node) (acc : columns) : M columns :=
  title <- lift (book_title book) ;;
  price <- lift (book_price book) ;;
  availability <- lift (book_availability book) ;;
  rating <- lift (book_rating book) ;;
  book_relative_url <- lift (book_href book) ;;
  book_soup <- requests_get site (book_url book_relative_url) ;;
  category <- lift (soup_category book_soup) ;;
  let titles' := titles acc ++ [title] in
  x <- lift (parse_price price) ;;
  let prices' := prices acc ++ [x] in
  let availabilities' := availabilities acc ++ [availability] in
  let ratings' := ratings acc ++ [rating] in
  let categories' := categories acc ++ [category] in
  ret (Columns titles' prices' availabilities' ratings' categories').

(** The body of the outer loop, lines 17 to 37, for one [page]. *)
Definition scrape_page (page : N) (acc : columns) : M columns :=
  soup <- requests_get site (page_url page) ;;
  let books := product_pods soup in
  for_each books scrape_book acc.

(** [scrape_books] with the page numbers of the outer loop as a parameter. *)
Definition scrape_pages (pages : list N) : M DataFrame :=
  acc <- for_each pages scrape_page no_columns ;;
  ret (to_frame acc).

(** [scrape_books()]: the loop runs over [range(1, 6)]. *)
Definition scrape_books : M DataFrame := scrape_pages (range 1 6).

(** Lines 51 to 59 of [load_data], applied to the frame [scrape] returns. *)
Definition load_data_from (scrape : M DataFrame) : M DataFrame :=
  df <- scrape ;;
  col <- lift (df_getitem df (py "Rating")) ;;
  ret (df_setitem df (py "Rating") (series_map rating_map col)).

(** [load_data()] *)
Definition load_data : M DataFrame := load_data_from scrape_books.

(** The product pods of a listing page, in document order; none when the
    page cannot be fetched. *)
Definition books_on (page : N) : list node :=
  match site (page_url page) with
  | Some content => product_pods (BeautifulSoup content)
  | None => []
  end.

(** The detail URL of a book on a listing page. *)
Definition detail_url (book : node) : str :=
  match book_href book with
  | Ok href => book_url href
  | Raise _ => []
  end.

(** The requests of one page of the traversal: the listing page, then the
    detail page of each of its books. *)
Definition requests_of (page : N) : list str :=
  page_url page :: map detail_url (books_on page).

(** The category read from the detail page of a book. *)
Definition book_category (book : node) : result str :=
  try href := book_href book in
  match site (book_url href) with
  | Some content => soup_category (BeautifulSoup content)
  | None => Raise RequestException
  end.

End Scraper.

(** ** Fixture pages

    Pages built the way the catalogue lays them out: a product pod holds the
    star-rating paragraph, the titled link under [h3] and the price and
    availability paragraphs; a detail page holds the breadcrumb list. *)

Definition pod (title price rating href : str) (availability : str) : node :=
  Tag (py "article") (Some [py "product_pod"]) []
    [ Tag (py "div") (Some [py "image_container"]) []
        [ Tag (py "a") None [(py "href", href)]
            [ Tag (py "img") (Some [py "thumbnail"]) [(py "alt", title)] [] ] ];
      Tag (py "p") (Some [py "star-rating"; rating]) [] [];
      Tag (py "h3") None []
        [ Tag (py "a") None [(py "href", href); (py "title", title)]
            [ NavigableString title ] ];
      Tag (py "div") (Some [py "product_price"]) []
        [ Tag (py "p") (Some [py "price_color"]) [] [ NavigableString price ];
          Tag (py "p") (Some [py "instock"; py "availability"]) []
            [ Tag (py "i") (Some [py "icon-ok"]) [] [];
              NavigableString availability ] ] ].

Definition listing (pods : list node) : list node :=
  [ Tag (py "html") None []
      [ Tag (py "body") None []
          [ Tag (py "section") None []
              [ Tag (py "ol") (Some [py "row"]) []
                  (map (fun b => Tag (py "li") None [] [b]) pods) ] ] ] ].

Definition crumb (label : str) : node :=
  Tag (py "li") None [] [ NavigableString (10%N :: py "    " ++ label ++ [10%N]) ].

Definition detail (crumbs : list str) : list node :=
  [ Tag (py "html") None []
      [ Tag (py "body") None []
          [ Tag (py "ul") (Some [py "breadcrumb"]) [] (map crumb crumbs) ] ] ].

(** A site given by its pages; every other URL answers with an empty
    document (a 404 body: [requests.get] does not raise on a status code). *)
Fixpoint serve (pages : list (str * list node)) : website :=
  fun url =>
    match pages with
    | [] => Some []
    | (u, content) :: r => if str_eqb u url then Some content else serve r url
    end.

(** The same, except that the URLs in [down] cannot be fetched. *)
Definition serve_except (down : list str) (pages : list (str * list node))
  : website :=
  fun url =>
    if existsb (fun u => str_eqb u url) down then None else serve pages url.

Definition in_stock : str := 10%N :: py "    In stock" ++ [10%N].

(** One listing page with one book. *)
Definition attic_site : website :=
  serve
    [ (page_url 1,
       listing [ pod (py "A Light in the Attic") (py "£51.77") (py "Three")
                     (py "a-light-in-the-attic_1000/index.html") in_stock ]);
      (book_url (py "a-light-in-the-attic_1000/index.html"),
       detail [ py "Home"; py "Books"; py "Poetry"; py "A Light in the Attic" ]) ].

(** No code point from 127 on counts as a digit: the table is not consulted
    on the fixtures, whose prices are ASCII after the first character. *)
Definition ascii_digits_only : N -> option N := fun _ => None.

(** ** What a run is expected to produce

    The record of one book as the loop body reads it, computed without the
    accumulators and the request log: the reading of the loops that the
    properties below compare the program with. *)

Record book_row : Type := Row {
  row_title : str;
  row_price : pyfloat;
  row_availability : str;
  row_rating : str;
  row_category : str
}.

Definition book_row_of (todecimal : N -> option N) (site : website)
  (book : node) : result book_row :=
  try t := book_title book in
  try p := book_price book in
  try a := book_availability book in
  try r := book_rating book in
  try c := book_category site book in
  try x := parse_price todecimal p in
  Ok (Row t x a r c).

(** The frame whose rows are the given records, in order. *)
Definition frame_of_rows (rows : list book_row) : DataFrame :=
  [ (py "Title", map (fun r => CStr (row_title r)) rows);
    (py "Price", map (fun r => CFloat (row_price r)) rows);
    (py "Availability", map (fun r => CStr (row_availability r)) rows);
    (py "Rating", map (fun r => CStr (row_rating r)) rows);
    (py "Category", map (fun r => CStr (row_category r)) rows) ].

(** The accumulators after the given records have been appended. *)
Definition extend (acc : columns) (rows : list book_row) : columns :=
  Columns (titles acc ++ map row_title rows)
          (prices acc ++ map row_price rows)
          (availabilities acc ++ map row_availability rows)
          (ratings acc ++ map row_rating rows)
          (categories acc ++ map row_category rows).

(** A request that [requests.get] answers. *)
Definition answered (site : website) (url : str) : Prop := site url <> None.

(** The request discipline of a computation started with the log [log]: it
    only adds to the log, every request it adds was answered, except that a
    run ending in [RequestException] ends with the one request that was
    not. *)
Definition trace_ok {A : Type} (site : website) (log : list str)
  (out : result A * list str) : Prop :=
  exists added, snd out = log ++ added /\
    match fst out with
    | Raise RequestException =>
        exists pre u, added = pre ++ [u] /\ Forall (answered site) pre
                      /\ site u = None
    | _ => Forall (answered site) added
    end.

Definition disciplined {A : Type} (site : website) (m : M A) : Prop :=
  forall log, trace_ok site log (m log).

(** An expression that does not raise [RequestException]. *)
Definition quiet {A : Type} (r : result A) : Prop :=
  r <> Raise RequestException.

(** The cells of a record, as a row of the frame [scrape_books] builds. *)
Definition cells_of (r : book_row) : list (str * cell) :=
  [ (py "Title", CStr (row_title r));
    (py "Price", CFloat (row_price r));
    (py "Availability", CStr (row_availability r));
    (py "Rating", CStr (row_rating r));
    (py "Category", CStr (row_category r)) ].

(** The traversal gets to book [b] of page [p]: the listing pages up to [p]
    are answered and every book met before [b] has a record. *)
Definition reaches (todecimal : N -> option N) (site : website)
  (pages : list N) (p : N) (b : node) : Prop :=
  exists ps1 ps2 bs1 bs2,
    pages = ps1 ++ p :: ps2 /\ books_on site p = bs1 ++ b :: bs2
    /\ Forall (fun q => answered site (page_url q)) (ps1 ++ [p])
    /\ Forall (fun b' => exists r, book_row_of todecimal site b' = Ok r)
              (flat_map (books_on site) ps1 ++ bs1).

(** ** The texts [float] accepts

    The grammar of the texts that [float] reads as a number, written
    without reference to the parser, for comparison with it. *)

Definition digits_text (ds : list N) : str := map (fun d => (48 + d)%N) ds.

Definition all_digits (ds : list N) : Prop := Forall (fun d => (d < 10)%N) ds.

(** A text that does not go on with a digit. *)
Definition no_digit_ahead (s : str) : Prop :=
  match s with
  | c :: _ => is_digit c = false
  | [] => True
  end.

(** The sign: a minus, or a plus or nothing. *)
Definition sign_text (neg : bool) (t : str) : Prop :=
  if neg then t = [45%N] else t = [] \/ t = [43%N].

(** The fraction: nothing, or a point and digits. *)
Definition point_text (fp : list N) (t : str) : Prop :=
  (fp = [] /\ t = []) \/ t = 46%N :: digits_text fp.

(** The exponent: nothing, or the letter e in either case, a sign and at
    least one digit. *)
Definition exponent_text (ex : Z) (t : str) : Prop :=
  (ex = 0%Z /\ t = [])
  \/ exists c eneg est ed,
       (c = 101%N \/ c = 69%N) /\ sign_text eneg est /\ all_digits ed
       /\ ed <> []
       /\ t = c :: est ++ digits_text ed
       /\ ex = (if eneg then - Z.of_N (digits_value ed)
                else Z.of_N (digits_value ed))%Z.

(** A decimal number: sign, digits with an optional point and at least one
    digit before or after it, optional exponent. *)
Definition number_text (u : str) (v : pyfloat) : Prop :=
  exists neg st ip fp pt ex et,
    sign_text neg st /\ all_digits ip /\ all_digits fp /\ ip ++ fp <> []
    /\ point_text fp pt /\ exponent_text ex et
    /\ u = st ++ digits_text ip ++ pt ++ et
    /\ v = Finite neg (digits_value (ip ++ fp))
                  (ex - Z.of_nat (List.length fp)).

(** One of the words inf, infinity and nan in any letter case, after a
    sign. *)
Definition word_text (u : str) (v : pyfloat) : Prop :=
  exists neg st w,
    sign_text neg st /\ u = st ++ w
    /\ (((map lower w = py "inf" \/ map lower w = py "infinity")
         /\ v = Infinity neg)
        \/ (map lower w = py "nan" /\ v = NaN)).

(** [b] is [u] with single underscores put between some pairs of
    neighbouring digits. *)
Inductive grouped : str -> str -> Prop :=
| grouped_nil : grouped [] []
| grouped_char c b u :
    c <> 95%N -> grouped b u -> grouped (c :: b) (c :: u)
| grouped_under d1 d2 b u :
    is_digit d1 = true -> is_digit d2 = true ->
    grouped (d2 :: b) (d2 :: u) ->
    grouped (d1 :: 95%N :: d2 :: b) (d1 :: d2 :: u).

(** A text that [float] reads as the value [v]: blanks, then a number or a
    word, possibly with underscores between digits, then blanks. *)
Definition float_text (t : str) (v : pyfloat) : Prop :=
  exists lead body trail u,
    t = lead ++ body ++ trail
    /\ Forall (fun c => Py_ISSPACE c = true) lead
    /\ Forall (fun c => Py_ISSPACE c = true) trail
    /\ grouped body u
    /\ (number_text u v \/ word_text u v).

(** A code point above the control characters and the blank, so no white
    space for [float], and other than the question mark. *)
Definition visible (c : N) : Prop := (33 <= c)%N /\ c <> 63%N.

(** ** More fixtures *)

(** A book whose link and detail page are named after its title. *)
Definition plain_pod (title price rating : str) : node :=
  pod title price rating (title ++ py "/index.html") in_stock.

Definition plain_detail (title category : str) : str * list node :=
  (book_url (title ++ py "/index.html"),
   detail [ py "Home"; py "Books"; category; title ]).

(** Two listing pages of three books each. *)
Definition two_by_three : list (str * list node) :=
  [ (page_url 1,
     listing [ plain_pod (py "p1b1") (py "£10.00") (py "One");
               plain_pod (py "p1b2") (py "£11.50") (py "Two");
               plain_pod (py "p1b3") (py "£12.25") (py "Three") ]);
    (page_url 2,
     listing [ plain_pod (py "p2b1") (py "£20.00") (py "Four");
               plain_pod (py "p2b2") (py "£21.50") (py "Five");
               plain_pod (py "p2b3") (py "£22.25") (py "One") ]);
    plain_detail (py "p1b1") (py "Travel");
    plain_detail (py "p1b2") (py "Poetry");
    plain_detail (py "p1b3") (py "Travel");
    plain_detail (py "p2b1") (py "Music");
    plain_detail (py "p2b2") (py "Poetry");
    plain_detail (py "p2b3") (py "Music") ].

Definition two_by_three_site : website := serve two_by_three.

(** What the run over its two pages is expected to return and request. *)
Definition two_by_three_rows : list book_row :=
  [ Row (py "p1b1") (Finite false 1000 (-2)) (py "In stock") (py "One") (py "Travel");
    Row (py "p1b2") (Finite false 1150 (-2)) (py "In stock") (py "Two") (py "Poetry");
    Row (py "p1b3") (Finite false 1225 (-2)) (py "In stock") (py "Three") (py "Travel");
    Row (py "p2b1") (Finite false 2000 (-2)) (py "In stock") (py "Four") (py "Music");
    Row (py "p2b2") (Finite false 2150 (-2)) (py "In stock") (py "Five") (py "Poetry");
    Row (py "p2b3") (Finite false 2225 (-2)) (py "In stock") (py "One") (py "Music") ].

Definition two_by_three_log : list str :=
  [ page_url 1;
    book_url (py "p1b1/index.html"); book_url (py "p1b2/index.html");
    book_url (py "p1b3/index.html");
    page_url 2;
    book_url (py "p2b1/index.html"); book_url (py "p2b2/index.html");
    book_url (py "p2b3/index.html") ].

(** The same site while the detail page of the second book is down. *)
Definition down_site : website :=
  serve_except [ book_url (py "p1b2/index.html") ] two_by_three.

(** A site whose second book carries a price that is no number. *)
Definition abc_site : website :=
  serve
    [ (page_url 1,
       listing [ plain_pod (py "good") (py "£0.00") (py "One");
                 plain_pod (py "bad") (py "£abc") (py "Two");
                 plain_pod (py "late") (py "£1.00") (py "Two") ]);
      plain_detail (py "good") (py "Travel");
      plain_detail (py "bad") (py "Travel");
      plain_detail (py "late") (py "Travel") ].

(** A site whose second and third book are priced [nan] and [inf]. *)
Definition nan_pod : node := plain_pod (py "odd") (py "£nan") (py "Two").

Definition nan_site : website :=
  serve
    [ (page_url 1,
       listing [ plain_pod (py "good") (py "£0.00") (py "One");
                 nan_pod;
                 plain_pod (py "far") (py "£inf") (py "Three") ]);
      plain_detail (py "good") (py "Travel");
      plain_detail (py "odd") (py "Travel");
      plain_detail (py "far") (py "Travel") ].

(** The rows the run on [nan_site] is expected to return. *)
Definition nan_rows : list book_row :=
  [ Row (py "good") (Finite false 0 (-2)) (py "In stock") (py "One") (py "Travel");
    Row (py "odd") NaN (py "In stock") (py "Two") (py "Travel");
    Row (py "far") (Infinity false) (py "In stock") (py "Three") (py "Travel") ].

Definition attic_href : str := py "a-light-in-the-attic_1000/index.html".

Definition attic_pod : node :=
  pod (py "A Light in the Attic") (py "£51.77") (py "Three") attic_href
      in_stock.

(** The row the run on [attic_site] is expected to return. *)
Definition attic_row : list (str * cell) :=
  [ (py "Title", CStr (py "A Light in the Attic"));
    (py "Price", CFloat (Finite false 5177 (-2)));
    (py "Availability", CStr (py "In stock"));
    (py "Rating", CInt 3);
    (py "Category", CStr (py "Poetry")) ].

(** The site of [attic_site] with the rating word [Six] on its book. *)
Definition six_site : website :=
  serve
    [ (page_url 1,
       listing [ pod (py "A Light in the Attic") (py "£51.77") (py "Six")
                     attic_href in_stock ]);
      (book_url attic_href,
       detail [ py "Home"; py "Books"; py "Poetry"; py "A Light in the Attic" ]) ].

(** ** The specification's wording, for comparison *)

(** The rating of a token: the five words to their numbers, anything else to
    the missing value. *)
Definition rating_cell (s : str) : cell :=
  if str_eqb s (py "One") then CInt 1
  else if str_eqb s (py "Two") then CInt 2
  else if str_eqb s (py "Three") then CInt 3
  else if str_eqb s (py "Four") then CInt 4
  else if str_eqb s (py "Five") then CInt 5
  else CNaN.

(** The frame property of the normaliser as the specification words it: the
    frame carries the detail URLs of its books in some column, and that
    column, the titles, the availability texts and the categories are the
    same before and after. *)
Definition spec_frame_property (urls : list str) (before after : DataFrame)
  : Prop :=
  (exists k, dict_get before k = Some (map CStr urls)
             /\ dict_get after k = Some (map CStr urls))
  /\ dict_get after (py "Title") = dict_get before (py "Title")
  /\ dict_get after (py "Availability") = dict_get before (py "Availability")
  /\ dict_get after (py "Category") = dict_get before (py "Category").

(** [p in s]: [p] occurs somewhere in [s]. *)
Fixpoint occurs (p s : str) : bool :=
  match s with
  | [] => startswith p []
  | _ :: r => startswith p s || occurs p r
  end.

(** Stripping a leading prefix, once. *)
Definition removeprefix (p s : str) : str :=
  if startswith p s then skipn (List.length p) s else s.

(** The detail URL as the specification words it: the catalogue base path
    before the relative link with its leading prefix stripped. *)
Definition spec_detail_url (href : str) : str :=
  py "http://books.toscrape.com/catalogue/"
  ++ removeprefix (py "../../../") href.

(** A valid decimal number, in the widest reading of the specification's
    words: a float text that stands for a finite decimal, so with a digit
    in it. *)
Definition decimal_number (s : str) : Prop :=
  exists neg m e, float_text s (Finite neg m e).

(** The failure half of the price conversion as the specification words it:
    a run that gets to a book whose price text, without its first
    character, is no decimal number fails with [ValueError]. *)
Definition spec_price_failure (todecimal : N -> option N) (site : website)
  (pages : list N) : Prop :=
  forall p b pr log,
    reaches todecimal site pages p b -> book_price b = Ok pr ->
    ~ decimal_number (skipn 1 pr) ->
    fst (scrape_pages todecimal site pages log) = Raise ValueError.

(** ** Fixtures with a layout mismatch *)

(** The first listing page shows no product pod, the second shows three. *)
Definition podless_site : website :=
  serve
    [ (page_url 1, listing []);
      (page_url 2,
       listing [ plain_pod (py "p2b1") (py "£20.00") (py "Four");
                 plain_pod (py "p2b2") (py "£21.50") (py "Five");
                 plain_pod (py "p2b3") (py "£22.25") (py "One") ]);
      plain_detail (py "p2b1") (py "Music");
      plain_detail (py "p2b2") (py "Poetry");
      plain_detail (py "p2b3") (py "Music") ].

(** The detail page of the one book has no breadcrumb list. *)
Definition no_breadcrumb_site : website :=
  serve
    [ (page_url 1, listing [ attic_pod ]);
      (book_url attic_href,
       [ Tag (py "html") None [] [ Tag (py "body") None [] [] ] ]) ].

(** The breadcrumb list of the detail page has two items. *)
Definition two_crumbs_site : website :=
  serve
    [ (page_url 1, listing [ attic_pod ]);
      (book_url attic_href, detail [ py "Home"; py "Books" ]) ].

(** ** The number a float stores

    What CPython keeps for a parsed decimal: the binary64 number nearest to
    it, ties to the even significand, as a whole number of units of
    2^-1074 (the smallest positive binary64 number), or an infinity once the
    rounded magnitude reaches 2^1024.  NaN stores no number. *)

Inductive stored_value : Type :=
| NegInf
| Units (u : Z)
| PosInf.

(** The quotient [a / b] of two positive integers, rounded to the nearest
    integer, a tie to the even one. *)
Definition round_half_even (a b : Z) : Z :=
  let q := (a / b)%Z in
  let r := (a mod b)%Z in
  if (2 * r <? b)%Z then q
  else if (b <? 2 * r)%Z then (q + 1)%Z
  else if Z.even q then q else (q + 1)%Z.

(** The magnitude [n / d] in units of 2^-1074, rounded to 53 significant
    bits; below 2^53 units (the subnormal range) to a whole unit. *)
Definition round_units (n d : Z) : Z :=
  let a := (n * 2 ^ 1074)%Z in
  let s := Z.max 0 (Z.log2 (a / d) - 52) in
  (round_half_even a (d * 2 ^ s) * 2 ^ s)%Z.

Definition stored (f : pyfloat) : option stored_value :=
  match f with
  | Finite neg m e =>
      let u := if (0 <=? e)%Z then round_units (Z.of_N m * 10 ^ e) 1
               else round_units (Z.of_N m) (10 ^ (- e)) in
      if (2 ^ 2098 <=? u)%Z then Some (if neg then NegInf else PosInf)
      else Some (Units (if neg then - u else u)%Z)
  | Infinity neg => Some (if neg then NegInf else PosInf)
  | NaN => None
  end.

(** The number a hardware float holds, in the same units. *)
Definition units_of_float (f : PrimFloat.float) : option stored_value :=
  match FloatOps.Prim2SF f with
  | SpecFloat.S754_zero _ => Some (Units 0)
  | SpecFloat.S754_infinity s => Some (if s then NegInf else PosInf)
  | SpecFloat.S754_nan => None
  | SpecFloat.S754_finite s m e =>
      Some (Units ((if s then -1 else 1) * (Z.pos m * 2 ^ (e + 1074)))%Z)
  end.

Definition stored_leb (x y : stored_value) : bool :=
  match x, y with
  | NegInf, _ => true
  | _, PosInf => true
  | Units a, Units b => (a <=? b)%Z
  | _, _ => false
  end.

(** [a <= b] on two floats: the comparison of the stored numbers, false as
    soon as one of them is NaN. *)
Definition float_le (a b : pyfloat) : bool :=
  match stored a, stored b with
  | Some x, Some y => stored_leb x y
  | _, _ => false
  end.

(** ** The script after [load_data]

    The rest of the script works on [data = load_data()].  The frame
    [load_data] returns always has the five columns with strings for Title,
    Availability and Category, floats for Price and integers or NaN for
    Rating; the script is read on the table of its rows, a rating of [None]
    being NaN. *)

Record entry : Type := Entry {
  Title : str;
  Price : pyfloat;
  Availability : str;
  Rating : option Z;
  Category : str
}.

Definition table : Type := list entry.

(** The rows of five columns of cells, when the cells have the types
    above and the columns one length. *)
Fixpoint zip_rows (t p a r c : list cell) : option table :=
  match t, p, a, r, c with
  | [], [], [], [], [] => Some []
  | CStr t0 :: t', CFloat p0 :: p', CStr a0 :: a', r0 :: r', CStr c0 :: c' =>
      match r0 with
      | CInt n =>
          option_map (cons (Entry t0 p0 a0 (Some n) c0)) (zip_rows t' p' a' r' c')
      | CNaN =>
          option_map (cons (Entry t0 p0 a0 None c0)) (zip_rows t' p' a' r' c')
      | _ => None
      end
  | _, _, _, _, _ => None
  end.

Definition table_of (df : DataFrame) : option table :=
  match df with
  | [(k1, t); (k2, p); (k3, a); (k4, r); (k5, c)] =>
      if str_eqb k1 (py "Title") && str_eqb k2 (py "Price")
         && str_eqb k3 (py "Availability") && str_eqb k4 (py "Rating")
         && str_eqb k5 (py "Category")
      then zip_rows t p a r c
      else None
  | _ => None
  end.

(** The entry [load_data] makes of a scraped record. *)
Definition entry_of_row (r : book_row) : entry :=
  Entry (row_title r) (row_price r) (row_availability r)
        (dict_get rating_map (row_rating r)) (row_category r).

(** [a <= b] on two strings: by code points, the shorter first when one is
    a prefix of the other. *)
Fixpoint str_leb (a b : str) : bool :=
  match a, b with
  | [], _ => true
  | _ :: _, [] => false
  | x :: a', y :: b' =>
      if (x <? y)%N then true
      else if (y <? x)%N then false
      else str_leb a' b'
  end.

(** [series.unique()]: the values in the order of their first
    occurrence. *)
Fixpoint unique {A : Type} (eqb : A -> A -> bool) (l : list A) : list A :=
  match l with
  | [] => []
  | x :: r => x :: filter (fun y => negb (eqb y x)) (unique eqb r)
  end.

(** [sorted(l)]: the values in ascending order.  The order decides the
    result; it is computed here by insertion. *)
Fixpoint insert_sorted {A : Type} (leb : A -> A -> bool) (x : A) (l : list A)
  : list A :=
  match l with
  | [] => [x]
  | y :: r => if leb x y then x :: l else y :: insert_sorted leb x r
  end.

Fixpoint sorted {A : Type} (leb : A -> A -> bool) (l : list A) : list A :=
  match l with
  | [] => []
  | x :: r => insert_sorted leb x (sorted leb r)
  end.

(** Line 66: [sorted(data["Category"].unique())], the options and the
    default of the category selector. *)
Definition category_options (data : table) : list str :=
  sorted str_leb (unique str_eqb (map Category data)).

(** Line 67: [data["Price"].min()] and [data["Price"].max()], the ends and
    the default of the price slider.  NaN is skipped; without a number the
    result is NaN. *)
Fixpoint series_min (l : list pyfloat) : pyfloat :=
  match l with
  | [] => NaN
  | x :: r =>
      match stored x with
      | None => series_min r
      | Some _ =>
          match stored (series_min r) with
          | None => x
          | Some _ => if float_le x (series_min r) then x else series_min r
          end
      end
  end.

Fixpoint series_max (l : list pyfloat) : pyfloat :=
  match l with
  | [] => NaN
  | x :: r =>
      match stored x with
      | None => series_max r
      | Some _ =>
          match stored (series_max r) with
          | None => x
          | Some _ => if float_le (series_max r) x then x else series_max r
          end
      end
  end.

Definition price_min (data : table) : pyfloat := series_min (map Price data).
Definition price_max (data : table) : pyfloat := series_max (map Price data).

(** Line 67: the ends [st.slider] is built with, two finite numbers with the
    lower one below the upper one.  With equal ends (a single price in the
    data) the call raises and the script stops there. *)
Definition slider_accepts (lo hi : pyfloat) : bool :=
  match stored lo, stored hi with
  | Some (Units a), Some (Units b) => (a <? b)%Z
  | _, _ => false
  end.

(** Line 68: the options and the default of the rating selector. *)
Definition rating_options : list Z := [1; 2; 3; 4; 5]%Z.

(** [series.isin(values)] on one cell of the Category and of the Rating
    column; NaN is in no list of integers. *)
Definition isin_str (c : str) (values : list str) : bool :=
  existsb (str_eqb c) values.

Definition isin_rating (r : option Z) (values : list Z) : bool :=
  match r with
  | Some n => existsb (Z.eqb n) values
  | None => false
  end.

(** Lines 71 to 75: the rows of [data] that pass the four masks, for the
    values [categories], [(min_price, max_price)] and [ratings] the three
    widgets return. *)
Definition filtered_data (data : table) (categories : list str)
  (min_price max_price : pyfloat) (ratings : list Z) : table :=
  filter (fun e =>
            isin_str (Category e) categories
            && float_le min_price (Price e) && float_le (Price e) max_price
            && isin_rating (Rating e) ratings)
         data.

(** A row the masks of lines 71 to 75 let pass. *)
Definition selected (categories : list str) (min_price max_price : pyfloat)
  (ratings : list Z) (e : entry) : Prop :=
  In (Category e) categories
  /\ (exists n, Rating e = Some n /\ In n ratings)
  /\ float_le min_price (Price e) = true
  /\ float_le (Price e) max_price = true.

(** [series.nunique()] on a column of strings *)
Definition nunique (l : list str) : nat := List.length (unique str_eqb l).

(** Lines 84 and 85: the Unique Titles and the Categories metric. *)
Definition unique_titles (filtered : table) : nat :=
  nunique (map Title filtered).

Definition unique_categories (filtered : table) : nat :=
  nunique (map Category filtered).

(** The ratings of a table that are numbers. *)
Definition known_ratings (t : table) : list Z :=
  flat_map (fun e => match Rating e with Some n => [n] | None => [] end) t.

(** Line 125: [filtered_data["Rating"].value_counts().sort_index()]: each
    rating that occurs with the number of its rows, by ascending rating;
    NaN is not counted. *)
Definition rating_counts (filtered : table) : list (Z * nat) :=
  map (fun v => (v, count_occ Z.eq_dec (known_ratings filtered) v))
      (sorted Z.leb (unique Z.eqb (known_ratings filtered))).

(** [index.get_loc(v)] where [v in index] *)
Fixpoint get_loc (index : list Z) (v : Z) : option nat :=
  match index with
  | [] => None
  | x :: r => if (x =? v)%Z then Some 0 else option_map S (get_loc r v)
  end.

(** [l[i] = x] on a list, for an index within bounds *)
Fixpoint setitem {A : Type} (l : list A) (i : nat) (x : A) : list A :=
  match l, i with
  | [], _ => []
  | _ :: r, O => x :: r
  | y :: r, S j => y :: setitem r j x
  end.

(** Lines 126 to 128: the list of zeros with 0.1 at the place of rating 5,
    when 5 is among the ratings counted. *)
Definition explode (counts : list (Z * nat)) : list cell :=
  let zeros := repeat (CInt 0) (List.length counts) in
  match get_loc (map fst counts) 5 with
  | Some i => setitem zeros i (CFloat (Finite false 1 (-1)))
  | None => zeros
  end.

(** A text without white space at either end. *)
Definition stripped (s : str) : Prop :=
  (forall c, hd_error s = Some c -> isspace c = false)
  /\ (forall c, hd_error (rev s) = Some c -> isspace c = false).

(** [a] is [b] with some elements left out, the order kept. *)
Inductive subseq {A : Type} : list A -> list A -> Prop :=
| subseq_nil : subseq [] []
| subseq_skip x a b : subseq a b -> subseq a (x :: b)
| subseq_keep x a b : subseq a b -> subseq (x :: a) (x :: b).

(** A computation that only adds requests satisfying [P] to the log. *)
Definition requests_only {A : Type} (P : str -> Prop) (m : M A) : Prop :=
  forall log, exists added, snd (m log) = log ++ added /\ Forall P added.

(** A URL under the catalogue of the site. *)
Definition in_catalogue (url : str) : Prop :=
  startswith (py "http://books.toscrape.com/catalogue/") url = true.

(** An entry whose price is a number and whose rating is one of 1 to 5. *)
Definition presentable (e : entry) : bool :=
  match stored (Price e), Rating e with
  | Some _, Some n => (1 <=? n)%Z && (n <=? 5)%Z
  | _, _ => false
  end.

(** The table of the two listing pages of three books each. *)
Definition two_by_three_table : table := map entry_of_row two_by_three_rows.

(** A table with a book of unknown rating word and a book whose price text
    reads [nan]. *)
Definition odd_table : table :=
  [ Entry (py "a") (Finite false 1000 (-2)) (py "In stock") (Some 5%Z)
          (py "Travel");
    Entry (py "b") (Finite false 2000 (-2)) (py "In stock") None
          (py "Poetry");
    Entry (py "c") NaN (py "In stock") (Some 3%Z) (py "Travel");
    Entry (py "d") (Finite false 1500 (-2)) (py "In stock") (Some 3%Z)
          (py "Music") ].

(** A table that holds the same row twice. *)
Definition twin : entry :=
  Entry (py "a") (Finite false 1000 (-2)) (py "In stock") (Some 5%Z)
        (py "Travel").

Definition twin_table : table := [twin; twin].

(** * Properties *)

Unset Implicit Arguments.

(** ** Strings *)

Lemma str_eqb_eq (a b : str) : str_eqb a b = true <-> a = b.
Proof.
  revert b; induction a as [|x a IH]; intros [|y b]; simpl;
    try (split; congruence).
  rewrite andb_true_iff, N.eqb_eq, IH. split.
  - intros [-> ->]; reflexivity.
  - intros E; injection E; auto.
Qed.

Lemma str_eqb_refl (a : str) : str_eqb a a = true.
Proof. apply str_eqb_eq; reflexivity. Qed.

Lemma str_eqb_neq (a b : str) : str_eqb a b = false <-> a <> b.
Proof.
  rewrite <- str_eqb_eq. destruct (str_eqb a b); split; congruence.
Qed.

Lemma startswith_app (p s : str) : startswith p (p ++ s) = true.
Proof.
  induction p as [|x p IH]; simpl; [reflexivity|].
  rewrite N.eqb_refl, IH; reflexivity.
Qed.

(** ** The effect layer *)

Lemma bind_Ok {A B : Type} (m : M A) (k : A -> M B) log a log' :
  m log = (Ok a, log') -> bind m k log = k a log'.
Proof. unfold bind; intros ->; reflexivity. Qed.

Lemma bind_Ok_inv {A B : Type} (m : M A) (k : A -> M B) log b log2 :
  bind m k log = (Ok b, log2) ->
  exists a log1, m log = (Ok a, log1) /\ k a log1 = (Ok b, log2).
Proof.
  unfold bind. destruct (m log) as [[a|e] log1]; intros H.
  - exists a, log1; auto.
  - discriminate.
Qed.

(** ** Request discipline *)

Section Discipline.

Variable site : website.

Lemma disciplined_ret {A : Type} (a : A) : disciplined site (ret a).
Proof.
  intros log. exists []. simpl. rewrite app_nil_r. auto.
Qed.

Lemma disciplined_lift {A : Type} (r : result A) :
  quiet r -> disciplined site (lift r).
Proof.
  intros Q log. exists []. simpl. rewrite app_nil_r. split; [reflexivity|].
  destruct r as [a|[]]; auto. elim Q; reflexivity.
Qed.

Lemma disciplined_get (url : str) : disciplined site (requests_get site url).
Proof.
  intros log. exists [url]. unfold requests_get.
  destruct (site url) as [c|] eqn:E; simpl; split; auto.
  - constructor; [|constructor]. unfold answered; congruence.
  - exists [], url. auto.
Qed.

Lemma disciplined_bind {A B : Type} (m : M A) (k : A -> M B) :
  disciplined site m -> (forall a, disciplined site (k a)) ->
  disciplined site (bind m k).
Proof.
  intros Hm Hk log. unfold bind.
  destruct (Hm log) as (add1 & E1 & T1).
  destruct (m log) as [[a|e] log1]; simpl in *; subst log1.
  - destruct (Hk a (log ++ add1)) as (add2 & E2 & T2).
    exists (add1 ++ add2). rewrite E2, app_assoc. split; [reflexivity|].
    destruct (fst (k a (log ++ add1))) as [b|[]];
      try (apply Forall_app; auto).
    destruct T2 as (pre & u & -> & Hpre & Hu).
    exists (add1 ++ pre), u. rewrite app_assoc. repeat split; auto.
    apply Forall_app; auto.
  - exists add1. auto.
Qed.

Lemma disciplined_for_each {A S : Type} (body : A -> S -> M S) (l : list A) :
  (forall x s, disciplined site (body x s)) ->
  forall s, disciplined site (for_each l body s).
Proof.
  intros Hb. induction l as [|x l IH]; intros s; simpl.
  - apply disciplined_ret.
  - apply disciplined_bind; auto.
Qed.

End Discipline.

(** ** The expressions of the loop body raise no request failure *)

Ltac break_match :=
  match goal with
  | |- context [match ?x with _ => _ end] => destruct x
  end.

Ltac quiet_by_cases := unfold quiet; repeat break_match; congruence.

Lemma getattr_quiet x n : quiet (getattr x n).
Proof. unfold getattr. quiet_by_cases. Qed.

Lemma find_method_quiet x n c : quiet (find_method x n c).
Proof. unfold find_method. quiet_by_cases. Qed.

Lemma find_all_method_quiet x n : quiet (find_all_method x n).
Proof. unfold find_all_method. quiet_by_cases. Qed.

Lemma text_quiet x : quiet (text x).
Proof. unfold text. quiet_by_cases. Qed.

Lemma getitem_quiet x k : quiet (getitem x k).
Proof. unfold getitem. quiet_by_cases. Qed.

Lemma getitem_class_quiet x : quiet (getitem_class x).
Proof. unfold getitem_class. quiet_by_cases. Qed.

Lemma list_index_quiet {A : Type} (l : list A) i : quiet (list_index l i).
Proof. unfold list_index. quiet_by_cases. Qed.

Lemma and_then_quiet {A B : Type} (r : result A) (k : A -> result B) :
  quiet r -> (forall a, quiet (k a)) -> quiet (and_then r k).
Proof.
  unfold quiet, and_then. intros Hr Hk. destruct r as [a|e]; auto.
  intros H. apply Hr. injection H as ->. reflexivity.
Qed.

Lemma Ok_quiet {A : Type} (a : A) : quiet (Ok a).
Proof. unfold quiet; congruence. Qed.

Create HintDb quiet.

#[local] Hint Resolve getattr_quiet find_method_quiet find_all_method_quiet
  text_quiet getitem_quiet getitem_class_quiet list_index_quiet Ok_quiet
  : quiet.

Ltac quiet_steps :=
  repeat (apply and_then_quiet; [auto with quiet | intros ?]);
  auto with quiet.

Lemma book_title_quiet b : quiet (book_title b).
Proof. unfold book_title. quiet_steps. Qed.

Lemma book_price_quiet b : quiet (book_price b).
Proof. unfold book_price. quiet_steps. Qed.

Lemma book_availability_quiet b : quiet (book_availability b).
Proof. unfold book_availability. quiet_steps. Qed.

Lemma book_rating_quiet b : quiet (book_rating b).
Proof. unfold book_rating. quiet_steps. Qed.

Lemma book_href_quiet b : quiet (book_href b).
Proof. unfold book_href. quiet_steps. Qed.

Lemma soup_category_quiet s : quiet (soup_category s).
Proof. unfold soup_category. quiet_steps. Qed.

(** [float] raises nothing but [ValueError]. *)
Lemma float_raises todecimal s e : float todecimal s = Raise e -> e = ValueError.
Proof.
  unfold float, float_from_string_inner.
  repeat break_match; congruence.
Qed.

Lemma parse_price_quiet todecimal p : quiet (parse_price todecimal p).
Proof.
  unfold quiet, parse_price. intros H. apply float_raises in H. discriminate.
Qed.

#[local] Hint Resolve book_title_quiet book_price_quiet
  book_availability_quiet book_rating_quiet book_href_quiet
  soup_category_quiet parse_price_quiet : quiet.

(** ** The loops *)

Section Loops.

Variable todecimal : N -> option N.
Variable site : website.

Lemma scrape_book_disciplined b acc :
  disciplined site (scrape_book todecimal site b acc).
Proof.
  unfold scrape_book.
  repeat (apply disciplined_bind;
          [ first [ apply disciplined_get
                  | apply disciplined_lift; auto with quiet ]
          | intros ? ]).
  apply disciplined_ret.
Qed.

Lemma scrape_page_disciplined p acc :
  disciplined site (scrape_page todecimal site p acc).
Proof.
  unfold scrape_page. apply disciplined_bind; [apply disciplined_get|].
  intros soup. apply disciplined_for_each. intros; apply scrape_book_disciplined.
Qed.

Lemma scrape_pages_disciplined pages :
  disciplined site (scrape_pages todecimal site pages).
Proof.
  unfold scrape_pages. apply disciplined_bind.
  - apply disciplined_for_each. intros; apply scrape_page_disciplined.
  - intros; apply disciplined_ret.
Qed.

(** One pass of the inner loop body succeeds exactly when the book has a
    record; it then appends that record and has requested the detail page. *)
Lemma scrape_book_Ok b acc log acc' log' :
  scrape_book todecimal site b acc log = (Ok acc', log') <->
  exists r, book_row_of todecimal site b = Ok r
            /\ acc' = extend acc [r] /\ log' = log ++ [detail_url b].
Proof.
  unfold scrape_book, book_row_of, book_category, detail_url, extend.
  unfold bind, lift, ret, requests_get, and_then. simpl.
  destruct (book_title b) as [t|e];
    [|split; [discriminate | intros (r & H & _); discriminate]].
  destruct (book_price b) as [p|e];
    [|split; [discriminate | intros (r & H & _); discriminate]].
  destruct (book_availability b) as [a|e];
    [|split; [discriminate | intros (r & H & _); discriminate]].
  destruct (book_rating b) as [rt|e];
    [|split; [discriminate | intros (r & H & _); discriminate]].
  destruct (book_href b) as [h|e];
    [|split; [discriminate | intros (r & H & _); discriminate]].
  destruct (site (book_url h)) as [content|];
    [|split; [discriminate | intros (r & H & _); discriminate]].
  destruct (soup_category (BeautifulSoup content)) as [c|e];
    [|split; [discriminate | intros (r & H & _); discriminate]].
  destruct (parse_price todecimal p) as [x|e];
    [|split; [discriminate | intros (r & H & _); discriminate]].
  split.
  - intros H; injection H as <- <-. eexists; split; [reflexivity|]. auto.
  - intros (r & H & -> & ->). injection H as <-. reflexivity.
Qed.

Lemma extend_nil acc : extend acc [] = acc.
Proof.
  destruct acc; unfold extend; simpl. rewrite !app_nil_r. reflexivity.
Qed.

Lemma extend_app acc r1 r2 : extend (extend acc r1) r2 = extend acc (r1 ++ r2).
Proof.
  unfold extend; simpl. rewrite !map_app, !app_assoc. reflexivity.
Qed.

(** The inner loop succeeds exactly when every book has a record; the
    records are appended in the order of the books. *)
Lemma books_loop_Ok books acc log acc' log' :
  for_each books (scrape_book todecimal site) acc log = (Ok acc', log') <->
  exists rows, Forall2 (fun b r => book_row_of todecimal site b = Ok r) books rows
               /\ acc' = extend acc rows
               /\ log' = log ++ map detail_url books.
Proof.
  revert acc log. induction books as [|b books IH]; intros acc log; simpl.
  - unfold ret. split.
    + intros H; injection H as <- <-. exists []. rewrite extend_nil, app_nil_r.
      auto.
    + intros (rows & F & -> & ->). inversion F; subst.
      rewrite extend_nil, app_nil_r. reflexivity.
  - split.
    + intros H. apply bind_Ok_inv in H as (acc1 & log1 & H1 & H2).
      apply scrape_book_Ok in H1 as (r & Hr & -> & ->).
      apply IH in H2 as (rows & F & -> & ->).
      exists (r :: rows). rewrite extend_app, <- app_assoc. simpl. auto.
    + intros (rows & F & -> & ->). inversion F as [|? r ? rows' Hr F']; subst.
      erewrite bind_Ok.
      2:{ apply scrape_book_Ok. exists r. eauto. }
      apply IH. exists rows'. rewrite extend_app, <- app_assoc. simpl. auto.
Qed.

Lemma scrape_page_Ok p acc log acc' log' :
  scrape_page todecimal site p acc log = (Ok acc', log') <->
  answered site (page_url p) /\
  exists rows, Forall2 (fun b r => book_row_of todecimal site b = Ok r)
                       (books_on site p) rows
               /\ acc' = extend acc rows
               /\ log' = log ++ requests_of site p.
Proof.
  unfold scrape_page, requests_of, books_on, answered, bind, requests_get.
  destruct (site (page_url p)) as [content|].
  - rewrite books_loop_Ok. simpl. rewrite <- app_assoc. simpl.
    split.
    + intros H; split; [congruence | exact H].
    + intros [_ H]; exact H.
  - split; [discriminate | intros [H _]; congruence].
Qed.

(** The outer loop: every listing page is answered and every book met has a
    record; records and requests follow the traversal. *)
Lemma pages_loop_Ok pages acc log acc' log' :
  for_each pages (scrape_page todecimal site) acc log = (Ok acc', log') <->
  Forall (fun p => answered site (page_url p)) pages /\
  exists rows, Forall2 (fun b r => book_row_of todecimal site b = Ok r)
                       (flat_map (books_on site) pages) rows
               /\ acc' = extend acc rows
               /\ log' = log ++ flat_map (requests_of site) pages.
Proof.
  revert acc log. induction pages as [|p pages IH]; intros acc log; simpl.
  - unfold ret. split.
    + intros H; injection H as <- <-. split; [constructor|].
      exists []. rewrite extend_nil, app_nil_r. auto.
    + intros (_ & rows & F & -> & ->). inversion F; subst.
      rewrite extend_nil, app_nil_r. reflexivity.
  - split.
    + intros H. apply bind_Ok_inv in H as (acc1 & log1 & H1 & H2).
      apply scrape_page_Ok in H1 as (Hp & r1 & F1 & -> & ->).
      apply IH in H2 as (Hps & r2 & F2 & -> & ->).
      split; [constructor; auto|].
      exists (r1 ++ r2). rewrite extend_app, <- app_assoc.
      split; [apply Forall2_app; auto | auto].
    + intros (Hps & rows & F & -> & ->).
      inversion Hps as [|? ? Hp Hps']; subst.
      apply Forall2_app_inv_l in F as (r1 & r2 & F1 & F2 & ->).
      erewrite bind_Ok.
      2:{ apply scrape_page_Ok. split; [exact Hp|]. exists r1. eauto. }
      apply IH. split; [exact Hps'|]. exists r2.
      rewrite extend_app, <- app_assoc. auto.
Qed.

Lemma to_frame_extend rows : to_frame (extend no_columns rows) = frame_of_rows rows.
Proof.
  unfold to_frame, extend, frame_of_rows; simpl. rewrite !map_map. reflexivity.
Qed.

(** A run over [pages] returns a frame exactly when every listing page is
    answered and every book met has a record; the frame then holds the
    records in traversal order and the log the requests in that order. *)
Lemma scrape_pages_Ok pages log df log' :
  scrape_pages todecimal site pages log = (Ok df, log') <->
  Forall (fun p => answered site (page_url p)) pages /\
  exists rows, Forall2 (fun b r => book_row_of todecimal site b = Ok r)
                       (flat_map (books_on site) pages) rows
               /\ df = frame_of_rows rows
               /\ log' = log ++ flat_map (requests_of site) pages.
Proof.
  unfold scrape_pages. split.
  - intros H. apply bind_Ok_inv in H as (acc & log1 & H1 & H2).
    apply pages_loop_Ok in H1 as (Hp & rows & F & -> & ->).
    unfold ret in H2. injection H2 as <- <-.
    split; [exact Hp|]. exists rows. rewrite to_frame_extend. auto.
  - intros (Hp & rows & F & -> & ->).
    erewrite bind_Ok.
    2:{ apply pages_loop_Ok. split; [exact Hp|]. exists rows. eauto. }
    unfold ret. rewrite to_frame_extend. reflexivity.
Qed.

End Loops.

(** ** Frames *)

Lemma iloc_frame_of_rows rows i :
  iloc (frame_of_rows rows) i = option_map cells_of (nth_error rows i).
Proof.
  unfold frame_of_rows, iloc; simpl. rewrite !nth_error_map.
  destruct (nth_error rows i); reflexivity.
Qed.

Lemma len_frame_of_rows rows : len (frame_of_rows rows) = List.length rows.
Proof. unfold frame_of_rows, len. apply length_map. Qed.

(** ** First failure *)

Section FirstFailure.

Variable todecimal : N -> option N.
Variable site : website.

(** The outcome of one pass of the inner loop body is the outcome of
    reading the book's record: the same value, or the same exception. *)
Lemma scrape_book_outcome b acc log :
  fst (scrape_book todecimal site b acc log) =
  match book_row_of todecimal site b with
  | Ok r => Ok (extend acc [r])
  | Raise e => Raise e
  end.
Proof.
  unfold scrape_book, book_row_of, book_category, extend.
  unfold bind, lift, ret, requests_get, and_then. simpl.
  destruct (book_title b) as [t|e]; [|reflexivity].
  destruct (book_price b) as [p|e]; [|reflexivity].
  destruct (book_availability b) as [a|e]; [|reflexivity].
  destruct (book_rating b) as [rt|e]; [|reflexivity].
  destruct (book_href b) as [h|e]; [|reflexivity].
  destruct (site (book_url h)) as [content|]; [|reflexivity].
  destruct (soup_category (BeautifulSoup content)) as [c|e]; [|reflexivity].
  destruct (parse_price todecimal p) as [x|e]; reflexivity.
Qed.

Lemma for_each_first_failure {A S : Type} (body : A -> S -> M S)
  (l1 l2 : list A) x s log s1 log1 e :
  for_each l1 body s log = (Ok s1, log1) ->
  fst (body x s1 log1) = Raise e ->
  fst (for_each (l1 ++ x :: l2) body s log) = Raise e.
Proof.
  revert s log. induction l1 as [|y l1 IH]; intros s log H1 H2; simpl in *.
  - unfold ret in H1. injection H1 as -> ->.
    unfold bind. destruct (body x s1 log1) as [[s2|e'] log2]; simpl in *.
    + discriminate.
    + exact H2.
  - apply bind_Ok_inv in H1 as (s' & log' & Hy & Hrest).
    erewrite bind_Ok by exact Hy. eapply IH; eauto.
Qed.

Lemma Forall_records books :
  Forall (fun b => exists r, book_row_of todecimal site b = Ok r) books ->
  exists rows,
    Forall2 (fun b r => book_row_of todecimal site b = Ok r) books rows.
Proof.
  induction 1 as [|b books [r Hr] _ [rows IH]].
  - exists []; constructor.
  - exists (r :: rows); constructor; auto.
Qed.

(** When the traversal gets to a book whose record cannot be read, the run
    ends with the exception of that book. *)
Lemma first_failure pages p b e log :
  reaches todecimal site pages p b ->
  book_row_of todecimal site b = Raise e ->
  fst (scrape_pages todecimal site pages log) = Raise e.
Proof.
  intros (ps1 & ps2 & bs1 & bs2 & -> & Hb & Hp & Hr) He.
  apply Forall_app in Hp as [Hp1 Hp]. inversion Hp as [|? ? Hpp _]; subst.
  apply Forall_app in Hr as [Hr1 Hr2].
  apply Forall_records in Hr1 as [rows1 F1].
  apply Forall_records in Hr2 as [rows2 F2].
  unfold scrape_pages, bind.
  assert (E : fst (for_each (ps1 ++ p :: ps2) (scrape_page todecimal site)
                     no_columns log) = Raise e).
  { eapply for_each_first_failure.
    - apply pages_loop_Ok. split; [exact Hp1|]. exists rows1. eauto.
    - unfold scrape_page, bind, requests_get.
      unfold answered in Hpp. unfold books_on in Hb.
      destruct (site (page_url p)) as [content|]; [|congruence].
      rewrite Hb. eapply for_each_first_failure.
      + apply books_loop_Ok. exists rows2. eauto.
      + rewrite scrape_book_outcome, He. reflexivity. }
  destruct (for_each (ps1 ++ p :: ps2) (scrape_page todecimal site)
              no_columns log) as [[acc|e'] log']; simpl in E.
  - discriminate.
  - simpl. injection E as ->. reflexivity.
Qed.

(** A run that returns a frame has read a record for every book of every
    page. *)
Lemma success_covers pages log df log' p b :
  scrape_pages todecimal site pages log = (Ok df, log') ->
  In p pages -> In b (books_on site p) ->
  exists r, book_row_of todecimal site b = Ok r.
Proof.
  intros H Hp Hb. apply scrape_pages_Ok in H as (_ & rows & F & _).
  assert (Hin : In b (flat_map (books_on site) pages))
    by (apply in_flat_map; eauto).
  clear - F Hin. induction F as [|b' r ? ? Hr F IH]; simpl in Hin.
  - contradiction.
  - destruct Hin as [->|Hin]; eauto.
Qed.

End FirstFailure.

(** ** Records and requests *)

Lemma Forall2_nth {A B : Type} (P : A -> B -> Prop) l1 l2 i a :
  Forall2 P l1 l2 -> nth_error l1 i = Some a ->
  exists b, nth_error l2 i = Some b /\ P a b.
Proof.
  intros F. revert i. induction F as [|x y ? ? Hxy F IH]; intros [|i] Hi;
    simpl in *; try discriminate.
  - injection Hi as <-. eauto.
  - apply IH; exact Hi.
Qed.

Lemma book_row_of_Ok todecimal site b r :
  book_row_of todecimal site b = Ok r <->
  book_title b = Ok (row_title r)
  /\ (exists p, book_price b = Ok p
                /\ parse_price todecimal p = Ok (row_price r))
  /\ book_availability b = Ok (row_availability r)
  /\ book_rating b = Ok (row_rating r)
  /\ book_category site b = Ok (row_category r).
Proof.
  unfold book_row_of, and_then.
  destruct (book_title b) as [t|e];
    [|split; [discriminate | intros (H & _); discriminate]].
  destruct (book_price b) as [p|e];
    [|split; [discriminate | intros (_ & (? & H & _) & _); discriminate]].
  destruct (book_availability b) as [a|e];
    [|split; [discriminate | intros (_ & _ & H & _); discriminate]].
  destruct (book_rating b) as [rt|e];
    [|split; [discriminate | intros (_ & _ & _ & H & _); discriminate]].
  destruct (book_category site b) as [c|e];
    [|split; [discriminate | intros (_ & _ & _ & _ & H); discriminate]].
  destruct (parse_price todecimal p) as [x|e] eqn:Ex.
  - split.
    + intros H; injection H as <-. simpl. eauto 10.
    + intros (Ht & (p' & Hp & Hx) & Ha & Hr & Hc). destruct r; simpl in *.
      congruence.
  - split; [discriminate|].
    intros (_ & (p' & Hp & Hx) & _). congruence.
Qed.

Lemma requests_length site pages :
  List.length (flat_map (requests_of site) pages) =
  List.length pages + List.length (flat_map (books_on site) pages).
Proof.
  induction pages as [|p pages IH]; simpl; [reflexivity|].
  rewrite !length_app, length_map, IH. lia.
Qed.

Lemma books_uniform site pages n :
  (forall p, In p pages -> List.length (books_on site p) = n) ->
  List.length (flat_map (books_on site) pages) = List.length pages * n.
Proof.
  induction pages as [|p pages IH]; intros H; simpl; [reflexivity|].
  rewrite length_app, IH, (H p (or_introl eq_refl)).
  - reflexivity.
  - intros q Hq. apply H. right; exact Hq.
Qed.

Lemma last_request {A : Type} (pre pre' post : list A) u u' :
  pre ++ u :: post = pre' ++ [u'] -> post = [] \/ In u pre'.
Proof.
  revert pre'. induction pre as [|x pre IH]; intros [|y pre'] E; simpl in E.
  - injection E; auto.
  - injection E as -> _. right; left; reflexivity.
  - injection E as _ E. destruct pre; discriminate.
  - injection E as _ E. destruct (IH _ E); auto. right; right; assumption.
Qed.

(** A run started with an empty log: a request that was not answered is the
    last one, and the run ends in [RequestException]. *)
Lemma unanswered_is_last todecimal site pages r log pre u post :
  scrape_pages todecimal site pages [] = (r, log) ->
  log = pre ++ u :: post -> site u = None ->
  post = [] /\ r = Raise RequestException.
Proof.
  intros H -> Hu.
  destruct (scrape_pages_disciplined todecimal site pages []) as (added & E & T).
  rewrite H in E, T. simpl in E, T. subst added.
  assert (Hno : ~ Forall (answered site) (pre ++ u :: post)).
  { intros F. apply Forall_app in F as [_ F]. inversion F; subst. auto. }
  destruct r as [df|[]]; try contradiction.
  destruct T as (pre' & u' & E & Fpre & Hu'). split; [|reflexivity].
  destruct (last_request _ _ _ _ _ E) as [->|Hin]; [reflexivity|].
  rewrite Forall_forall in Fpre. elim (Fpre _ Hin). exact Hu.
Qed.

(** ** The texts [float] accepts *)

Lemma is_digit_spec c :
  is_digit c = true <-> exists d, (d < 10)%N /\ c = (48 + d)%N.
Proof.
  unfold is_digit. rewrite andb_true_iff, !N.leb_le. split.
  - intros [H1 H2]. exists (c - 48)%N. lia.
  - intros (d & Hd & ->). lia.
Qed.

Lemma take_digits_spec s ds rest :
  take_digits s = (ds, rest) ->
  s = digits_text ds ++ rest /\ all_digits ds /\ no_digit_ahead rest.
Proof.
  revert ds rest. induction s as [|c s IH]; simpl; intros ds rest H.
  - injection H as <- <-. repeat split. constructor.
  - destruct (is_digit c) eqn:E.
    + destruct (take_digits s) as [ds' rest'] eqn:Es.
      injection H as <- <-.
      destruct (IH _ _ eq_refl) as (-> & Hd & Hn).
      apply is_digit_spec in E as (d & Hlt & ->).
      repeat split; auto.
      * unfold digits_text. cbn [map app]. f_equal. lia.
      * constructor; [lia|exact Hd].
    + injection H as <- <-. repeat split; [constructor|exact E].
Qed.

Lemma take_digits_app ds y :
  all_digits ds -> no_digit_ahead y ->
  take_digits (digits_text ds ++ y) = (ds, y).
Proof.
  intros Hd Hy. induction Hd as [|d ds Hlt Hd IH].
  - destruct y as [|c y]; [reflexivity|]. simpl in Hy. simpl. rewrite Hy.
    reflexivity.
  - assert (E : is_digit (48 + d) = true)
      by (apply is_digit_spec; exists d; auto).
    unfold digits_text in *. cbn [map app take_digits]. rewrite E, IH.
    f_equal. f_equal. lia.
Qed.

Lemma take_sign_eq c r :
  take_sign (c :: r)
  = if (c =? 45)%N then (true, r)
    else if (c =? 43)%N then (false, r) else (false, c :: r).
Proof.
  destruct c as [|p]; [reflexivity|].
  do 7 (try destruct p as [p|p|]); reflexivity.
Qed.

Lemma point_eq (s : str) :
  match s with
  | 46%N :: r => take_digits r
  | _ => ([], s)
  end
  = match s with
    | c :: r => if (c =? 46)%N then take_digits r else ([], s)
    | [] => ([], s)
    end.
Proof.
  destruct s as [|c r]; [reflexivity|].
  destruct c as [|p]; [reflexivity|].
  do 7 (try destruct p as [p|p|]); reflexivity.
Qed.

(** A text that does not go on with a sign. *)
Lemma take_sign_spec s neg rest :
  take_sign s = (neg, rest) -> exists st, sign_text neg st /\ s = st ++ rest.
Proof.
  destruct s as [|c r].
  - simpl. intros H. injection H as <- <-. exists []. simpl. auto.
  - rewrite take_sign_eq.
    destruct (N.eqb_spec c 45) as [->|_].
    + intros H. injection H as <- <-. exists [45%N]. simpl. auto.
    + destruct (N.eqb_spec c 43) as [->|_]; intros H; injection H as <- <-.
      * exists [43%N]. simpl. auto.
      * exists []. simpl. auto.
Qed.

Lemma take_sign_app neg st y :
  sign_text neg st ->
  match y with c :: _ => c <> 45%N /\ c <> 43%N | [] => True end ->
  take_sign (st ++ y) = (neg, y).
Proof.
  intros Hs Hy. destruct neg; simpl in Hs.
  - subst st. reflexivity.
  - destruct Hs as [-> | ->]; [|reflexivity].
    destruct y as [|c y]; [reflexivity|]. simpl app. rewrite take_sign_eq.
    destruct Hy as [H1 H2].
    destruct (N.eqb_spec c 45); [contradiction|].
    destruct (N.eqb_spec c 43); [contradiction|]. reflexivity.
Qed.

Lemma digits_head_not_sign ds y :
  all_digits ds -> ds <> [] ->
  match digits_text ds ++ y with
  | c :: _ => c <> 45%N /\ c <> 43%N
  | [] => True
  end.
Proof.
  intros Hd Hn. destruct Hd as [|d ds Hlt _]; [congruence|].
  unfold digits_text. cbn [map app]. lia.
Qed.

Lemma exponent_no_digit ex et : exponent_text ex et -> no_digit_ahead et.
Proof.
  intros [[_ ->]|(c & eneg & est & ed & Hc & _ & _ & _ & -> & _)];
    simpl; [exact I|].
  destruct Hc as [-> | ->]; reflexivity.
Qed.

Lemma strtod_sound u v rest :
  strtod u = Some (v, rest) ->
  exists pre, u = pre ++ rest /\ number_text pre v.
Proof.
  unfold strtod.
  destruct (take_sign u) as [neg s1] eqn:Esign.
  destruct (take_digits s1) as [ip s2] eqn:Eip.
  rewrite point_eq.
  apply take_sign_spec in Esign as (st & Hst & ->).
  apply take_digits_spec in Eip as (-> & Hip & Hs2).
  assert (P : forall fp s3 pt,
             point_text fp pt -> all_digits fp -> no_digit_ahead s3 ->
             s2 = pt ++ s3 ->
             match ip ++ fp with
             | [] => None
             | _ :: _ =>
                 let m := digits_value (ip ++ fp) in
                 let scale := Z.of_nat (List.length fp) in
                 match s3 with
                 | [] => Some (Finite neg m (- scale), s3)
                 | c :: r =>
                     if ((c =? 101) || (c =? 69))%N
                     then
                       let (eneg, r1) := take_sign r in
                       let (ed, r2) := take_digits r1 in
                       match ed with
                       | [] => Some (Finite neg m (- scale), s3)
                       | _ :: _ =>
                           let e := Z.of_N (digits_value ed) in
                           Some (Finite neg m
                                   ((if eneg then - e else e) - scale), r2)
                       end
                     else Some (Finite neg m (- scale), s3)
                 end
             end = Some (v, rest) ->
             exists pre,
               st ++ digits_text ip ++ s2 = pre ++ rest
               /\ number_text pre v).
  { intros fp s3 pt Hpt Hfp Hs3 -> H.
    destruct (ip ++ fp) as [|x l] eqn:Enon; [discriminate|].
    assert (Hnon : ip ++ fp <> []) by congruence. rewrite <- Enon in *.
    clear Enon. cbv zeta in H.
    assert (Plain :
              Some (Finite neg (digits_value (ip ++ fp))
                      (- Z.of_nat (List.length fp)), s3) = Some (v, rest) ->
              exists pre,
                st ++ digits_text ip ++ pt ++ s3 = pre ++ rest
                /\ number_text pre v).
    { intros E. injection E as <- <-.
      exists (st ++ digits_text ip ++ pt ++ []).
      split; [rewrite app_nil_r, <- !app_assoc; reflexivity|].
      exists neg, st, ip, fp, pt, 0%Z, [].
      repeat split; auto. left; auto. }
    destruct s3 as [|c r]; [exact (Plain H)|].
    destruct ((c =? 101) || (c =? 69))%N eqn:Ec; [|exact (Plain H)].
    destruct (take_sign r) as [eneg r1] eqn:Es.
    destruct (take_digits r1) as [ed r2] eqn:Ed.
    destruct ed as [|d ed']; [exact (Plain H)|].
    injection H as <- <-.
    apply take_sign_spec in Es as (est & Hest & ->).
    apply take_digits_spec in Ed as (-> & Hed & _).
    exists (st ++ digits_text ip ++ pt
            ++ c :: est ++ digits_text (d :: ed')).
    split.
    - rewrite <- !app_assoc. simpl. rewrite <- !app_assoc. reflexivity.
    - exists neg, st, ip, fp, pt,
        (if eneg then - Z.of_N (digits_value (d :: ed'))
         else Z.of_N (digits_value (d :: ed')))%Z,
        (c :: est ++ digits_text (d :: ed')).
      repeat split; auto.
      right. exists c, eneg, est, (d :: ed').
      repeat split; auto; [|congruence].
      apply orb_true_iff in Ec as [E|E]; apply N.eqb_eq in E; auto. }
  destruct s2 as [|c r].
  - intros H. refine (P [] [] [] _ _ _ _ H); auto.
    + left; auto.
    + constructor.
  - destruct (N.eqb_spec c 46) as [->|Hc].
    + destruct (take_digits r) as [fp s3] eqn:Efp.
      apply take_digits_spec in Efp as (-> & Hfp & Hs3).
      intros H. refine (P fp s3 (46%N :: digits_text fp) _ _ _ _ H); auto.
      right; reflexivity.
    + intros H. refine (P [] (c :: r) [] _ _ _ _ H); auto.
      * left; auto.
      * constructor.
Qed.

Lemma strtod_complete u v : number_text u v -> strtod u = Some (v, []).
Proof.
  intros (neg & st & ip & fp & pt & ex & et
          & Hst & Hip & Hfp & Hnon & Hpt & Hex & -> & ->).
  pose proof (exponent_no_digit _ _ Hex) as Het.
  assert (Hrest : no_digit_ahead (pt ++ et)).
  { destruct Hpt as [[_ ->]| ->]; [exact Het|reflexivity]. }
  unfold strtod.
  rewrite (take_sign_app neg st).
  2: exact Hst.
  2:{ destruct ip as [|d ip'].
      - destruct Hpt as [[-> _]| ->]; [elim Hnon; reflexivity|].
        simpl. split; discriminate.
      - apply digits_head_not_sign; [exact Hip|discriminate]. }
  cbv beta iota.
  rewrite (take_digits_app ip (pt ++ et) Hip Hrest). cbv beta iota.
  rewrite point_eq.
  match goal with
  | |- (let (_, _) := ?X in _) = _ => assert (E : X = (fp, et))
  end.
  { destruct Hpt as [[-> ->]| ->].
    - simpl. destruct et as [|c r]; [reflexivity|].
      destruct Hex as [[_ H]|(c' & eneg & est & ed & Hc & _ & _ & _ & H & _)];
        [discriminate|].
      injection H as -> _.
      destruct Hc as [-> | ->]; reflexivity.
    - simpl. apply take_digits_app; assumption. }
  rewrite E. cbv beta iota.
  destruct (ip ++ fp) as [|x l] eqn:Enon; [contradiction|].
  rewrite <- Enon. cbv zeta.
  destruct Hex as [[-> ->]|(c & eneg & est & ed & Hc & Hest & Hed & Hne & -> & ->)].
  - reflexivity.
  - assert (Ec : ((c =? 101) || (c =? 69))%N = true)
      by (destruct Hc as [-> | ->]; reflexivity).
    rewrite Ec.
    rewrite (take_sign_app eneg est); [|exact Hest|].
    2:{ pose proof (digits_head_not_sign ed [] Hed Hne) as Hh.
        rewrite app_nil_r in Hh. exact Hh. }
    cbv beta iota.
    rewrite <- (app_nil_r (digits_text ed)).
    rewrite (take_digits_app ed [] Hed I). cbv beta iota.
    destruct ed; [contradiction|]. reflexivity.
Qed.

Lemma startswith_whole p l :
  startswith p l = true -> List.length l <= List.length p -> l = p.
Proof.
  revert l. induction p as [|x p IH]; intros [|y l]; simpl; intros H L;
    try reflexivity; try discriminate; try lia.
  apply andb_true_iff in H as [E H]. apply N.eqb_eq in E. subst.
  f_equal. apply IH; [exact H|lia].
Qed.

Lemma skipn_nil_length {A : Type} n (l : list A) :
  skipn n l = [] -> List.length l <= n.
Proof.
  intros H. pose proof (length_skipn n l) as L. rewrite H in L. simpl in L.
  lia.
Qed.

Lemma some_skipn_nil {A B : Type} (a b : B) n (l : list A) :
  Some (a, skipn n l) = Some (b, []) -> a = b /\ List.length l <= n.
Proof.
  generalize (skipn_nil_length n l). generalize (skipn n l).
  intros r Hr H. injection H as -> ->. split; [reflexivity|]. apply Hr.
  reflexivity.
Qed.

(** The first letter of a word: no digit, no sign and no point. *)
Lemma word_head a x :
  lower a = x -> x = 105%N \/ x = 110%N ->
  is_digit a = false /\ a <> 45%N /\ a <> 43%N /\ (a =? 46)%N = false.
Proof.
  unfold lower, is_digit. intros E Hx.
  destruct ((65 <=? a) && (a <=? 90))%N eqn:U.
  - apply andb_true_iff in U as [U1 U2].
    apply N.leb_le in U1, U2.
    repeat split; try lia.
    + apply andb_false_iff. right. apply N.leb_gt. lia.
    + apply N.eqb_neq. lia.
  - subst x. repeat split; try lia.
    + apply andb_false_iff. right. apply N.leb_gt. lia.
    + apply N.eqb_neq. lia.
Qed.

Lemma word_text_head u v :
  word_text u v ->
  exists neg st a w,
    sign_text neg st /\ u = st ++ a :: w
    /\ is_digit a = false /\ a <> 45%N /\ a <> 43%N /\ (a =? 46)%N = false
    /\ (((map lower (a :: w) = py "inf" \/ map lower (a :: w) = py "infinity")
         /\ v = Infinity neg)
        \/ (map lower (a :: w) = py "nan" /\ v = NaN)).
Proof.
  intros (neg & st & w & Hst & -> & H).
  destruct w as [|a w].
  - destruct H as [[[H|H] _]|[H _]]; discriminate.
  - exists neg, st, a, w.
    assert (Ha : lower a = 105%N \/ lower a = 110%N).
    { destruct H as [[[H|H] _]|[H _]]; injection H as H _; auto. }
    destruct (word_head a (lower a) eq_refl Ha) as (H1 & H2 & H3 & H4).
    repeat split; auto.
Qed.

Lemma parse_inf_or_nan_sound u v :
  parse_inf_or_nan u = Some (v, []) -> word_text u v.
Proof.
  unfold parse_inf_or_nan.
  destruct (take_sign u) as [neg s1] eqn:Es.
  apply take_sign_spec in Es as (st & Hst & ->).
  cbv zeta.
  destruct (startswith (py "inf") (map lower s1)) eqn:E1.
  - destruct (startswith (py "infinity") (map lower s1)) eqn:E2;
      intros H; apply some_skipn_nil in H as [<- H];
      exists neg, st, s1; repeat split; auto; left; split; auto.
    + right. apply startswith_whole; [exact E2|]. rewrite length_map.
      exact H.
    + left. apply startswith_whole; [exact E1|]. rewrite length_map.
      exact H.
  - destruct (startswith (py "nan") (map lower s1)) eqn:E3; [|discriminate].
    intros H; apply some_skipn_nil in H as [<- H].
    exists neg, st, s1. repeat split; auto. right. split; auto.
    apply startswith_whole; [exact E3|]. rewrite length_map. exact H.
Qed.

Lemma parse_inf_or_nan_complete u v :
  word_text u v ->
  strtod u = None /\ parse_inf_or_nan u = Some (v, []).
Proof.
  intros H.
  destruct (word_text_head u v H)
    as (neg & st & a & w & Hst & -> & Hd & Hm & Hp & Hpt & Hw).
  assert (Hs : take_sign (st ++ a :: w) = (neg, a :: w))
    by (apply take_sign_app; auto).
  split.
  - unfold strtod. rewrite Hs. cbv beta iota.
    cbn [take_digits]. rewrite Hd. clear - Hpt.
    destruct a as [|p]; [reflexivity|].
    do 7 (try destruct p as [p|p|]); try reflexivity; discriminate Hpt.
  - unfold parse_inf_or_nan. rewrite Hs. cbv beta iota zeta.
    assert (L : List.length (map lower (a :: w)) = List.length (a :: w))
      by apply length_map.
    destruct Hw as [[[E|E] ->]|[E ->]]; rewrite E in *; cbn [startswith].
    + simpl. destruct w as [|b [|c [|? ?]]]; try discriminate. reflexivity.
    + simpl.
      destruct w as [|b1 [|b2 [|b3 [|b4 [|b5 [|b6 [|b7 [|? ?]]]]]]]];
        try discriminate.
      reflexivity.
    + simpl. destruct w as [|b [|c [|? ?]]]; try discriminate. reflexivity.
Qed.

(** The parser of the number proper accepts exactly the numbers and the
    words, with their values. *)
Lemma float_from_string_inner_Ok u v :
  float_from_string_inner u = Ok v <-> number_text u v \/ word_text u v.
Proof.
  unfold float_from_string_inner. split.
  - destruct (strtod u) as [[v' rest]|] eqn:E.
    + destruct rest; [|discriminate]. intros H. injection H as <-.
      apply strtod_sound in E as (pre & -> & Hn).
      rewrite app_nil_r. left. exact Hn.
    + destruct (parse_inf_or_nan u) as [[v' rest]|] eqn:E2; [|discriminate].
      destruct rest; [|discriminate]. intros H. injection H as <-.
      right. apply parse_inf_or_nan_sound. exact E2.
  - intros [H|H].
    + rewrite (strtod_complete _ _ H). reflexivity.
    + destruct (parse_inf_or_nan_complete _ _ H) as [-> ->]. reflexivity.
Qed.

(** *** Underscores *)

Lemma grouped_head_not_underscore b u : grouped (95%N :: b) u -> False.
Proof.
  intros H. inversion H; subst.
  - congruence.
  - discriminate.
Qed.

Lemma grouped_cons prev s u :
  prev <> 95%N ->
  (grouped (prev :: s) (prev :: u)
   <-> (grouped s u
        \/ exists d2 b u',
             s = 95%N :: d2 :: b /\ u = d2 :: u' /\ is_digit prev = true
             /\ is_digit d2 = true /\ grouped (d2 :: b) (d2 :: u'))).
Proof.
  intros Hp. split.
  - intros H. inversion H; subst.
    + left. assumption.
    + right. eauto 10.
  - intros [H|(d2 & b & u' & -> & -> & H1 & H2 & H)].
    + apply grouped_char; assumption.
    + apply grouped_under; assumption.
Qed.

Lemma drop_underscores_grouped n :
  forall prev s u, List.length s <= n -> prev <> 95%N ->
    (drop_underscores prev s = Some u <-> grouped (prev :: s) (prev :: u)).
Proof.
  induction n as [|n IH]; intros prev s u L Hp.
  - destruct s; [|simpl in L; lia]. simpl.
    apply N.eqb_neq in Hp. rewrite Hp. split.
    + intros H. injection H as <-. apply grouped_char.
      * apply N.eqb_neq. exact Hp.
      * constructor.
    + intros H. inversion H; subst. inversion H4. reflexivity.
  - destruct s as [|c r].
    + simpl. pose proof Hp as Hp'. apply N.eqb_neq in Hp'. rewrite Hp'. split.
      * intros H. injection H as <-. apply grouped_char; [exact Hp|constructor].
      * intros H. inversion H; subst. inversion H4. reflexivity.
    + rewrite (grouped_cons prev (c :: r) u Hp).
      cbn [drop_underscores].
      destruct (c =? 95)%N eqn:Ec.
      * apply N.eqb_eq in Ec. subst c.
        destruct (is_digit prev) eqn:Dp.
        -- destruct r as [|c2 r2].
           ++ simpl. split; [discriminate|].
              intros [H|(d2 & b & u' & E & _)];
                [elim (grouped_head_not_underscore _ _ H)|discriminate].
           ++ cbn [drop_underscores].
              destruct (c2 =? 95)%N eqn:Ec2.
              ** cbn [is_digit]. simpl. split; [discriminate|].
                 apply N.eqb_eq in Ec2. subst c2.
                 intros [H|(d2 & b & u' & E & _ & _ & D2 & _)].
                 --- elim (grouped_head_not_underscore _ _ H).
                 --- injection E as <- _. discriminate D2.
              ** cbn [N.eqb Pos.eqb andb].
                 destruct (is_digit c2) eqn:D2; cbn [negb].
                 --- assert (L2 : List.length r2 <= n) by (simpl in L; lia).
                     assert (H2 : c2 <> 95%N) by (apply N.eqb_neq; exact Ec2).
                     split.
                     +++ destruct (drop_underscores c2 r2) as [u'|] eqn:E;
                           [|discriminate].
                         intros H. injection H as <-. right.
                         exists c2, r2, u'. repeat split; auto.
                         apply (IH c2 r2 u' L2 H2). exact E.
                     +++ intros [H|(d2 & b & u' & E & -> & _ & _ & H)].
                         *** elim (grouped_head_not_underscore _ _ H).
                         *** injection E as <- <-.
                             apply (IH c2 r2 u' L2 H2) in H. rewrite H.
                             reflexivity.
                 --- split; [discriminate|].
                     intros [H|(d2 & b & u' & E & _ & _ & D2' & _)].
                     +++ elim (grouped_head_not_underscore _ _ H).
                     +++ injection E as <- _. congruence.
        -- split; [discriminate|].
           intros [H|(d2 & b & u' & _ & _ & D & _)].
           ++ elim (grouped_head_not_underscore _ _ H).
           ++ congruence.
      * pose proof Hp as Hp'. apply N.eqb_neq in Hp'. rewrite Hp'.
        cbn [andb].
        assert (L2 : List.length r <= n) by (simpl in L; lia).
        assert (H2 : c <> 95%N) by (apply N.eqb_neq; exact Ec).
        split.
        -- destruct (drop_underscores c r) as [u'|] eqn:E; [|discriminate].
           intros H. injection H as <-. left.
           apply (IH c r u' L2 H2). exact E.
        -- intros [H|(d2 & b & u' & E & _)].
           ++ inversion H; subst.
              ** apply (IH c r _ L2 H2) in H. rewrite H. reflexivity.
              ** apply (IH c _ _ L2 H2) in H. rewrite H. reflexivity.
           ++ injection E as -> _. discriminate Ec.
Qed.

Lemma drop_underscores_Some t u :
  drop_underscores 0 t = Some u <-> grouped t u.
Proof.
  rewrite (drop_underscores_grouped (List.length t) 0%N t u (le_n _));
    [|discriminate].
  rewrite grouped_cons by discriminate. split.
  - intros [H|(d2 & b & u' & _ & _ & D & _)]; [exact H|discriminate D].
  - auto.
Qed.

Lemma no_underscore_grouped t : existsb (N.eqb 95) t = false -> grouped t t.
Proof.
  induction t as [|c t IH]; cbn [existsb]; intros H; [constructor|].
  apply orb_false_iff in H as [H1 H2].
  apply grouped_char; [|apply IH; exact H2].
  apply N.eqb_neq in H1. congruence.
Qed.

Lemma visible_not_space c : visible c -> Py_ISSPACE c = false.
Proof.
  unfold visible, Py_ISSPACE. intros [H _].
  apply orb_false_iff. split.
  - apply andb_false_iff. right. apply N.leb_gt. lia.
  - apply N.eqb_neq. lia.
Qed.

Lemma grouped_visible b u :
  grouped b u -> Forall visible u -> Forall visible b.
Proof.
  induction 1; intros F.
  - constructor.
  - inversion F; subst. constructor; auto.
  - inversion F; subst. constructor; [assumption|].
    constructor; [unfold visible; lia|]. apply IHgrouped. assumption.
Qed.

Lemma grouped_nonempty b u : grouped b u -> u <> [] -> b <> [].
Proof.
  intros H. inversion H; subst; congruence.
Qed.

Lemma sign_text_visible neg st : sign_text neg st -> Forall visible st.
Proof.
  unfold sign_text. destruct neg.
  - intros ->. constructor; [unfold visible; lia|constructor].
  - intros [->| ->]; [constructor|].
    constructor; [unfold visible; lia|constructor].
Qed.

Lemma digits_text_visible ds :
  all_digits ds -> Forall visible (digits_text ds).
Proof.
  unfold digits_text, all_digits. intros H. apply Forall_map.
  revert H. apply Forall_impl. intros d Hd. unfold visible. lia.
Qed.

Lemma number_text_visible u v :
  number_text u v -> Forall visible u /\ u <> [].
Proof.
  intros (neg & st & ip & fp & pt & ex & et & Hst & Hip & Hfp & Hne & Hpt
          & Het & -> & _).
  split.
  - repeat (apply Forall_app; split).
    + eapply sign_text_visible; eassumption.
    + apply digits_text_visible. exact Hip.
    + destruct Hpt as [[_ ->]| ->]; [constructor|].
      constructor; [unfold visible; lia|apply digits_text_visible; exact Hfp].
    + destruct Het
        as [[_ ->]|(c & eneg & est & ed & Hc & Hes & Hed & _ & -> & _)];
        [constructor|].
      constructor; [unfold visible; destruct Hc; lia|].
      apply Forall_app; split;
        [eapply sign_text_visible; eassumption
        |apply digits_text_visible; exact Hed].
  - intros E. apply app_eq_nil in E as [_ E].
    apply app_eq_nil in E as [E1 E]. apply app_eq_nil in E as [E2 _].
    destruct ip; [|discriminate]. destruct fp; [elim Hne; reflexivity|].
    destruct Hpt as [[? _]|Hpt]; [discriminate|]. rewrite Hpt in E2.
    discriminate.
Qed.

Lemma lower_visible c : (65 <= lower c)%N -> visible c.
Proof.
  unfold lower, visible.
  destruct ((65 <=? c) && (c <=? 90))%N eqn:E.
  - apply andb_true_iff in E as [E _]. apply N.leb_le in E. lia.
  - lia.
Qed.

Lemma word_text_visible u v :
  word_text u v -> Forall visible u /\ u <> [].
Proof.
  intros (neg & st & w & Hst & -> & H).
  assert (F : Forall (fun x => (65 <= x)%N) (map lower w)).
  { destruct H as [[[E|E] _]|[E _]]; rewrite E; vm_compute;
      repeat constructor; discriminate. }
  split.
  - apply Forall_app. split; [eapply sign_text_visible; eassumption|].
    apply (proj1 (Forall_map _ _ _)) in F. revert F. apply Forall_impl.
    apply lower_visible.
  - intros E. apply app_eq_nil in E as [_ ->].
    destruct H as [[[E|E] _]|[E _]]; discriminate.
Qed.

(** *** Surrounding blanks *)

Lemma dropwhile_split f s :
  exists lead, s = lead ++ dropwhile f s /\ Forall (fun c => f c = true) lead.
Proof.
  induction s as [|c s (lead & E & F)]; simpl.
  - exists []. split; [reflexivity|constructor].
  - destruct (f c) eqn:Ec.
    + exists (c :: lead). split; [simpl; f_equal; exact E|].
      constructor; assumption.
    + exists []. split; [reflexivity|constructor].
Qed.

Lemma dropwhile_app f l x :
  Forall (fun c => f c = true) l ->
  match x with c :: _ => f c = false | [] => False end ->
  dropwhile f (l ++ x) = x.
Proof.
  induction 1 as [|c l Hc _ IH]; simpl; intros H.
  - destruct x as [|c x]; [contradiction|]. simpl. rewrite H. reflexivity.
  - rewrite Hc. apply IH. exact H.
Qed.

Lemma strip_decompose f t :
  exists lead trail,
    t = lead ++ rev (dropwhile f (rev (dropwhile f t))) ++ trail
    /\ Forall (fun c => f c = true) lead
    /\ Forall (fun c => f c = true) trail.
Proof.
  destruct (dropwhile_split f t) as (lead & E1 & F1).
  destruct (dropwhile_split f (rev (dropwhile f t))) as (tr & E2 & F2).
  exists lead, (rev tr). repeat split.
  - rewrite <- rev_app_distr, <- E2, rev_involutive. exact E1.
  - exact F1.
  - apply Forall_rev. exact F2.
Qed.

Lemma strip_exact f lead body trail :
  Forall (fun c => f c = true) lead ->
  Forall (fun c => f c = true) trail ->
  Forall (fun c => f c = false) body -> body <> [] ->
  rev (dropwhile f (rev (dropwhile f (lead ++ body ++ trail)))) = body.
Proof.
  intros F1 F2 F3 Hne.
  rewrite (dropwhile_app f lead (body ++ trail) F1).
  - rewrite rev_app_distr.
    rewrite (dropwhile_app f (rev trail) (rev body)).
    + apply rev_involutive.
    + apply Forall_rev. exact F2.
    + apply Forall_rev in F3.
      destruct (rev body) as [|c r] eqn:E.
      * apply (f_equal (@rev N)) in E. rewrite rev_involutive in E.
        simpl in E. contradiction.
      * inversion F3. assumption.
  - destruct body as [|c r]; [contradiction|]. simpl. inversion F3.
    assumption.
Qed.

(** *** [float] *)

Lemma float_text_visible t v c :
  float_text t v -> In c t -> Py_ISSPACE c = true \/ visible c.
Proof.
  intros (lead & body & trail & u & -> & F1 & F2 & G & H) Hc.
  assert (V : Forall visible u).
  { destruct H as [H|H];
      [eapply number_text_visible|eapply word_text_visible]; eassumption. }
  apply (grouped_visible _ _ G) in V.
  rewrite Forall_forall in F1, F2, V.
  apply in_app_or in Hc as [Hc|Hc]; [left; auto|].
  apply in_app_or in Hc as [Hc|Hc]; [right; auto|left; auto].
Qed.

Section FloatText.

Variable todecimal : N -> option N.

Lemma float_eq s :
  float todecimal s =
  match drop_underscores 0
          (rev (dropwhile Py_ISSPACE
                  (rev (dropwhile Py_ISSPACE (transform todecimal s))))) with
  | Some u => float_from_string_inner u
  | None => Raise ValueError
  end.
Proof.
  unfold float. cbv zeta.
  destruct (existsb _ _) eqn:E; [reflexivity|].
  apply no_underscore_grouped in E. apply drop_underscores_Some in E.
  rewrite E. reflexivity.
Qed.

(** [float] accepts a text exactly when, digits and white space of other
    scripts being put in ASCII, it is a float text, and returns its value. *)
Lemma float_Ok s v :
  float todecimal s = Ok v <-> float_text (transform todecimal s) v.
Proof.
  rewrite float_eq. set (t := transform todecimal s). split.
  - destruct (drop_underscores 0 _) as [u|] eqn:E; [|discriminate].
    intros H. apply float_from_string_inner_Ok in H.
    apply drop_underscores_Some in E.
    destruct (strip_decompose Py_ISSPACE t) as (lead & trail & Et & F1 & F2).
    exists lead, (rev (dropwhile Py_ISSPACE (rev (dropwhile Py_ISSPACE t)))),
      trail, u.
    repeat split; assumption.
  - intros (lead & body & trail & u & Et & F1 & F2 & G & H).
    assert (V : Forall visible u /\ u <> []).
    { destruct H as [H|H];
        [eapply number_text_visible|eapply word_text_visible]; eassumption. }
    destruct V as [V Hne].
    assert (Vb : Forall (fun c => Py_ISSPACE c = false) body).
    { eapply Forall_impl; [apply visible_not_space|].
      eapply grouped_visible; eassumption. }
    rewrite Et, (strip_exact Py_ISSPACE lead body trail F1 F2 Vb).
    + apply drop_underscores_Some in G. rewrite G.
      apply float_from_string_inner_Ok. exact H.
    + eapply grouped_nonempty; eassumption.
Qed.

Lemma transform_ascii s : is_ascii s = true -> transform todecimal s = s.
Proof.
  unfold transform. intros ->. reflexivity.
Qed.

(** A code point of another script that is neither white space nor a
    decimal digit leaves a question mark in the text. *)
Lemma transform_go_foreign s c :
  In c s -> (128 <= c)%N -> isspace c = false -> todecimal c = None ->
  In 63%N (transform_go todecimal s).
Proof.
  intros Hin Hc Hs Hd. induction s as [|x s IH]; [contradiction|].
  cbn [transform_go].
  destruct (x <? 127)%N eqn:Ex.
  - right. apply IH. destruct Hin as [->|Hin]; [|exact Hin].
    apply N.ltb_lt in Ex. lia.
  - destruct (isspace x) eqn:Sx.
    + right. apply IH. destruct Hin as [->|Hin]; [congruence|exact Hin].
    + destruct (todecimal x) eqn:Dx.
      * right. apply IH. destruct Hin as [->|Hin]; [congruence|exact Hin].
      * left. reflexivity.
Qed.

Lemma float_foreign s c :
  In c s -> (128 <= c)%N -> isspace c = false -> todecimal c = None ->
  float todecimal s = Raise ValueError.
Proof.
  intros Hin Hc Hs Hd.
  destruct (float todecimal s) as [v|e] eqn:E.
  - apply float_Ok in E.
    assert (Ha : is_ascii s = false).
    { unfold is_ascii. apply not_true_iff_false. intros Ha.
      rewrite forallb_forall in Ha. apply Ha in Hin.
      apply N.ltb_lt in Hin. lia. }
    unfold transform in E. rewrite Ha in E.
    destruct (float_text_visible _ _ 63%N E
                (transform_go_foreign s c Hin Hc Hs Hd)) as [H|[_ H]].
    + discriminate H.
    + elim H. reflexivity.
  - apply float_raises in E. subst e. reflexivity.
Qed.

End FloatText.

(** * The claims *)

(** C7. Output order is traversal order.  A run over the listing pages
    [pages] returns a frame whenever every listing page is answered and
    every book has a record, and the frame a run returns has one row per book
    met, row [i] being the record of the [i]-th book of the traversal:
    listing pages in the order of [pages], which is 1 to 5 ascending for
    [scrape_books], books within a page in document order. *)
Theorem collect_order todecimal site pages log :
  (Forall (fun p => answered site (page_url p)) pages ->
   Forall (fun b => exists r, book_row_of todecimal site b = Ok r)
          (flat_map (books_on site) pages) ->
   exists df log', scrape_pages todecimal site pages log = (Ok df, log'))
  /\
  (forall df log',
     scrape_pages todecimal site pages log = (Ok df, log') ->
     len df = List.length (flat_map (books_on site) pages)
     /\ forall i b,
          nth_error (flat_map (books_on site) pages) i = Some b ->
          exists r, book_row_of todecimal site b = Ok r
                    /\ iloc df i = Some (cells_of r))
  /\
  scrape_books todecimal site = scrape_pages todecimal site [1; 2; 3; 4; 5]%N.
Proof.
  split; [|split; [|reflexivity]].
  - intros Hp Hb. apply Forall_records in Hb as [rows F].
    exists (frame_of_rows rows), (log ++ flat_map (requests_of site) pages).
    apply scrape_pages_Ok. split; [exact Hp|]. exists rows. auto.
  - intros df log' H. apply scrape_pages_Ok in H as (_ & rows & F & -> & _).
    split.
    + rewrite len_frame_of_rows. symmetry. eapply Forall2_length; eauto.
    + intros i b Hi. rewrite iloc_frame_of_rows.
      revert i Hi. induction F as [|b' r ? ? Hr F IH]; intros [|i] Hi;
        simpl in *; try discriminate.
      * injection Hi as <-. exists r; auto.
      * apply IH; exact Hi.
Qed.

Lemma collect_order_witness :
  scrape_pages ascii_digits_only two_by_three_site [1; 2]%N []
  = (Ok (frame_of_rows two_by_three_rows), two_by_three_log)
  /\ (exists df log',
        scrape_pages ascii_digits_only two_by_three_site [1; 2]%N []
        = (Ok df, log'))
  /\ len (frame_of_rows two_by_three_rows) = 6
  /\ exists r,
       book_row_of ascii_digits_only two_by_three_site
         (plain_pod (py "p2b1") (py "£20.00") (py "Four")) = Ok r
       /\ iloc (frame_of_rows two_by_three_rows) 3 = Some (cells_of r).
Proof.
  destruct (collect_order ascii_digits_only two_by_three_site [1; 2]%N [])
    as (T & H & _).
  split; [vm_compute; reflexivity|].
  split.
  - apply T.
    + repeat constructor; unfold answered; vm_compute; discriminate.
    + vm_compute flat_map.
      repeat (constructor; [eexists; vm_compute; reflexivity|]).
      constructor.
  - destruct (H (frame_of_rows two_by_three_rows) two_by_three_log) as [L R].
    + vm_compute. reflexivity.
    + split.
      * exact L.
      * apply (R 3). vm_compute. reflexivity.
Defined.

(** C5. A failed fetch aborts the run.  Whatever request of a run was not
    answered, the run ends in [RequestException] and returns no frame; in
    particular so when the traversal gets to a book whose listing fields are
    read but whose detail page cannot be fetched. *)
Theorem fetch_failure_aborts todecimal site pages :
  (forall r log u,
     scrape_pages todecimal site pages [] = (r, log) ->
     In u log -> site u = None -> r = Raise RequestException)
  /\
  (forall p b t pr a rt h log,
     reaches todecimal site pages p b ->
     book_title b = Ok t -> book_price b = Ok pr ->
     book_availability b = Ok a -> book_rating b = Ok rt ->
     book_href b = Ok h -> site (book_url h) = None ->
     fst (scrape_pages todecimal site pages log) = Raise RequestException).
Proof.
  split.
  - intros r log u H Hin Hu.
    apply in_split in Hin as (pre & post & E).
    eapply unanswered_is_last; eauto.
  - intros p b t pr a rt h log Hreach Ht Hp Ha Hr Hh Hu.
    eapply first_failure; [exact Hreach|].
    unfold book_row_of, book_category, and_then.
    rewrite Ht, Hp, Ha, Hr, Hh, Hu. reflexivity.
Qed.

Lemma down_reaches_second :
  reaches ascii_digits_only down_site (range 1 6) 1%N
    (plain_pod (py "p1b2") (py "£11.50") (py "Two")).
Proof.
  exists [], [2; 3; 4; 5]%N,
    [plain_pod (py "p1b1") (py "£10.00") (py "One")],
    [plain_pod (py "p1b3") (py "£12.25") (py "Three")].
  repeat split.
  - repeat constructor. unfold answered. vm_compute. discriminate.
  - repeat constructor. eexists. vm_compute. reflexivity.
Qed.

Lemma fetch_failure_aborts_witness :
  fst (scrape_books ascii_digits_only down_site []) = Raise RequestException
  /\ fst (scrape_pages ascii_digits_only down_site (range 1 6) [])
     = Raise RequestException.
Proof.
  destruct (fetch_failure_aborts ascii_digits_only down_site (range 1 6))
    as [H1 H2].
  split.
  - apply (H1 _ (snd (scrape_books ascii_digits_only down_site []))
              (book_url (py "p1b2/index.html"))).
    + apply surjective_pairing.
    + vm_compute. auto.
    + vm_compute. reflexivity.
  - apply (H2 1%N (plain_pod (py "p1b2") (py "£11.50") (py "Two"))
              (py "p1b2") (py "£11.50") (py "In stock") (py "Two")
              (py "p1b2/index.html") []).
    + exact down_reaches_second.
    + vm_compute. reflexivity.
    + vm_compute. reflexivity.
    + vm_compute. reflexivity.
    + vm_compute. reflexivity.
    + vm_compute. reflexivity.
    + vm_compute. reflexivity.
Defined.

(** C9. Requests of a run.  A run over the listing pages [pages] that
    returns has requested, in order, each listing page followed by the
    detail page of each book found on it and nothing else: as many requests
    as pages plus books, that is [pages * (1 + n)] when every page shows [n]
    books, with five pages for [scrape_books].  In any run a request that
    was not answered is the last request made.  Requests are the only
    effect of the embedding. *)
Theorem fetch_count todecimal site pages :
  (forall df log,
     scrape_pages todecimal site pages [] = (Ok df, log) ->
     log = flat_map (requests_of site) pages
     /\ List.length log
        = List.length pages + List.length (flat_map (books_on site) pages)
     /\ forall n,
          (forall p, In p pages -> List.length (books_on site p) = n) ->
          List.length log = List.length pages * (1 + n))
  /\
  (forall r log pre u post,
     scrape_pages todecimal site pages [] = (r, log) ->
     log = pre ++ u :: post -> site u = None ->
     post = [] /\ r = Raise RequestException)
  /\
  scrape_books todecimal site = scrape_pages todecimal site [1; 2; 3; 4; 5]%N.
Proof.
  split; [|split].
  - intros df log H. apply scrape_pages_Ok in H as (_ & rows & _ & _ & E).
    simpl in E. subst log. split; [reflexivity|].
    rewrite requests_length. split; [reflexivity|].
    intros n Hn. rewrite (books_uniform _ _ _ Hn). lia.
  - intros r log pre u post. apply unanswered_is_last.
  - reflexivity.
Qed.

Lemma fetch_count_witness :
  List.length (snd (scrape_books ascii_digits_only two_by_three_site [])) = 11
  /\ List.length
       (snd (scrape_pages ascii_digits_only two_by_three_site [1; 2]%N []))
     = 2 * (1 + 3)
  /\ fst (scrape_books ascii_digits_only down_site []) = Raise RequestException.
Proof.
  split; [|split].
  - destruct (fetch_count ascii_digits_only two_by_three_site
                [1; 2; 3; 4; 5]%N) as (H & _ & _).
    destruct (H (frame_of_rows two_by_three_rows)
                (snd (scrape_books ascii_digits_only two_by_three_site [])))
      as (_ & L & _).
    + vm_compute. reflexivity.
    + rewrite L. vm_compute. reflexivity.
  - destruct (fetch_count ascii_digits_only two_by_three_site [1; 2]%N)
      as (H & _ & _).
    destruct (H (frame_of_rows two_by_three_rows)
                (snd (scrape_pages ascii_digits_only two_by_three_site
                        [1; 2]%N [])))
      as (_ & _ & U).
    + vm_compute. reflexivity.
    + apply (U 3). intros p [<-|[<-|[]]]; vm_compute; reflexivity.
  - destruct (fetch_count ascii_digits_only down_site [1; 2; 3; 4; 5]%N)
      as (_ & H & _).
    apply (H _ (snd (scrape_books ascii_digits_only down_site []))
             [ page_url 1; book_url (py "p1b1/index.html") ]
             (book_url (py "p1b2/index.html")) []).
    + apply surjective_pairing.
    + vm_compute. reflexivity.
    + vm_compute. reflexivity.
Defined.

(** C3, as amended.  The price of a book is [float] of its price text
    without the first character: [£51.77] yields 51.77 and [£0.00] yields 0
    (the decimal read, and the binary64 number stored for it), and the
    Price column of a returned frame holds, book by book in traversal
    order, the number read that way.  The conversion succeeds exactly on
    the float texts: blanks around, single underscores between digits, and
    then either a decimal number (a sign or none, digits with an optional
    point, an optional exponent) or one of the words inf, infinity and nan
    in any letter case, with a sign or none; white space and decimal
    digits of other scripts count as a blank and as their ASCII digit, and
    any other code point from 128 on makes the text none.  So [£nan] and
    [£inf] are prices, NaN and infinity.  On every other text, [£abc] among
    them, the conversion raises [ValueError] and nothing else, and a run
    that gets to a book with such a price text, its other fields and its
    detail page being in order, ends in [ValueError]. *)
Theorem price_normalization todecimal site pages :
  (forall c s, parse_price todecimal (c :: s) = float todecimal s)
  /\ parse_price todecimal (py "£51.77") = Ok (Finite false 5177 (-2))
  /\ parse_price todecimal (py "£0.00") = Ok (Finite false 0 (-2))
  /\ parse_price todecimal (py "£abc") = Raise ValueError
  /\ binary64 (Finite false 5177 (-2)) = Some 51.77%float
  /\ binary64 (Finite false 0 (-2)) = Some 0%float
  /\ parse_price todecimal (py "£nan") = Ok NaN
  /\ parse_price todecimal (py "£inf") = Ok (Infinity false)
  /\ (forall df log log',
        scrape_pages todecimal site pages log = (Ok df, log') ->
        exists col,
          df_getitem df (py "Price") = Ok col
          /\ forall i b,
               nth_error (flat_map (books_on site) pages) i = Some b ->
               exists p x, book_price b = Ok p
                           /\ parse_price todecimal p = Ok x
                           /\ nth_error col i = Some (CFloat x))
  /\ (forall s, is_ascii s = true -> transform todecimal s = s)
  /\ (forall pr v,
        parse_price todecimal pr = Ok v
        <-> float_text (transform todecimal (skipn 1 pr)) v)
  /\ (forall pr,
        parse_price todecimal pr = Raise ValueError
        <-> forall v, ~ float_text (transform todecimal (skipn 1 pr)) v)
  /\ (forall pr e, parse_price todecimal pr = Raise e -> e = ValueError)
  /\ (forall pr c,
        In c (skipn 1 pr) -> (128 <= c)%N ->
        isspace c = false -> todecimal c = None ->
        parse_price todecimal pr = Raise ValueError)
  /\ (forall p b t pr a rt c log,
        reaches todecimal site pages p b ->
        book_title b = Ok t -> book_price b = Ok pr ->
        book_availability b = Ok a -> book_rating b = Ok rt ->
        book_category site b = Ok c ->
        (forall v, ~ float_text (transform todecimal (skipn 1 pr)) v) ->
        fst (scrape_pages todecimal site pages log) = Raise ValueError).
Proof.
  assert (Hfail : forall pr,
            (forall v, ~ float_text (transform todecimal (skipn 1 pr)) v) ->
            parse_price todecimal pr = Raise ValueError).
  { intros pr H. unfold parse_price.
    destruct (float todecimal (skipn 1 pr)) as [v|e] eqn:E.
    - apply float_Ok in E. elim (H v E).
    - apply float_raises in E. subst e. reflexivity. }
  split; [intros c s; reflexivity|].
  do 7 (split; [vm_compute; reflexivity|]).
  split.
  { intros df log log' H.
    apply scrape_pages_Ok in H as (_ & rows & F & -> & _).
    exists (map (fun r => CFloat (row_price r)) rows).
    split; [reflexivity|].
    intros i b Hi.
    destruct (Forall2_nth _ _ _ _ _ F Hi) as (r & Hr & Hb).
    apply book_row_of_Ok in Hb as (_ & (p & Hp & Hx) & _).
    exists p, (row_price r). repeat split; auto.
    rewrite nth_error_map, Hr. reflexivity. }
  split; [apply transform_ascii|].
  split; [intros pr v; apply float_Ok|].
  split.
  { intros pr. split; [|apply Hfail].
    intros H v Hv. apply float_Ok in Hv. unfold parse_price in H.
    congruence. }
  split; [intros pr e; apply float_raises|].
  split; [intros pr c; apply float_foreign|].
  intros p b t pr a rt c log Hreach Ht Hp Ha Hr Hc He.
  eapply first_failure; [exact Hreach|].
  unfold book_row_of, and_then. rewrite Ht, Hp, Ha, Hr, Hc, (Hfail pr He).
  reflexivity.
Qed.

Lemma abc_reaches_bad :
  reaches ascii_digits_only abc_site (range 1 6) 1%N
    (plain_pod (py "bad") (py "£abc") (py "Two")).
Proof.
  exists [], [2; 3; 4; 5]%N,
    [plain_pod (py "good") (py "£0.00") (py "One")],
    [plain_pod (py "late") (py "£1.00") (py "Two")].
  repeat split.
  - repeat constructor. unfold answered. vm_compute. discriminate.
  - repeat constructor. eexists. vm_compute. reflexivity.
Qed.

Lemma price_normalization_witness :
  fst (scrape_books ascii_digits_only abc_site []) = Raise ValueError.
Proof.
  destruct (price_normalization ascii_digits_only abc_site (range 1 6))
    as (_ & _ & _ & _ & _ & _ & _ & _ & _ & _ & Hok & _ & _ & _ & H).
  apply (H 1%N (plain_pod (py "bad") (py "£abc") (py "Two"))
           (py "bad") (py "£abc") (py "In stock") (py "Two") (py "Travel")
           []).
  - exact abc_reaches_bad.
  - vm_compute. reflexivity.
  - vm_compute. reflexivity.
  - vm_compute. reflexivity.
  - vm_compute. reflexivity.
  - vm_compute. reflexivity.
  - intros v Hv. apply Hok in Hv. vm_compute in Hv. discriminate Hv.
Defined.

Lemma nan_reaches_odd :
  reaches ascii_digits_only nan_site (range 1 6) 1%N nan_pod.
Proof.
  exists [], [2; 3; 4; 5]%N,
    [plain_pod (py "good") (py "£0.00") (py "One")],
    [plain_pod (py "far") (py "£inf") (py "Three")].
  repeat split.
  - repeat constructor. unfold answered. vm_compute. discriminate.
  - repeat constructor. eexists. vm_compute. reflexivity.
Qed.

Lemma nan_not_decimal_number : ~ decimal_number (py "nan").
Proof.
  intros (neg & m & e & H).
  assert (E : float ascii_digits_only (py "nan") = Ok (Finite neg m e)).
  { apply float_Ok. rewrite transform_ascii; [exact H|reflexivity]. }
  vm_compute in E. discriminate E.
Qed.

(** C3, as stated, fails: the rest of the price text [£nan] is no decimal
    number, and yet [float] reads it, as NaN.  The run on a site that lists
    a book at that price gets to the book and goes on: it raises nothing
    and returns the frame, with NaN in the Price column. *)
Lemma price_normalization_counterexample :
  ~ spec_price_failure ascii_digits_only nan_site (range 1 6).
Proof.
  intros H.
  specialize (H 1%N nan_pod (py "£nan") [] nan_reaches_odd eq_refl
                nan_not_decimal_number).
  assert (E : fst (scrape_pages ascii_digits_only nan_site (range 1 6) [])
              = Ok (frame_of_rows nan_rows)) by (vm_compute; reflexivity).
  rewrite E in H. discriminate H.
Qed.

(** ** Column assignment *)

Lemma dict_get_setitem_same df k col :
  dict_get (df_setitem df k col) k = Some col.
Proof.
  induction df as [|[k' c] df IH]; simpl.
  - rewrite str_eqb_refl. reflexivity.
  - destruct (str_eqb k' k) eqn:E; simpl; rewrite E; auto.
Qed.

Lemma dict_get_setitem_other df k col k' :
  k' <> k -> dict_get (df_setitem df k col) k' = dict_get df k'.
Proof.
  intros Hk.
  assert (E0 : str_eqb k k' = false) by (apply str_eqb_neq; congruence).
  induction df as [|[k0 c] df IH]; simpl.
  - rewrite E0. reflexivity.
  - destruct (str_eqb k0 k) eqn:E; simpl.
    + apply str_eqb_eq in E. subst k0. rewrite E0. reflexivity.
    + rewrite IH. reflexivity.
Qed.

Lemma column_names_setitem df k col c :
  dict_get df k = Some c ->
  column_names (df_setitem df k col) = column_names df.
Proof.
  unfold column_names. induction df as [|[k0 c0] df IH]; simpl.
  - discriminate.
  - destruct (str_eqb k0 k); simpl; [reflexivity|].
    intros H. rewrite IH; auto.
Qed.

Lemma load_data_from_ret df col log :
  df_getitem df (py "Rating") = Ok col ->
  load_data_from (ret df) log =
  (Ok (df_setitem df (py "Rating") (series_map rating_map col)), log).
Proof.
  unfold load_data_from, bind, ret, lift. intros ->. reflexivity.
Qed.

Lemma load_data_from_scrape (scrape : M DataFrame) log :
  load_data_from scrape log =
  match scrape log with
  | (Ok df, log') => load_data_from (ret df) log'
  | (Raise e, log') => (Raise e, log')
  end.
Proof.
  unfold load_data_from, bind, ret.
  destruct (scrape log) as [[df|e] log']; reflexivity.
Qed.

Lemma str_eqb_sym (a b : str) : str_eqb a b = str_eqb b a.
Proof.
  destruct (str_eqb a b) eqn:E1, (str_eqb b a) eqn:E2; try reflexivity.
  - apply str_eqb_eq in E1. subst. rewrite str_eqb_refl in E2. discriminate.
  - apply str_eqb_eq in E2. subst. rewrite str_eqb_refl in E1. discriminate.
Qed.

(** The dictionary lookup of [Series.map] sends the five words to their
    numbers and every other token to NaN. *)
Lemma rating_map_cell s :
  match dict_get rating_map s with Some v => CInt v | None => CNaN end
  = rating_cell s.
Proof.
  unfold rating_map, rating_cell. cbn [dict_get].
  rewrite !(str_eqb_sym _ s).
  repeat match goal with
         | |- context [str_eqb s ?a] => destruct (str_eqb s a); try reflexivity
         end.
Qed.

Lemma frame_columns rows k col :
  dict_get (frame_of_rows rows) k = Some col ->
  In col [ map (fun r => CStr (row_title r)) rows;
           map (fun r => CFloat (row_price r)) rows;
           map (fun r => CStr (row_availability r)) rows;
           map (fun r => CStr (row_rating r)) rows;
           map (fun r => CStr (row_category r)) rows ].
Proof.
  unfold frame_of_rows. cbn [dict_get].
  repeat match goal with
         | |- context [str_eqb ?a k] => destruct (str_eqb a k)
         end;
    intros H; try discriminate; injection H as <-; simpl; auto 10.
Qed.

Lemma series_map_nth d col i s :
  nth_error col i = Some (CStr s) ->
  nth_error (series_map d col) i =
  Some (match dict_get d s with Some v => CInt v | None => CNaN end).
Proof.
  intros H. unfold series_map. rewrite nth_error_map, H. reflexivity.
Qed.

Lemma rating_column_nth rows i r :
  nth_error rows i = Some r ->
  nth_error
    (series_map rating_map (map (fun r => CStr (row_rating r)) rows)) i
  = Some (rating_cell (row_rating r)).
Proof.
  intros H. erewrite series_map_nth.
  - rewrite rating_map_cell. reflexivity.
  - rewrite nth_error_map, H. reflexivity.
Qed.

(** C2, as amended.  [load_data] replaces the Rating column by its image
    under the five-entry dictionary: the words One to Five become 1 to 5,
    and any other token, such as Six or the empty string, becomes the
    missing value NaN; no exception is raised, so a run of [load_data] on
    scraped pages returns whenever the scrape does. *)
Theorem rating_normalization :
  (forall df col log,
     df_getitem df (py "Rating") = Ok col ->
     exists df' col',
       load_data_from (ret df) log = (Ok df', log)
       /\ df_getitem df' (py "Rating") = Ok col'
       /\ List.length col' = List.length col
       /\ forall i s, nth_error col i = Some (CStr s) ->
                      nth_error col' i = Some (rating_cell s))
  /\ (forall todecimal site pages log df log',
        scrape_pages todecimal site pages log = (Ok df, log') ->
        exists df' col',
          load_data_from (scrape_pages todecimal site pages) log
          = (Ok df', log')
          /\ df_getitem df' (py "Rating") = Ok col'
          /\ forall i b,
               nth_error (flat_map (books_on site) pages) i = Some b ->
               exists tok, book_rating b = Ok tok
                           /\ nth_error col' i = Some (rating_cell tok))
  /\ rating_cell (py "One") = CInt 1 /\ rating_cell (py "Two") = CInt 2
  /\ rating_cell (py "Three") = CInt 3 /\ rating_cell (py "Four") = CInt 4
  /\ rating_cell (py "Five") = CInt 5
  /\ rating_cell (py "Six") = CNaN /\ rating_cell [] = CNaN
  /\ (forall s, ~ In s (map fst rating_map) -> rating_cell s = CNaN).
Proof.
  split; [|split].
  - intros df col log H.
    exists (df_setitem df (py "Rating") (series_map rating_map col)),
      (series_map rating_map col).
    split; [apply load_data_from_ret; exact H|].
    split; [unfold df_getitem; rewrite dict_get_setitem_same; reflexivity|].
    split; [apply length_map|].
    intros i s Hi. rewrite (series_map_nth _ _ _ _ Hi), rating_map_cell.
    reflexivity.
  - intros todecimal site pages log df log' H.
    rewrite load_data_from_scrape, H.
    apply scrape_pages_Ok in H as (_ & rows & F & -> & _).
    exists (df_setitem (frame_of_rows rows) (py "Rating")
              (series_map rating_map
                 (map (fun r => CStr (row_rating r)) rows))),
      (series_map rating_map (map (fun r => CStr (row_rating r)) rows)).
    split; [apply load_data_from_ret; reflexivity|].
    split; [unfold df_getitem; rewrite dict_get_setitem_same; reflexivity|].
    intros i b Hi.
    destruct (Forall2_nth _ _ _ _ _ F Hi) as (r & Hr & Hb).
    apply book_row_of_Ok in Hb as (_ & _ & _ & Hb & _).
    exists (row_rating r). split; [exact Hb|].
    apply rating_column_nth; exact Hr.
  - repeat split.
    intros s Hs. unfold rating_cell.
    repeat match goal with
           | |- context [str_eqb s ?a] =>
               destruct (str_eqb s a) eqn:E;
               [apply str_eqb_eq in E; subst s; elim Hs; simpl; tauto
               |clear E]
           end.
    reflexivity.
Qed.

Lemma rating_normalization_witness :
  exists df' col',
    load_data_from (ret (frame_of_rows two_by_three_rows)) []
    = (Ok df', [])
    /\ df_getitem df' (py "Rating") = Ok col'
    /\ List.length col' = 6
    /\ nth_error col' 3 = Some (CInt 4).
Proof.
  destruct rating_normalization as [H _].
  destruct (H (frame_of_rows two_by_three_rows)
              (map (fun r => CStr (row_rating r)) two_by_three_rows) [])
    as (df' & col' & H1 & H2 & H3 & H4).
  - vm_compute. reflexivity.
  - exists df', col'. repeat split; auto.
    apply (H4 3 (py "Four")). vm_compute. reflexivity.
Defined.

(** C2, as stated, fails: a book whose rating word is Six goes through
    [load_data] without an exception and gets the missing value. *)
Lemma rating_normalization_counterexample :
  fst (load_data ascii_digits_only six_site []) <> Raise ValueError
  /\ exists df,
       fst (load_data ascii_digits_only six_site []) = Ok df
       /\ df_getitem df (py "Rating") = Ok [CNaN].
Proof.
  split.
  - vm_compute. discriminate.
  - eexists. split; vm_compute; reflexivity.
Qed.

(** C4, as amended.  [load_data] changes the Rating column and nothing
    else: the column names are the same before and after, in the same order,
    and every other column is the same cell for cell.  The frame
    [scrape_books] hands over has the five columns Title, Price,
    Availability, Rating and Category, its prices already numbers; no column
    holds a detail URL. *)
Theorem normalize_frame :
  (forall df col log,
     df_getitem df (py "Rating") = Ok col ->
     exists df',
       load_data_from (ret df) log = (Ok df', log)
       /\ column_names df' = column_names df
       /\ forall k, k <> py "Rating" -> dict_get df' k = dict_get df k)
  /\ (forall todecimal site pages log df log',
        scrape_pages todecimal site pages log = (Ok df, log') ->
        column_names df
        = [ py "Title"; py "Price"; py "Availability"; py "Rating";
            py "Category" ]
        /\ (exists prices, dict_get df (py "Price") = Some (map CFloat prices))
        /\ exists df',
             load_data_from (scrape_pages todecimal site pages) log
             = (Ok df', log')
             /\ column_names df' = column_names df
             /\ forall k, k <> py "Rating" -> dict_get df' k = dict_get df k).
Proof.
  assert (A : forall df col log,
             df_getitem df (py "Rating") = Ok col ->
             exists df',
               load_data_from (ret df) log = (Ok df', log)
               /\ column_names df' = column_names df
               /\ forall k, k <> py "Rating" -> dict_get df' k = dict_get df k).
  { intros df col log H.
    exists (df_setitem df (py "Rating") (series_map rating_map col)).
    split; [apply load_data_from_ret; exact H|].
    unfold df_getitem in H.
    destruct (dict_get df (py "Rating")) as [c|] eqn:E; [|discriminate].
    split.
    - eapply column_names_setitem; eauto.
    - intros k Hk. apply dict_get_setitem_other; exact Hk. }
  split; [exact A|].
  intros todecimal site pages log df log' H.
  rewrite load_data_from_scrape, H.
  apply scrape_pages_Ok in H as (_ & rows & _ & -> & _).
  split; [reflexivity|].
  split; [exists (map row_price rows); simpl; rewrite map_map; reflexivity|].
  eapply A. reflexivity.
Qed.

Lemma normalize_frame_witness :
  exists df',
    load_data_from (ret (frame_of_rows two_by_three_rows)) [] = (Ok df', [])
    /\ dict_get df' (py "Title")
       = dict_get (frame_of_rows two_by_three_rows) (py "Title").
Proof.
  destruct normalize_frame as [H _].
  destruct (H (frame_of_rows two_by_three_rows)
              (map (fun r => CStr (row_rating r)) two_by_three_rows) [])
    as (df' & H1 & H2 & H3).
  - vm_compute. reflexivity.
  - exists df'. split; [exact H1|]. apply H3. vm_compute. discriminate.
Defined.

(** C4, as stated, fails: the frame of the one-book site carries its detail
    URL in no column, before or after [load_data]. *)
Lemma normalize_frame_counterexample :
  exists before after log,
    scrape_books ascii_digits_only attic_site [] = (Ok before, log)
    /\ load_data ascii_digits_only attic_site [] = (Ok after, log)
    /\ ~ spec_frame_property [book_url attic_href] before after.
Proof.
  exists (frame_of_rows
            [Row (py "A Light in the Attic") (Finite false 5177 (-2))
                 (py "In stock") (py "Three") (py "Poetry")]).
  eexists. eexists.
  split; [vm_compute; reflexivity|].
  split; [vm_compute; reflexivity|].
  intros [(k & H & _) _]. apply frame_columns in H.
  vm_compute in H. intuition discriminate.
Qed.

(** ** [replace] *)

Lemma replace_go_skip old new s1 s :
  replace_go old new (List.length s1) (s1 ++ s) = replace_go old new 0 s.
Proof.
  induction s1 as [|c s1 IH]; simpl; [|exact IH].
  destruct s; reflexivity.
Qed.

Lemma replace_front c old new s :
  replace (c :: old) new ((c :: old) ++ s) = new ++ replace (c :: old) new s.
Proof.
  unfold replace. cbn [app replace_go].
  change (startswith (c :: old) (c :: old ++ s))
    with (startswith (c :: old) ((c :: old) ++ s)).
  rewrite startswith_app.
  assert (L : List.length (c :: old) - 1 = List.length old)
    by (simpl; lia).
  rewrite L, replace_go_skip. reflexivity.
Qed.

Lemma replace_step c old new x s :
  startswith (c :: old) (x :: s) = false ->
  replace (c :: old) new (x :: s) = x :: replace (c :: old) new s.
Proof.
  unfold replace. intros H. cbn [replace_go]. rewrite H. reflexivity.
Qed.

Lemma replace_absent c old new s :
  occurs (c :: old) s = false -> replace (c :: old) new s = s.
Proof.
  induction s as [|x s IH]; intros H.
  - reflexivity.
  - cbn [occurs] in H. apply orb_false_iff in H as [H1 H2].
    rewrite replace_step by exact H1. rewrite IH by exact H2. reflexivity.
Qed.

Lemma dots_cons :
  py "../../../" = 46%N :: [46; 47; 46; 46; 47; 46; 46; 47]%N.
Proof. reflexivity. Qed.

(** C6, as amended.  The detail URL is the catalogue base path followed by
    the relative link from which [replace] has removed every occurrence of
    the dot-dot prefix, found left to right without overlap, wherever it
    stands: an occurrence at the front is removed and the rest is treated
    the same way, a character that starts no occurrence is kept.  So a link
    without an occurrence is kept verbatim, and a link that starts with the
    prefix and has no other occurrence loses that prefix only. *)
Theorem detail_url_resolution :
  (forall rest,
     book_url (py "../../../" ++ rest) = book_url rest)
  /\ (forall c rest,
        startswith (py "../../../") (c :: rest) = false ->
        book_url (c :: rest)
        = py "http://books.toscrape.com/catalogue/"
          ++ c :: replace (py "../../../") [] rest)
  /\ (forall href,
        occurs (py "../../../") href = false ->
        book_url href = py "http://books.toscrape.com/catalogue/" ++ href)
  /\ (forall rest,
        occurs (py "../../../") rest = false ->
        book_url (py "../../../" ++ rest)
        = py "http://books.toscrape.com/catalogue/" ++ rest)
  /\ book_url (py "a/../../../b")
     = py "http://books.toscrape.com/catalogue/a/b".
Proof.
  unfold book_url. change (py "") with (@nil N). rewrite dots_cons.
  split; [|split; [|split; [|split]]].
  - intros rest. rewrite replace_front. reflexivity.
  - intros c rest H. rewrite replace_step by exact H. reflexivity.
  - intros href H. rewrite replace_absent by exact H. reflexivity.
  - intros rest H. rewrite replace_front, replace_absent by exact H.
    reflexivity.
  - vm_compute. reflexivity.
Qed.

Lemma detail_url_resolution_witness :
  book_url (py "../../../" ++ attic_href)
  = py "http://books.toscrape.com/catalogue/" ++ attic_href
  /\ book_url attic_href
     = py "http://books.toscrape.com/catalogue/" ++ attic_href.
Proof.
  destruct detail_url_resolution as (_ & _ & H3 & H4 & _).
  split.
  - apply (H4 attic_href). vm_compute. reflexivity.
  - apply (H3 attic_href). vm_compute. reflexivity.
Defined.

(** C6, as stated, fails: a link that goes up six levels loses both
    occurrences of the prefix, not the leading one only. *)
Lemma detail_url_resolution_counterexample :
  book_url (py "../../../../../../index.html")
  <> spec_detail_url (py "../../../../../../index.html")
  /\ book_url (py "../../../../../../index.html")
     = py "http://books.toscrape.com/catalogue/index.html"
  /\ spec_detail_url (py "../../../../../../index.html")
     = py "http://books.toscrape.com/catalogue/../../../index.html".
Proof.
  repeat split; vm_compute; try reflexivity. discriminate.
Qed.

(** ** Leading blanks in [float] *)

Lemma float_leading_blank todecimal s :
  float todecimal (32%N :: s) = float todecimal s.
Proof.
  unfold float, transform.
  change (is_ascii (32%N :: s)) with (is_ascii s).
  destruct (is_ascii s); reflexivity.
Qed.

(** C10, as amended.  The price conversion drops the first character of the
    price text, whatever it is, and gives the rest to [float]: any single
    character before a number yields that number, and a text without a
    symbol loses its first digit (51.77 is read as 1.77, another number).
    [float] ignores blanks around the number,
    so blanks between the symbol and the number change nothing; a longer
    prefix whose remainder is no number, and the empty text, raise
    [ValueError]. *)
Theorem first_character_dropped todecimal :
  (forall c s, parse_price todecimal (c :: s) = float todecimal s)
  /\ parse_price todecimal (py "$51.77") = Ok (Finite false 5177 (-2))
  /\ parse_price todecimal (py "X0.00") = Ok (Finite false 0 (-2))
  /\ parse_price todecimal (py "51.77") = Ok (Finite false 177 (-2))
  /\ binary64 (Finite false 177 (-2)) = Some 1.77%float
  /\ option_map (PrimFloat.eqb 51.77%float) (binary64 (Finite false 177 (-2)))
     = Some false
  /\ (forall c s,
        parse_price todecimal (c :: 32%N :: s)
        = parse_price todecimal (c :: s))
  /\ parse_price todecimal (py "£ 51.77") = Ok (Finite false 5177 (-2))
  /\ parse_price todecimal (py "US$51.77") = Raise ValueError
  /\ parse_price todecimal [] = Raise ValueError.
Proof.
  split; [intros c s; reflexivity|].
  do 5 (split; [vm_compute; reflexivity|]).
  split.
  - intros c s. unfold parse_price. cbn [skipn]. apply float_leading_blank.
  - repeat split; vm_compute; reflexivity.
Qed.

(** C10, as stated, fails: with a blank between the symbol and the number
    the displayed price is still what the conversion yields. *)
Lemma first_character_dropped_counterexample :
  ~ (parse_price ascii_digits_only (py "£ 51.77")
     <> Ok (Finite false 5177 (-2))).
Proof.
  intros H. apply H. vm_compute. reflexivity.
Qed.

(** ** The detail page *)

Lemma soup_category_Ok soup c :
  soup_category soup = Ok c ->
  exists ul,
    find (name_class_is (py "ul") (py "breadcrumb")) soup = Some ul
    /\ 3 <= List.length (find_all (name_is (py "li")) ul).
Proof.
  unfold soup_category, find_method, find_all_method, list_index, and_then.
  destruct (find (name_class_is (py "ul") (py "breadcrumb")) soup) as [ul|];
    [|discriminate].
  destruct (nth_error (find_all (name_is (py "li")) ul) 2) as [li|] eqn:E;
    [|discriminate].
  intros _. exists ul. split; [reflexivity|].
  assert (L : 2 < List.length (find_all (name_is (py "li")) ul))
    by (apply nth_error_Some; congruence).
  lia.
Qed.

Lemma soup_category_no_breadcrumb soup :
  find (name_class_is (py "ul") (py "breadcrumb")) soup = None ->
  soup_category soup = Raise AttributeError.
Proof.
  unfold soup_category, find_method, and_then. intros ->. reflexivity.
Qed.

Lemma soup_category_short soup ul :
  find (name_class_is (py "ul") (py "breadcrumb")) soup = Some ul ->
  List.length (find_all (name_is (py "li")) ul) < 3 ->
  soup_category soup = Raise IndexError.
Proof.
  unfold soup_category, find_method, find_all_method, list_index, and_then.
  intros -> L.
  assert (E : nth_error (find_all (name_is (py "li")) ul) 2 = None)
    by (apply nth_error_None; lia).
  rewrite E. reflexivity.
Qed.

(** C8, as amended.  A listing page without a product pod raises nothing:
    its pass of the outer loop appends no record, requests that page only
    and hands over to the next page.  A detail page without a breadcrumb
    list ends the run in [AttributeError], one whose breadcrumb list has
    fewer than three items in [IndexError]; so a run that returns has found
    a breadcrumb list of at least three items on the detail page of every
    book. *)
Theorem structural_mismatch todecimal site :
  (forall p acc log,
     answered site (page_url p) -> books_on site p = [] ->
     scrape_page todecimal site p acc log = (Ok acc, log ++ [page_url p]))
  /\ (forall pages p b t pr a rt h content log,
        reaches todecimal site pages p b ->
        book_title b = Ok t -> book_price b = Ok pr ->
        book_availability b = Ok a -> book_rating b = Ok rt ->
        book_href b = Ok h -> site (book_url h) = Some content ->
        find (name_class_is (py "ul") (py "breadcrumb"))
             (BeautifulSoup content) = None ->
        fst (scrape_pages todecimal site pages log) = Raise AttributeError)
  /\ (forall pages p b t pr a rt h content ul log,
        reaches todecimal site pages p b ->
        book_title b = Ok t -> book_price b = Ok pr ->
        book_availability b = Ok a -> book_rating b = Ok rt ->
        book_href b = Ok h -> site (book_url h) = Some content ->
        find (name_class_is (py "ul") (py "breadcrumb"))
             (BeautifulSoup content) = Some ul ->
        List.length (find_all (name_is (py "li")) ul) < 3 ->
        fst (scrape_pages todecimal site pages log) = Raise IndexError)
  /\ (forall pages log df log' p b,
        scrape_pages todecimal site pages log = (Ok df, log') ->
        In p pages -> In b (books_on site p) ->
        exists h content ul,
          book_href b = Ok h /\ site (book_url h) = Some content
          /\ find (name_class_is (py "ul") (py "breadcrumb"))
                  (BeautifulSoup content) = Some ul
          /\ 3 <= List.length (find_all (name_is (py "li")) ul)).
Proof.
  split; [|split; [|split]].
  - intros p acc log Hp Hb. apply scrape_page_Ok. split; [exact Hp|].
    exists []. unfold requests_of. rewrite Hb, extend_nil. repeat split.
    constructor.
  - intros pages p b t pr a rt h content log Hreach Ht Hp Ha Hr Hh Hs Hf.
    eapply first_failure; [exact Hreach|].
    unfold book_row_of, book_category, and_then.
    rewrite Ht, Hp, Ha, Hr, Hh, Hs, (soup_category_no_breadcrumb _ Hf).
    reflexivity.
  - intros pages p b t pr a rt h content ul log Hreach Ht Hp Ha Hr Hh Hs Hf HL.
    eapply first_failure; [exact Hreach|].
    unfold book_row_of, book_category, and_then.
    rewrite Ht, Hp, Ha, Hr, Hh, Hs, (soup_category_short _ _ Hf HL).
    reflexivity.
  - intros pages log df log' p b H Hp Hb.
    destruct (success_covers _ _ _ _ _ _ _ _ H Hp Hb) as [r Hr].
    apply book_row_of_Ok in Hr as (_ & _ & _ & _ & Hc).
    unfold book_category, and_then in Hc.
    destruct (book_href b) as [h|e] eqn:Eh; [|discriminate].
    destruct (site (book_url h)) as [content|] eqn:Es; [|discriminate].
    apply soup_category_Ok in Hc as (ul & Hf & HL).
    exists h, content, ul. repeat split; assumption.
Qed.

Lemma attic_reached site :
  books_on site 1 = [attic_pod] ->
  reaches ascii_digits_only site (range 1 6) 1%N attic_pod.
Proof.
  intros Hb. exists [], [2; 3; 4; 5]%N, [], [].
  repeat split; auto.
  repeat constructor. unfold answered. intros E.
  unfold books_on in Hb. rewrite E in Hb. discriminate.
Qed.

Lemma structural_mismatch_witness :
  fst (scrape_books ascii_digits_only no_breadcrumb_site []) = Raise AttributeError
  /\ fst (scrape_books ascii_digits_only two_crumbs_site []) = Raise IndexError
  /\ scrape_page ascii_digits_only podless_site 1 no_columns []
     = (Ok no_columns, [] ++ [page_url 1]).
Proof.
  split; [|split].
  - destruct (structural_mismatch ascii_digits_only no_breadcrumb_site)
      as (_ & H & _).
    apply (H (range 1 6) 1%N attic_pod (py "A Light in the Attic")
             (py "£51.77") (py "In stock") (py "Three") attic_href
             [ Tag (py "html") None [] [ Tag (py "body") None [] [] ] ] []).
    + apply attic_reached. vm_compute. reflexivity.
    + vm_compute. reflexivity.
    + vm_compute. reflexivity.
    + vm_compute. reflexivity.
    + vm_compute. reflexivity.
    + vm_compute. reflexivity.
    + vm_compute. reflexivity.
    + vm_compute. reflexivity.
  - destruct (structural_mismatch ascii_digits_only two_crumbs_site)
      as (_ & _ & H & _).
    apply (H (range 1 6) 1%N attic_pod (py "A Light in the Attic")
             (py "£51.77") (py "In stock") (py "Three") attic_href
             (detail [ py "Home"; py "Books" ])
             (Tag (py "ul") (Some [py "breadcrumb"]) []
                  (map crumb [ py "Home"; py "Books" ])) []).
    + apply attic_reached. vm_compute. reflexivity.
    + vm_compute. reflexivity.
    + vm_compute. reflexivity.
    + vm_compute. reflexivity.
    + vm_compute. reflexivity.
    + vm_compute. reflexivity.
    + vm_compute. reflexivity.
    + vm_compute. reflexivity.
    + vm_compute. lia.
  - destruct (structural_mismatch ascii_digits_only podless_site)
      as (H & _).
    apply (H 1%N no_columns []).
    + unfold answered. vm_compute. discriminate.
    + vm_compute. reflexivity.
Defined.

(** C8, as stated, fails: the first listing page shows no product pod, and
    the run goes on to the second page and returns its three books. *)
Lemma structural_mismatch_counterexample :
  product_pods (BeautifulSoup (listing [])) = []
  /\ podless_site (page_url 1) = Some (listing [])
  /\ exists df log,
       scrape_books ascii_digits_only podless_site [] = (Ok df, log)
       /\ len df = 3.
Proof.
  split; [vm_compute; reflexivity|].
  split; [vm_compute; reflexivity|].
  eexists. eexists. split; vm_compute; reflexivity.
Qed.

(** C1, as amended.  On a site whose listing pages are answered and show,
    all together, the one book titled A Light in the Attic, priced 51.77
    pounds, rated Three, in stock and of category Poetry, the scrape
    followed by [load_data] returns exactly one row with the five fields
    Title, Price 51.77, Availability, Rating 3 and Category.  The row has no
    field for the detail URL: the resolved URL is requested and kept
    nowhere. *)
Theorem end_to_end todecimal site pages b log :
  Forall (fun p => answered site (page_url p)) pages ->
  flat_map (books_on site) pages = [b] ->
  book_title b = Ok (py "A Light in the Attic") ->
  book_price b = Ok (py "£51.77") ->
  book_rating b = Ok (py "Three") ->
  book_availability b = Ok (py "In stock") ->
  book_category site b = Ok (py "Poetry") ->
  exists df,
    load_data_from (scrape_pages todecimal site pages) log
    = (Ok df, log ++ flat_map (requests_of site) pages)
    /\ len df = 1
    /\ iloc df 0 = Some attic_row
    /\ column_names df
       = [ py "Title"; py "Price"; py "Availability"; py "Rating";
           py "Category" ].
Proof.
  intros Hp Hb Ht Hpr Hr Ha Hc.
  set (r := Row (py "A Light in the Attic") (Finite false 5177 (-2))
                (py "In stock") (py "Three") (py "Poetry")).
  assert (Hrow : book_row_of todecimal site b = Ok r).
  { apply book_row_of_Ok. unfold r; simpl. repeat split; auto.
    exists (py "£51.77"). split; [exact Hpr|]. vm_compute. reflexivity. }
  assert (Hs : scrape_pages todecimal site pages log
               = (Ok (frame_of_rows [r]),
                  log ++ flat_map (requests_of site) pages)).
  { apply scrape_pages_Ok. split; [exact Hp|]. exists [r].
    rewrite Hb. repeat split. repeat constructor. exact Hrow. }
  rewrite load_data_from_scrape, Hs.
  eexists. split; [apply load_data_from_ret; reflexivity|].
  repeat split; vm_compute; reflexivity.
Qed.

Lemma end_to_end_witness :
  exists df,
    load_data_from (scrape_pages ascii_digits_only attic_site [1%N]) []
    = (Ok df, [] ++ flat_map (requests_of attic_site) [1%N])
    /\ len df = 1
    /\ iloc df 0 = Some attic_row
    /\ column_names df
       = [ py "Title"; py "Price"; py "Availability"; py "Rating";
           py "Category" ].
Proof.
  apply (end_to_end ascii_digits_only attic_site [1%N] attic_pod []).
  - repeat constructor. unfold answered. vm_compute. discriminate.
  - vm_compute. reflexivity.
  - vm_compute. reflexivity.
  - vm_compute. reflexivity.
  - vm_compute. reflexivity.
  - vm_compute. reflexivity.
  - vm_compute. reflexivity.
Defined.

(** C1, as stated, fails: no cell of the row returned for the one-book site
    holds the resolved detail URL. *)
Lemma end_to_end_counterexample :
  ~ (exists df log row k,
       load_data_from (scrape_pages ascii_digits_only attic_site [1%N]) []
       = (Ok df, log)
       /\ iloc df 0 = Some row
       /\ In (k, CStr (book_url attic_href)) row).
Proof.
  intros (df & log & row & k & H & Hrow & Hin).
  vm_compute in H. injection H as <- <-.
  vm_compute in Hrow. injection Hrow as <-.
  vm_compute in Hin. intuition discriminate.
Qed.

(** * Further properties of the scrape *)

(** ** [strip] *)

Lemma dropwhile_hd f s c :
  hd_error (dropwhile f s) = Some c -> f c = false.
Proof.
  induction s as [|x s IH]; simpl; [discriminate|].
  destruct (f x) eqn:E; [exact IH|].
  simpl. intros H. injection H as <-. exact E.
Qed.

Lemma dropwhile_suffix f s : exists pre, s = pre ++ dropwhile f s.
Proof.
  induction s as [|x s [pre IH]]; simpl.
  - exists []. reflexivity.
  - destruct (f x).
    + exists (x :: pre). simpl. rewrite <- IH. reflexivity.
    + exists []. reflexivity.
Qed.

Lemma strip_stripped s : stripped (strip s).
Proof.
  unfold stripped, strip. split.
  - intros c Hc.
    destruct (dropwhile_suffix isspace (rev (dropwhile isspace s)))
      as [pre E].
    apply (f_equal (@rev N)) in E. rewrite rev_involutive, rev_app_distr in E.
    apply (dropwhile_hd isspace s). rewrite E.
    destruct (rev (dropwhile isspace (rev (dropwhile isspace s))));
      [discriminate|exact Hc].
  - intros c Hc. rewrite rev_involutive in Hc.
    eapply dropwhile_hd; exact Hc.
Qed.

(** X1. The availability and the category of every row of a returned frame
    carry no white space at either end, whatever the pages hold around the
    text. *)
Theorem cells_are_stripped todecimal site pages log df log' :
  scrape_pages todecimal site pages log = (Ok df, log') ->
  forall k col c,
    k = py "Availability" \/ k = py "Category" ->
    df_getitem df k = Ok col -> In c col ->
    exists s, c = CStr s /\ stripped s.
Proof.
  intros H k col c Hk Hcol Hin.
  apply scrape_pages_Ok in H as (_ & rows & F & -> & _).
  assert (S : Forall (fun r => stripped (row_availability r)
                               /\ stripped (row_category r)) rows).
  { clear - F. induction F as [|b r ? ? Hr F IH]; constructor; auto.
    apply book_row_of_Ok in Hr as (_ & _ & Ha & _ & Hc).
    split.
    - unfold book_availability, and_then in Ha.
      destruct (find_method (Some b) (py "p") (py "instock availability"))
        as [p|]; [|discriminate].
      destruct (text p) as [t|]; [|discriminate].
      injection Ha as <-. apply strip_stripped.
    - unfold book_category, and_then in Hc.
      destruct (book_href b) as [h|]; [|discriminate].
      destruct (site (book_url h)) as [content|]; [|discriminate].
      unfold soup_category, and_then in Hc.
      destruct (find_method (Some (BeautifulSoup content)) (py "ul")
                  (py "breadcrumb")) as [ul|]; [|discriminate].
      destruct (find_all_method ul (py "li")) as [lis|]; [|discriminate].
      destruct (list_index lis 2) as [li|]; [|discriminate].
      destruct (text (Some li)) as [t|]; [|discriminate].
      injection Hc as <-. apply strip_stripped. }
  rewrite Forall_forall in S.
  destruct Hk as [-> | ->]; vm_compute in Hcol; injection Hcol as <-;
    apply in_map_iff in Hin as (r & <- & Hr); eexists;
    (split; [reflexivity|]); apply (S r Hr).
Qed.

Lemma cells_are_stripped_witness :
  exists s, CStr (py "In stock") = CStr s /\ stripped s.
Proof.
  apply (cells_are_stripped ascii_digits_only attic_site [1%N] []
           (frame_of_rows
              [Row (py "A Light in the Attic") (Finite false 5177 (-2))
                   (py "In stock") (py "Three") (py "Poetry")])
           [page_url 1; book_url attic_href])
    with (k := py "Availability") (col := [CStr (py "In stock")]).
  - vm_compute. reflexivity.
  - left. reflexivity.
  - vm_compute. reflexivity.
  - left. reflexivity.
Defined.

(** ** Where the requests go *)

Section RequestsOnly.

Variable site : website.
Variable P : str -> Prop.

Lemma requests_only_ret {A : Type} (a : A) : requests_only P (ret a).
Proof. intros log. exists []. simpl. rewrite app_nil_r. auto. Qed.

Lemma requests_only_lift {A : Type} (r : result A) : requests_only P (lift r).
Proof. intros log. exists []. simpl. rewrite app_nil_r. auto. Qed.

Lemma requests_only_get url : P url -> requests_only P (requests_get site url).
Proof.
  intros Hu log. exists [url]. unfold requests_get.
  destruct (site url); simpl; auto.
Qed.

Lemma requests_only_bind {A B : Type} (m : M A) (k : A -> M B) :
  requests_only P m -> (forall a, requests_only P (k a)) ->
  requests_only P (bind m k).
Proof.
  intros Hm Hk log. unfold bind.
  destruct (Hm log) as (add1 & E1 & F1).
  destruct (m log) as [[a|e] log1]; simpl in *; subst log1.
  - destruct (Hk a (log ++ add1)) as (add2 & E2 & F2).
    exists (add1 ++ add2). rewrite E2, app_assoc. split; [reflexivity|].
    apply Forall_app; auto.
  - exists add1. auto.
Qed.

Lemma requests_only_for_each {A S : Type} (body : A -> S -> M S) l :
  (forall x s, requests_only P (body x s)) ->
  forall s, requests_only P (for_each l body s).
Proof.
  intros Hb. induction l as [|x l IH]; intros s; simpl.
  - apply requests_only_ret.
  - apply requests_only_bind; auto.
Qed.

End RequestsOnly.

Lemma book_url_in_catalogue href : in_catalogue (book_url href).
Proof. unfold in_catalogue, book_url. apply startswith_app. Qed.

Lemma page_url_in_catalogue page : in_catalogue (page_url page).
Proof. unfold in_catalogue, page_url. reflexivity. Qed.

Lemma scrape_pages_in_catalogue todecimal site pages :
  requests_only in_catalogue (scrape_pages todecimal site pages).
Proof.
  unfold scrape_pages. apply requests_only_bind.
  - apply requests_only_for_each. intros p acc. unfold scrape_page.
    apply requests_only_bind.
    + apply requests_only_get, page_url_in_catalogue.
    + intros soup. apply requests_only_for_each. intros b acc'.
      unfold scrape_book.
      repeat (apply requests_only_bind;
              [ first [ apply requests_only_get, book_url_in_catalogue
                      | apply requests_only_lift ]
              | intros ? ]).
      apply requests_only_ret.
  - intros acc. apply requests_only_ret.
Qed.

(** X2. Every request of a run of [load_data], whether the run returns or
    fails and whatever links the pages hold, goes to a URL that starts with
    the catalogue address of the site; the mapping step of [load_data] adds
    no request. *)
Theorem requests_stay_in_catalogue todecimal site r log :
  load_data todecimal site [] = (r, log) ->
  Forall in_catalogue log
  /\ log = snd (scrape_books todecimal site []).
Proof.
  intros H. unfold load_data in H. rewrite load_data_from_scrape in H.
  destruct (scrape_pages_in_catalogue todecimal site (range 1 6) [])
    as (added & E & F).
  fold (scrape_books todecimal site) in E.
  destruct (scrape_books todecimal site []) as [[df|e] l]; simpl in *.
  - unfold load_data_from, bind, ret, lift in H.
    destruct (df_getitem df (py "Rating")); injection H as _ <-;
      subst l; auto.
  - injection H as _ <-. subst l; auto.
Qed.

Lemma requests_stay_in_catalogue_witness :
  Forall in_catalogue (snd (load_data ascii_digits_only down_site [])).
Proof.
  apply (requests_stay_in_catalogue ascii_digits_only down_site
           (fst (load_data ascii_digits_only down_site []))
           (snd (load_data ascii_digits_only down_site []))).
  apply surjective_pairing.
Defined.

(** ** The Rating column after [load_data] *)

Lemma rating_map_range s v : dict_get rating_map s = Some v -> (1 <= v <= 5)%Z.
Proof.
  unfold rating_map. cbn [dict_get].
  repeat match goal with
         | |- context [str_eqb ?a s] => destruct (str_eqb a s)
         end;
    intros H; try discriminate; injection H as <-; lia.
Qed.

Lemma series_map_cells col c :
  In c (series_map rating_map col) ->
  c = CNaN \/ exists n, c = CInt n /\ (1 <= n <= 5)%Z.
Proof.
  unfold series_map. intros H. apply in_map_iff in H as (x & <- & _).
  destruct x as [s| | |]; auto.
  destruct (dict_get rating_map s) as [v|] eqn:E; auto.
  right. exists v. split; [reflexivity|]. eapply rating_map_range; eauto.
Qed.

(** X3. Whatever the cells of the Rating column were, after [load_data]
    each of them is NaN or an integer from 1 to 5. *)
Theorem ratings_in_range df log df' log' col' c :
  load_data_from (ret df) log = (Ok df', log') ->
  df_getitem df' (py "Rating") = Ok col' -> In c col' ->
  c = CNaN \/ exists n, c = CInt n /\ (1 <= n <= 5)%Z.
Proof.
  unfold load_data_from, bind, ret, lift. intros H Hcol Hin.
  destruct (df_getitem df (py "Rating")) as [col|e]; [|discriminate].
  injection H as <- _. unfold df_getitem in Hcol.
  rewrite dict_get_setitem_same in Hcol. injection Hcol as <-.
  eapply series_map_cells; eauto.
Qed.

Lemma ratings_in_range_witness :
  CInt 4 = CNaN \/ exists n, CInt 4 = CInt n /\ (1 <= n <= 5)%Z.
Proof.
  apply (ratings_in_range (frame_of_rows two_by_three_rows) []
           (df_setitem (frame_of_rows two_by_three_rows) (py "Rating")
              (series_map rating_map
                 (map (fun r => CStr (row_rating r)) two_by_three_rows)))
           []
           (series_map rating_map
              (map (fun r => CStr (row_rating r)) two_by_three_rows))).
  - vm_compute. reflexivity.
  - vm_compute. reflexivity.
  - vm_compute. auto 10.
Defined.

Lemma series_map_twice col :
  series_map rating_map (series_map rating_map col)
  = repeat CNaN (List.length col).
Proof.
  unfold series_map. induction col as [|c col IH]; [reflexivity|].
  cbn [map List.length repeat]. rewrite IH. f_equal.
  destruct c as [s| | |]; try reflexivity.
  destruct (dict_get rating_map s); reflexivity.
Qed.

Lemma df_setitem_twice df k c1 c2 :
  df_setitem (df_setitem df k c1) k c2 = df_setitem df k c2.
Proof.
  induction df as [|[k' c] df IH]; simpl.
  - rewrite str_eqb_refl. reflexivity.
  - destruct (str_eqb k' k) eqn:E; simpl; rewrite E; [reflexivity|].
    rewrite IH. reflexivity.
Qed.

(** X4. The mapping step of [load_data] is not to be applied twice: run on
    a frame it has already mapped, it returns without an exception and
    leaves NaN in every cell of the Rating column, the numbers 1 to 5
    being no keys of the dictionary.  The other columns stay as they
    were. *)
Theorem rating_map_twice df col log :
  df_getitem df (py "Rating") = Ok col ->
  load_data_from (load_data_from (ret df)) log
  = (Ok (df_setitem df (py "Rating") (repeat CNaN (List.length col))), log).
Proof.
  intros H. rewrite load_data_from_scrape, (load_data_from_ret _ _ _ H).
  erewrite load_data_from_ret.
  2:{ unfold df_getitem. rewrite dict_get_setitem_same. reflexivity. }
  rewrite df_setitem_twice, series_map_twice. reflexivity.
Qed.

Lemma rating_map_twice_witness :
  load_data_from (load_data_from (ret (frame_of_rows two_by_three_rows))) []
  = (Ok (df_setitem (frame_of_rows two_by_three_rows) (py "Rating")
           (repeat CNaN
              (List.length
                 (map (fun r => CStr (row_rating r)) two_by_three_rows)))),
     []).
Proof.
  apply (rating_map_twice (frame_of_rows two_by_three_rows)
           (map (fun r => CStr (row_rating r)) two_by_three_rows) []).
  vm_compute. reflexivity.
Defined.

(** ** The table of a loaded frame *)

Lemma zip_rows_loaded rows :
  zip_rows (map (fun r => CStr (row_title r)) rows)
           (map (fun r => CFloat (row_price r)) rows)
           (map (fun r => CStr (row_availability r)) rows)
           (series_map rating_map (map (fun r => CStr (row_rating r)) rows))
           (map (fun r => CStr (row_category r)) rows)
  = Some (map entry_of_row rows).
Proof.
  induction rows as [|r rows IH]; [reflexivity|].
  cbn [map series_map zip_rows]. unfold series_map in IH.
  unfold entry_of_row at 1.
  destruct (dict_get rating_map (row_rating r)); rewrite IH; reflexivity.
Qed.

(** X5. The frame [load_data] returns for a scrape that returns reads as a
    table: one entry per book met, in traversal order, with the title, the
    price, the availability and the category of the book's record, and for
    rating the number the dictionary gives its rating word, or none. *)
Theorem data_is_table todecimal site pages log df log' :
  scrape_pages todecimal site pages log = (Ok df, log') ->
  exists df' data,
    load_data_from (scrape_pages todecimal site pages) log = (Ok df', log')
    /\ table_of df' = Some data
    /\ Forall2 (fun b e =>
                  exists r, book_row_of todecimal site b = Ok r
                            /\ e = entry_of_row r)
               (flat_map (books_on site) pages) data.
Proof.
  intros H. rewrite load_data_from_scrape, H.
  apply scrape_pages_Ok in H as (_ & rows & F & -> & _).
  exists (df_setitem (frame_of_rows rows) (py "Rating")
            (series_map rating_map
               (map (fun r => CStr (row_rating r)) rows))),
    (map entry_of_row rows).
  split; [apply load_data_from_ret; reflexivity|].
  split.
  - change (table_of
              [ (py "Title", map (fun r => CStr (row_title r)) rows);
                (py "Price", map (fun r => CFloat (row_price r)) rows);
                (py "Availability",
                 map (fun r => CStr (row_availability r)) rows);
                (py "Rating",
                 series_map rating_map
                   (map (fun r => CStr (row_rating r)) rows));
                (py "Category", map (fun r => CStr (row_category r)) rows) ]
            = Some (map entry_of_row rows)).
    unfold table_of. rewrite !str_eqb_refl. simpl andb.
    apply zip_rows_loaded.
  - clear - F. induction F as [|b r ? ? Hr F IH]; simpl; constructor; eauto.
Qed.

Lemma data_is_table_witness :
  exists df' data,
    load_data_from (scrape_pages ascii_digits_only six_site [1%N]) []
    = (Ok df', [page_url 1; book_url attic_href])
    /\ table_of df' = Some data
    /\ Forall2 (fun b e =>
                  exists r, book_row_of ascii_digits_only six_site b = Ok r
                            /\ e = entry_of_row r)
               (flat_map (books_on six_site) [1%N]) data.
Proof.
  apply (data_is_table ascii_digits_only six_site [1%N] []
           (frame_of_rows
              [Row (py "A Light in the Attic") (Finite false 5177 (-2))
                   (py "In stock") (py "Six") (py "Poetry")])).
  vm_compute. reflexivity.
Defined.

(** * Properties of the script after [load_data] *)

(** ** The order on strings *)

Lemma str_leb_refl a : str_leb a a = true.
Proof.
  induction a as [|x a IH]; simpl; [reflexivity|].
  rewrite N.ltb_irrefl. exact IH.
Qed.

Lemma str_leb_total a b : str_leb a b = false -> str_leb b a = true.
Proof.
  revert b. induction a as [|x a IH]; intros [|y b]; simpl; try congruence.
  destruct (N.ltb_spec x y), (N.ltb_spec y x); try congruence; try lia.
  apply IH.
Qed.

Lemma str_leb_antisym a b :
  str_leb a b = true -> str_leb b a = true -> a = b.
Proof.
  revert b. induction a as [|x a IH]; intros [|y b]; simpl; try congruence.
  destruct (N.ltb_spec x y), (N.ltb_spec y x); try congruence; try lia.
  intros H1 H2. assert (x = y) by lia. subst. f_equal. auto.
Qed.

Lemma str_leb_trans a b c :
  str_leb a b = true -> str_leb b c = true -> str_leb a c = true.
Proof.
  revert b c. induction a as [|x a IH]; intros [|y b] [|z c]; simpl;
    try congruence.
  destruct (N.ltb_spec x y), (N.ltb_spec y z), (N.ltb_spec x z),
    (N.ltb_spec y x), (N.ltb_spec z y), (N.ltb_spec z x);
    try congruence; try lia.
  apply IH.
Qed.

(** ** [unique] and [sorted] *)

Section Unique.

Context {A : Type}.
Variable eqb : A -> A -> bool.
Hypothesis eqb_eq : forall a b, eqb a b = true <-> a = b.

Lemma unique_In l x : In x (unique eqb l) <-> In x l.
Proof.
  induction l as [|y l IH]; simpl; [tauto|].
  rewrite filter_In, IH. split.
  - intros [H|[H _]]; auto.
  - intros [H|H]; auto.
    destruct (eqb x y) eqn:E.
    + left. symmetry. apply eqb_eq. exact E.
    + right. split; [exact H|reflexivity].
Qed.

Lemma unique_NoDup l : NoDup (unique eqb l).
Proof.
  induction l as [|y l IH]; simpl; constructor.
  - rewrite filter_In. intros [_ H].
    rewrite (proj2 (eqb_eq y y) eq_refl) in H. discriminate.
  - apply NoDup_filter. exact IH.
Qed.

Lemma unique_length l : List.length (unique eqb l) <= List.length l.
Proof.
  induction l as [|y l IH]; simpl; [lia|].
  pose proof (filter_length_le (fun z => negb (eqb z y)) (unique eqb l)).
  lia.
Qed.

End Unique.

Section Sorting.

Context {A : Type}.
Variable leb : A -> A -> bool.
Hypothesis leb_total : forall a b, leb a b = false -> leb b a = true.
Hypothesis leb_trans :
  forall a b c, leb a b = true -> leb b c = true -> leb a c = true.

Lemma insert_sorted_perm x l : Permutation (insert_sorted leb x l) (x :: l).
Proof.
  induction l as [|y l IH]; simpl; [reflexivity|].
  destruct (leb x y); [reflexivity|].
  rewrite IH. apply perm_swap.
Qed.

Lemma sorted_perm l : Permutation (sorted leb l) l.
Proof.
  induction l as [|x l IH]; simpl; [reflexivity|].
  rewrite insert_sorted_perm. constructor. exact IH.
Qed.

Lemma insert_sorted_ascending x l :
  StronglySorted (fun a b => leb a b = true) l ->
  StronglySorted (fun a b => leb a b = true) (insert_sorted leb x l).
Proof.
  induction 1 as [|y l Hs IH Hy]; simpl.
  - repeat constructor.
  - destruct (leb x y) eqn:E.
    + constructor; [constructor; assumption|].
      constructor; [exact E|].
      rewrite Forall_forall in *. intros z Hz. eapply leb_trans; eauto.
    + constructor; [exact IH|].
      rewrite Forall_forall in *. intros z Hz.
      apply (Permutation_in _ (insert_sorted_perm x l)) in Hz.
      destruct Hz as [<-|Hz]; auto.
Qed.

Lemma sorted_ascending l :
  StronglySorted (fun a b => leb a b = true) (sorted leb l).
Proof.
  induction l as [|x l IH]; simpl; [constructor|].
  apply insert_sorted_ascending. exact IH.
Qed.

Lemma ascending_strict l :
  StronglySorted (fun a b => leb a b = true) l -> NoDup l ->
  StronglySorted (fun a b => leb a b = true /\ a <> b) l.
Proof.
  induction 1 as [|y l Hs IH Hy]; intros Hn; constructor.
  - apply IH. inversion Hn; assumption.
  - inversion Hn as [|? ? Hin _]; subst.
    rewrite Forall_forall in *. intros z Hz. split; auto.
    intros ->. contradiction.
Qed.

End Sorting.

(** X6. The options of the category selector are the categories that occur
    in the data, each once, in strictly ascending order of their code
    points. *)
Theorem category_options_sorted data :
  StronglySorted (fun a b => str_leb a b = true /\ a <> b)
                 (category_options data)
  /\ forall c, In c (category_options data)
               <-> exists e, In e data /\ Category e = c.
Proof.
  unfold category_options. split.
  - apply ascending_strict.
    + apply sorted_ascending; [exact str_leb_total | exact str_leb_trans].
    + eapply Permutation_NoDup.
      * symmetry. apply sorted_perm.
      * apply unique_NoDup. exact str_eqb_eq.
  - intros c. split.
    + intros H. apply (Permutation_in _ (sorted_perm str_leb _)) in H.
      apply (proj1 (unique_In str_eqb str_eqb_eq _ _)) in H.
      apply in_map_iff in H as (e & He & Hin). eauto.
    + intros (e & Hin & He).
      apply (Permutation_in _ (Permutation_sym (sorted_perm str_leb _))).
      apply (proj2 (unique_In str_eqb str_eqb_eq _ _)).
      apply in_map_iff. eauto.
Qed.

(** ** The order on floats *)

(** The rounding of [stored] against the machine's binary64 literals: a
    price, a tie between two neighbours, the largest finite number and the
    first decimal that overflows, the subnormal range and its underflow. *)
Lemma stored_matches_hardware :
  stored (Finite false 5177 (-2)) = units_of_float 51.77%float
  /\ stored (Finite false 1 (-1)) = units_of_float 0.1%float
  /\ stored (Finite true 15 (-1)) = units_of_float (-1.5)%float
  /\ stored (Finite false 9007199254740993 0)
     = units_of_float 9007199254740992%float
  /\ stored (Finite false 9007199254740995 0)
     = units_of_float 9007199254740996%float
  /\ stored (Finite false 1 23) = units_of_float 1e23%float
  /\ stored (Finite false 17976931348623157 292)
     = units_of_float 1.7976931348623157e308%float
  /\ stored (Finite false 17976931348623159 292)
     = units_of_float infinity
  /\ stored (Finite false 5 (-324)) = units_of_float 5e-324%float
  /\ stored (Finite false 2 (-324)) = units_of_float 0%float
  /\ stored (Finite false 22250738585072011 (-324))
     = units_of_float 2.2250738585072011e-308%float.
Proof.
  do 10 (split; [vm_compute; reflexivity|]). vm_compute. reflexivity.
Qed.

Lemma stored_leb_refl x : stored_leb x x = true.
Proof. destruct x; simpl; auto. apply Z.leb_refl. Qed.

Lemma stored_leb_total x y : stored_leb x y = false -> stored_leb y x = true.
Proof.
  destruct x, y; simpl; try congruence.
  intros H. apply Z.leb_gt in H. apply Z.leb_le. lia.
Qed.

Lemma stored_leb_trans x y z :
  stored_leb x y = true -> stored_leb y z = true -> stored_leb x z = true.
Proof.
  destruct x, y, z; simpl; try congruence.
  rewrite !Z.leb_le. lia.
Qed.

Lemma float_le_stored a b :
  float_le a b = true -> stored a <> None /\ stored b <> None.
Proof.
  unfold float_le. destruct (stored a), (stored b); try discriminate.
  split; discriminate.
Qed.

Lemma float_le_refl a : stored a <> None -> float_le a a = true.
Proof.
  unfold float_le. destruct (stored a); [|congruence].
  intros _. apply stored_leb_refl.
Qed.

Lemma float_le_total a b :
  stored a <> None -> stored b <> None ->
  float_le a b = false -> float_le b a = true.
Proof.
  unfold float_le. destruct (stored a), (stored b); try congruence.
  intros _ _. apply stored_leb_total.
Qed.

Lemma float_le_trans a b c :
  float_le a b = true -> float_le b c = true -> float_le a c = true.
Proof.
  unfold float_le. destruct (stored a), (stored b), (stored c);
    try congruence.
  apply stored_leb_trans.
Qed.

(** ** The ends of the price slider *)

Lemma series_min_none l :
  stored (series_min l) = None -> forall x, In x l -> stored x = None.
Proof.
  induction l as [|y l IH]; simpl; [contradiction|].
  destruct (stored y) eqn:Ey.
  - destruct (stored (series_min l)) eqn:Em.
    + destruct (float_le y (series_min l)); congruence.
    + congruence.
  - intros H x [<-|Hx]; auto.
Qed.

Lemma series_min_le l x :
  In x l -> stored x <> None -> float_le (series_min l) x = true.
Proof.
  induction l as [|y l IH]; simpl; [contradiction|].
  intros Hin Hx. destruct (stored y) eqn:Ey.
  - destruct (stored (series_min l)) eqn:Em.
    + destruct (float_le y (series_min l)) eqn:E.
      * destruct Hin as [<-|Hin].
        -- apply float_le_refl. congruence.
        -- eapply float_le_trans; [exact E|]. apply IH; assumption.
      * destruct Hin as [<-|Hin].
        -- apply float_le_total; congruence.
        -- apply IH; assumption.
    + destruct Hin as [<-|Hin].
      * apply float_le_refl. congruence.
      * elim Hx. eapply series_min_none; eauto.
  - destruct Hin as [<-|Hin]; [congruence|]. apply IH; assumption.
Qed.

Lemma series_min_In l :
  stored (series_min l) <> None -> In (series_min l) l.
Proof.
  induction l as [|y l IH]; simpl; [intros H; elim H; reflexivity|].
  destruct (stored y) eqn:Ey.
  - destruct (stored (series_min l)) eqn:Em.
    + destruct (float_le y (series_min l)); auto.
      intros _. right. apply IH. congruence.
    + auto.
  - intros H. right. apply IH. exact H.
Qed.

Lemma series_max_none l :
  stored (series_max l) = None -> forall x, In x l -> stored x = None.
Proof.
  induction l as [|y l IH]; simpl; [contradiction|].
  destruct (stored y) eqn:Ey.
  - destruct (stored (series_max l)) eqn:Em.
    + destruct (float_le (series_max l) y); congruence.
    + congruence.
  - intros H x [<-|Hx]; auto.
Qed.

Lemma series_max_ge l x :
  In x l -> stored x <> None -> float_le x (series_max l) = true.
Proof.
  induction l as [|y l IH]; simpl; [contradiction|].
  intros Hin Hx. destruct (stored y) eqn:Ey.
  - destruct (stored (series_max l)) eqn:Em.
    + destruct (float_le (series_max l) y) eqn:E.
      * destruct Hin as [<-|Hin].
        -- apply float_le_refl. congruence.
        -- eapply float_le_trans; [|exact E]. apply IH; assumption.
      * destruct Hin as [<-|Hin].
        -- apply float_le_total; congruence.
        -- apply IH; assumption.
    + destruct Hin as [<-|Hin].
      * apply float_le_refl. congruence.
      * elim Hx. eapply series_max_none; eauto.
  - destruct Hin as [<-|Hin]; [congruence|]. apply IH; assumption.
Qed.

Lemma series_max_In l :
  stored (series_max l) <> None -> In (series_max l) l.
Proof.
  induction l as [|y l IH]; simpl; [intros H; elim H; reflexivity|].
  destruct (stored y) eqn:Ey.
  - destruct (stored (series_max l)) eqn:Em.
    + destruct (float_le (series_max l) y); auto.
      intros _. right. apply IH. congruence.
    + auto.
  - intros H. right. apply IH. exact H.
Qed.

(** X7. The ends of the price slider are prices of the data, and every
    price of the data that is a number lies between them; prices that are
    NaN are passed over. *)
Theorem price_range_covers data e :
  In e data -> stored (Price e) <> None ->
  float_le (price_min data) (Price e) = true
  /\ float_le (Price e) (price_max data) = true
  /\ exists lo hi, In lo data /\ In hi data
                   /\ price_min data = Price lo /\ price_max data = Price hi.
Proof.
  intros Hin Hs. unfold price_min, price_max.
  assert (Hp : In (Price e) (map Price data)) by (apply in_map; exact Hin).
  pose proof (series_min_le _ _ Hp Hs) as Hlo.
  pose proof (series_max_ge _ _ Hp Hs) as Hhi.
  split; [exact Hlo|]. split; [exact Hhi|].
  apply float_le_stored in Hlo as [Hlo _].
  apply float_le_stored in Hhi as [_ Hhi].
  apply series_min_In, in_map_iff in Hlo as (lo & Elo & Hlo).
  apply series_max_In, in_map_iff in Hhi as (hi & Ehi & Hhi).
  exists lo, hi. auto.
Qed.

Lemma price_range_covers_witness :
  float_le (price_min odd_table) (Finite false 1500 (-2)) = true
  /\ float_le (Finite false 1500 (-2)) (price_max odd_table) = true
  /\ exists lo hi, In lo odd_table /\ In hi odd_table
                   /\ price_min odd_table = Price lo
                   /\ price_max odd_table = Price hi.
Proof.
  apply (price_range_covers odd_table
           (Entry (py "d") (Finite false 1500 (-2)) (py "In stock")
                  (Some 3%Z) (py "Music"))).
  - simpl. auto.
  - vm_compute. discriminate.
Defined.

(** ** The rows on display *)

Lemma filter_subseq {A : Type} (f : A -> bool) l : subseq (filter f l) l.
Proof.
  induction l as [|x l IH]; simpl; [constructor|].
  destruct (f x); constructor; exact IH.
Qed.

Lemma isin_str_In c values : isin_str c values = true <-> In c values.
Proof.
  unfold isin_str. rewrite existsb_exists. split.
  - intros (x & Hx & E). apply str_eqb_eq in E. subst. exact Hx.
  - intros H. exists c. split; [exact H|apply str_eqb_refl].
Qed.

Lemma isin_rating_In r values :
  isin_rating r values = true <-> exists n, r = Some n /\ In n values.
Proof.
  unfold isin_rating. destruct r as [n|].
  - rewrite existsb_exists. split.
    + intros (x & Hx & E). apply Z.eqb_eq in E. subst. eauto.
    + intros (m & E & H). injection E as <-. exists n.
      split; [exact H|apply Z.eqb_refl].
  - split; [discriminate|]. intros (n & E & _). discriminate.
Qed.

Lemma filtered_data_In data categories min_price max_price ratings e :
  In e (filtered_data data categories min_price max_price ratings) <->
  In e data /\ In (Category e) categories
  /\ (exists n, Rating e = Some n /\ In n ratings)
  /\ float_le min_price (Price e) = true
  /\ float_le (Price e) max_price = true.
Proof.
  unfold filtered_data. rewrite filter_In, !andb_true_iff.
  rewrite isin_str_In, isin_rating_In. tauto.
Qed.

Lemma selected_true categories min_price max_price ratings e :
  isin_str (Category e) categories
  && float_le min_price (Price e) && float_le (Price e) max_price
  && isin_rating (Rating e) ratings = true
  <-> selected categories min_price max_price ratings e.
Proof.
  unfold selected. rewrite !andb_true_iff, isin_str_In, isin_rating_In.
  tauto.
Qed.

(** X8. Whatever the three widgets return, the rows on display are rows
    of the data in their order, nothing added.  The rows are judged one by
    one, from the first: a row whose category and rating are among the
    selected ones and whose price lies between the two ends chosen is kept
    in its place, every copy of it, and any other row is left out.  A row
    whose rating is missing or whose price is NaN is on display under no
    selection. *)
Theorem displayed_rows data categories min_price max_price ratings :
  subseq (filtered_data data categories min_price max_price ratings) data
  /\ (forall e,
        In e (filtered_data data categories min_price max_price ratings) <->
        In e data /\ In (Category e) categories
        /\ (exists n, Rating e = Some n /\ In n ratings)
        /\ float_le min_price (Price e) = true
        /\ float_le (Price e) max_price = true)
  /\ (forall e,
        In e (filtered_data data categories min_price max_price ratings) ->
        Rating e <> None /\ stored (Price e) <> None)
  /\ filtered_data [] categories min_price max_price ratings = []
  /\ (forall before e after,
        data = before ++ e :: after ->
        selected categories min_price max_price ratings e ->
        filtered_data data categories min_price max_price ratings
        = filtered_data before categories min_price max_price ratings
          ++ e :: filtered_data after categories min_price max_price ratings)
  /\ (forall before e after,
        data = before ++ e :: after ->
        ~ selected categories min_price max_price ratings e ->
        filtered_data data categories min_price max_price ratings
        = filtered_data before categories min_price max_price ratings
          ++ filtered_data after categories min_price max_price ratings).
Proof.
  split; [apply filter_subseq|]. split; [intros e; apply filtered_data_In|].
  split.
  { intros e H.
    apply filtered_data_In in H as (_ & _ & (n & Hn & _) & Hlo & _).
    split; [congruence|]. apply float_le_stored in Hlo. tauto. }
  split; [reflexivity|].
  split.
  { intros before e after -> H. unfold filtered_data.
    rewrite filter_app. cbn [filter].
    apply selected_true in H. rewrite H. reflexivity. }
  intros before e after -> H. unfold filtered_data.
  rewrite filter_app. cbn [filter].
  destruct (_ && _) eqn:E; [|reflexivity].
  apply selected_true in E. contradiction.
Qed.

(** Two equal rows that pass the masks are both on display, each in its
    place. *)
Lemma displayed_rows_witness :
  filtered_data twin_table [py "Travel"] (Finite false 0 0)
                (Finite false 50 0) [5%Z]
  = twin_table.
Proof.
  unfold twin_table.
  destruct (displayed_rows [twin; twin] [py "Travel"] (Finite false 0 0)
              (Finite false 50 0) [5%Z]) as (_ & _ & _ & _ & Hkeep & _).
  rewrite (Hkeep [] twin [twin] eq_refl).
  - destruct (displayed_rows [twin] [py "Travel"] (Finite false 0 0)
                (Finite false 50 0) [5%Z]) as (_ & _ & _ & Hnil & Hkeep1 & _).
    rewrite (Hkeep1 [] twin [] eq_refl).
    + rewrite Hnil. reflexivity.
    + unfold selected. split; [left; reflexivity|].
      split; [exists 5%Z; split; [reflexivity|left; reflexivity]|].
      split; vm_compute; reflexivity.
  - unfold selected. split; [left; reflexivity|].
    split; [exists 5%Z; split; [reflexivity|left; reflexivity]|].
    split; vm_compute; reflexivity.
Defined.

Lemma category_options_In data e :
  In e data -> In (Category e) (category_options data).
Proof.
  intros H. unfold category_options.
  apply (Permutation_in _ (Permutation_sym (sorted_perm str_leb _))).
  apply (proj2 (unique_In str_eqb str_eqb_eq _ _)).
  apply in_map. exact H.
Qed.

Lemma rating_options_isin n :
  existsb (Z.eqb n) rating_options = (1 <=? n)%Z && (n <=? 5)%Z.
Proof.
  unfold rating_options. cbn [existsb].
  destruct (Z.eqb_spec n 1), (Z.eqb_spec n 2), (Z.eqb_spec n 3),
    (Z.eqb_spec n 4), (Z.eqb_spec n 5), (Z.leb_spec 1 n), (Z.leb_spec n 5);
    simpl; try reflexivity; lia.
Qed.

(** X9. When the price slider is built, its two ends being finite numbers
    with the lower below the upper, and the three widgets return their
    defaults (every category, the whole price range, the ratings 1 to 5),
    the table on display is the data without the rows whose price is NaN or
    whose rating is not one of 1 to 5: a book with an unknown rating word
    is left out from the start.  The data then holds at least two rows, of
    different prices. *)
Theorem default_selection data :
  slider_accepts (price_min data) (price_max data) = true ->
  filtered_data data (category_options data) (price_min data)
                (price_max data) rating_options
  = filter presentable data
  /\ exists e1 e2,
       In e1 data /\ In e2 data
       /\ Price e1 = price_min data /\ Price e2 = price_max data
       /\ float_le (Price e2) (Price e1) = false.
Proof.
  intros Hs. split.
  - unfold filtered_data. apply filter_ext_in. intros e He.
    rewrite (proj2 (isin_str_In _ _) (category_options_In _ _ He)).
    unfold presentable, isin_rating. simpl andb.
    destruct (stored (Price e)) eqn:Es.
    + assert (Hn : stored (Price e) <> None) by congruence.
      assert (Hp : In (Price e) (map Price data)) by (apply in_map; exact He).
      unfold price_min, price_max.
      rewrite (series_min_le _ _ Hp Hn), (series_max_ge _ _ Hp Hn). simpl.
      destruct (Rating e); [apply rating_options_isin|reflexivity].
    + unfold float_le at 1. rewrite Es.
      destruct (stored (price_min data)); reflexivity.
  - unfold slider_accepts in Hs.
    destruct (stored (price_min data)) as [[|a|]|] eqn:Ea; try discriminate.
    destruct (stored (price_max data)) as [[|b|]|] eqn:Eb; try discriminate.
    assert (Ha : stored (series_min (map Price data)) <> None)
      by (fold (price_min data); congruence).
    assert (Hb : stored (series_max (map Price data)) <> None)
      by (fold (price_max data); congruence).
    apply series_min_In in Ha. apply series_max_In in Hb.
    apply in_map_iff in Ha as (e1 & E1 & H1).
    apply in_map_iff in Hb as (e2 & E2 & H2).
    exists e1, e2. repeat split; auto.
    unfold float_le. rewrite E1, E2.
    fold (price_min data) (price_max data). rewrite Ea, Eb. simpl.
    apply Z.leb_gt. apply Z.ltb_lt. exact Hs.
Qed.

Lemma default_selection_witness :
  filtered_data odd_table (category_options odd_table) (price_min odd_table)
                (price_max odd_table) rating_options
  = filter presentable odd_table
  /\ exists e1 e2,
       In e1 odd_table /\ In e2 odd_table
       /\ Price e1 = price_min odd_table /\ Price e2 = price_max odd_table
       /\ float_le (Price e2) (Price e1) = false.
Proof.
  apply (default_selection odd_table). vm_compute. reflexivity.
Defined.

(** X10. From the pages to the display: when the scrape returns, every row
    on display, whatever is selected, is the row of a book met in the
    traversal whose rating word is a key of the dictionary, shown with the
    number of that word; a book with another rating word is scraped and
    loaded but never displayed. *)
Theorem unknown_rating_not_displayed todecimal site pages log df log' :
  scrape_pages todecimal site pages log = (Ok df, log') ->
  exists df' data,
    load_data_from (scrape_pages todecimal site pages) log = (Ok df', log')
    /\ table_of df' = Some data
    /\ List.length data = List.length (flat_map (books_on site) pages)
    /\ forall categories min_price max_price ratings e,
         In e (filtered_data data categories min_price max_price ratings) ->
         exists b tok n,
           In b (flat_map (books_on site) pages)
           /\ book_title b = Ok (Title e)
           /\ book_rating b = Ok tok
           /\ dict_get rating_map tok = Some n
           /\ Rating e = Some n /\ In n ratings.
Proof.
  intros H. rewrite load_data_from_scrape, H.
  apply scrape_pages_Ok in H as (_ & rows & F & -> & _).
  exists (df_setitem (frame_of_rows rows) (py "Rating")
            (series_map rating_map
               (map (fun r => CStr (row_rating r)) rows))),
    (map entry_of_row rows).
  split; [apply load_data_from_ret; reflexivity|].
  split.
  - change (table_of
              [ (py "Title", map (fun r => CStr (row_title r)) rows);
                (py "Price", map (fun r => CFloat (row_price r)) rows);
                (py "Availability",
                 map (fun r => CStr (row_availability r)) rows);
                (py "Rating",
                 series_map rating_map
                   (map (fun r => CStr (row_rating r)) rows));
                (py "Category", map (fun r => CStr (row_category r)) rows) ]
            = Some (map entry_of_row rows)).
    unfold table_of. rewrite !str_eqb_refl. simpl andb.
    apply zip_rows_loaded.
  - split.
    + rewrite length_map. symmetry. eapply Forall2_length; eauto.
    + intros categories min_price max_price ratings e He.
      apply filtered_data_In in He as (Hin & _ & (n & Hn & Hr) & _).
      apply in_map_iff in Hin as (r & <- & Hin).
      assert (Hb : exists b, In b (flat_map (books_on site) pages)
                             /\ book_row_of todecimal site b = Ok r).
      { clear - F Hin. induction F as [|b r' ? ? Hr F IH].
        - contradiction.
        - destruct Hin as [->|Hin].
          + exists b. split; [left; reflexivity|exact Hr].
          + destruct (IH Hin) as (b' & Hb' & Hr').
            exists b'. split; [right; exact Hb'|exact Hr']. }
      destruct Hb as (b & Hb & Hrow).
      apply book_row_of_Ok in Hrow as (Ht & _ & _ & Hrt & _).
      exists b, (row_rating r), n. simpl in *. auto 10.
Qed.

Lemma unknown_rating_not_displayed_witness :
  exists df' data,
    load_data_from (scrape_pages ascii_digits_only six_site [1%N]) []
    = (Ok df', [page_url 1; book_url attic_href])
    /\ table_of df' = Some data
    /\ List.length data = List.length (flat_map (books_on six_site) [1%N])
    /\ forall categories min_price max_price ratings e,
         In e (filtered_data data categories min_price max_price ratings) ->
         exists b tok n,
           In b (flat_map (books_on six_site) [1%N])
           /\ book_title b = Ok (Title e)
           /\ book_rating b = Ok tok
           /\ dict_get rating_map tok = Some n
           /\ Rating e = Some n /\ In n ratings.
Proof.
  apply (unknown_rating_not_displayed ascii_digits_only six_site [1%N] []
           (frame_of_rows
              [Row (py "A Light in the Attic") (Finite false 5177 (-2))
                   (py "In stock") (py "Six") (py "Poetry")])).
  vm_compute. reflexivity.
Defined.

(** ** The metrics *)

Lemma filtered_categories_incl data categories min_price max_price ratings :
  incl (unique str_eqb
          (map Category
             (filtered_data data categories min_price max_price ratings)))
       categories.
Proof.
  intros c Hc. apply (proj1 (unique_In str_eqb str_eqb_eq _ _)) in Hc.
  apply in_map_iff in Hc as (e & <- & He).
  apply filtered_data_In in He. tauto.
Qed.

(** X11. The Unique Titles and the Categories metric never exceed the
    number of rows on display, and the Categories metric never exceeds the
    number of categories selected. *)
Theorem metric_bounds data categories min_price max_price ratings :
  unique_titles (filtered_data data categories min_price max_price ratings)
  <= List.length (filtered_data data categories min_price max_price ratings)
  /\ unique_categories
       (filtered_data data categories min_price max_price ratings)
     <= List.length
          (filtered_data data categories min_price max_price ratings)
  /\ unique_categories
       (filtered_data data categories min_price max_price ratings)
     <= List.length categories.
Proof.
  unfold unique_titles, unique_categories, nunique. split; [|split].
  - eapply Nat.le_trans; [apply unique_length|].
    rewrite length_map. apply Nat.le_refl.
  - eapply Nat.le_trans; [apply unique_length|].
    rewrite length_map. apply Nat.le_refl.
  - apply NoDup_incl_length.
    + apply unique_NoDup. exact str_eqb_eq.
    + apply filtered_categories_incl.
Qed.

(** ** The rating distribution *)

Lemma Z_leb_total a b : (a <=? b)%Z = false -> (b <=? a)%Z = true.
Proof. intros H. apply Z.leb_gt in H. apply Z.leb_le. lia. Qed.

Lemma Z_leb_trans a b c :
  (a <=? b)%Z = true -> (b <=? c)%Z = true -> (a <=? c)%Z = true.
Proof. rewrite !Z.leb_le. lia. Qed.

Lemma Z_eqb_eq a b : (a =? b)%Z = true <-> a = b.
Proof. apply Z.eqb_eq. Qed.

Lemma StronglySorted_weaken {A : Type} (R Q : A -> A -> Prop) l :
  (forall a b, R a b -> Q a b) -> StronglySorted R l -> StronglySorted Q l.
Proof.
  intros HRQ. induction 1 as [|x l Hs IH Hx]; constructor; auto.
  rewrite Forall_forall in *. auto.
Qed.

Lemma rating_index t :
  map fst (rating_counts t)
  = sorted Z.leb (unique Z.eqb (known_ratings t)).
Proof.
  unfold rating_counts. rewrite map_map. simpl. apply map_id.
Qed.

Lemma rating_index_sorted t :
  StronglySorted Z.lt (map fst (rating_counts t)).
Proof.
  rewrite rating_index.
  apply (StronglySorted_weaken
           (fun a b => (a <=? b)%Z = true /\ a <> b)).
  - intros a b [H1 H2]. apply Z.leb_le in H1. lia.
  - apply ascending_strict.
    + apply sorted_ascending; [exact Z_leb_total | exact Z_leb_trans].
    + eapply Permutation_NoDup.
      * symmetry. apply sorted_perm.
      * apply unique_NoDup. exact Z_eqb_eq.
Qed.

Lemma rating_index_In t v :
  In v (map fst (rating_counts t)) <-> In v (known_ratings t).
Proof.
  rewrite rating_index. split.
  - intros H. apply (Permutation_in _ (sorted_perm Z.leb _)) in H.
    apply (proj1 (unique_In Z.eqb Z_eqb_eq _ _)) in H. exact H.
  - intros H.
    apply (Permutation_in _ (Permutation_sym (sorted_perm Z.leb _))).
    apply (proj2 (unique_In Z.eqb Z_eqb_eq _ _)). exact H.
Qed.

Lemma count_occ_cons_sum (x : Z) r idx :
  list_sum (map (count_occ Z.eq_dec (x :: r)) idx)
  = list_sum (map (count_occ Z.eq_dec r) idx) + count_occ Z.eq_dec idx x.
Proof.
  induction idx as [|v idx IH]; [reflexivity|].
  change (count_occ Z.eq_dec (x :: r) v
          + list_sum (map (count_occ Z.eq_dec (x :: r)) idx)
          = count_occ Z.eq_dec r v
            + list_sum (map (count_occ Z.eq_dec r) idx)
            + count_occ Z.eq_dec (v :: idx) x).
  rewrite IH. cbn [count_occ].
  destruct (Z.eq_dec x v), (Z.eq_dec v x); try congruence; lia.
Qed.

Lemma count_occ_sum idx l :
  NoDup idx -> incl l idx ->
  list_sum (map (count_occ Z.eq_dec l) idx) = List.length l.
Proof.
  intros Hn. induction l as [|x r IH]; intros Hi.
  - clear. induction idx as [|v idx IHi]; [reflexivity|]. exact IHi.
  - rewrite count_occ_cons_sum, IH.
    + rewrite (proj1 (NoDup_count_occ' Z.eq_dec idx) Hn x).
      * simpl. lia.
      * apply Hi. left. reflexivity.
    + intros y Hy. apply Hi. right. exact Hy.
Qed.

Lemma known_ratings_length t :
  (forall e, In e t -> Rating e <> None) ->
  List.length (known_ratings t) = List.length t.
Proof.
  induction t as [|e t IH]; intros H; [reflexivity|].
  unfold known_ratings in *. cbn [flat_map].
  destruct (Rating e) eqn:E.
  - simpl. rewrite IH; [reflexivity|]. intros e' He'. apply H. right; auto.
  - elim (H e (or_introl eq_refl)). exact E.
Qed.

(** X12. The rating counts of the table on display list each rating that
    is on display once, in ascending order, with the number of its rows;
    as no row on display lacks a rating, the counts add up to the number
    of rows on display. *)
Theorem rating_counts_cover data categories min_price max_price ratings :
  StronglySorted Z.lt
    (map fst (rating_counts
                (filtered_data data categories min_price max_price ratings)))
  /\ (forall v n,
        In (v, n)
           (rating_counts
              (filtered_data data categories min_price max_price ratings))
        <-> In v (known_ratings
                    (filtered_data data categories min_price max_price
                       ratings))
            /\ n = count_occ Z.eq_dec
                     (known_ratings
                        (filtered_data data categories min_price max_price
                           ratings)) v)
  /\ list_sum
       (map snd
          (rating_counts
             (filtered_data data categories min_price max_price ratings)))
     = List.length
         (filtered_data data categories min_price max_price ratings).
Proof.
  set (t := filtered_data data categories min_price max_price ratings).
  split; [apply rating_index_sorted|]. split.
  - intros v n. rewrite <- rating_index_In. unfold rating_counts at 1.
    rewrite in_map_iff, rating_index. split.
    + intros (x & E & Hx). injection E as <- <-. auto.
    + intros [Hv ->]. exists v. auto.
  - unfold rating_counts. rewrite map_map. cbn [snd].
    rewrite count_occ_sum.
    + apply known_ratings_length. intros e He.
      apply filtered_data_In in He as (_ & _ & (n & Hn & _) & _). congruence.
    + eapply Permutation_NoDup.
      * symmetry. apply sorted_perm.
      * apply unique_NoDup. exact Z_eqb_eq.
    + intros x Hx.
      apply (Permutation_in _ (Permutation_sym (sorted_perm Z.leb _))).
      apply (proj2 (unique_In Z.eqb Z_eqb_eq _ _)). exact Hx.
Qed.

Lemma get_loc_absent index v : ~ In v index -> get_loc index v = None.
Proof.
  induction index as [|x r IH]; simpl; [reflexivity|].
  intros H. destruct (Z.eqb_spec x v); [elim H; auto|].
  rewrite IH; [reflexivity|]. intros Hr. apply H. auto.
Qed.

Lemma get_loc_last pre v :
  ~ In v pre -> get_loc (pre ++ [v]) v = Some (List.length pre).
Proof.
  induction pre as [|x r IH]; simpl; intros H.
  - rewrite Z.eqb_refl. reflexivity.
  - destruct (Z.eqb_spec x v); [elim H; auto|].
    rewrite IH; [reflexivity|]. intros Hr. apply H. auto.
Qed.

Lemma setitem_last {A : Type} (z x : A) n :
  setitem (repeat z (S n)) n x = repeat z n ++ [x].
Proof.
  induction n as [|n IH]; [reflexivity|].
  change (repeat z (S (S n))) with (z :: repeat z (S n)).
  cbn [setitem]. rewrite IH. reflexivity.
Qed.

Lemma ascending_last_is_max idx :
  StronglySorted Z.lt idx -> In 5%Z idx ->
  (forall n, In n idx -> (n <= 5)%Z) ->
  exists pre, idx = pre ++ [5%Z] /\ ~ In 5%Z pre.
Proof.
  induction 1 as [|y r Hs IH Hy]; intros Hin Hmax; [contradiction|].
  rewrite Forall_forall in Hy.
  destruct (Z.eq_dec y 5) as [->|Hne].
  - destruct r as [|z r].
    + exists []. auto.
    + assert (5 < z)%Z by (apply Hy; left; reflexivity).
      assert (z <= 5)%Z by (apply Hmax; right; left; reflexivity). lia.
  - destruct Hin as [E|Hin]; [contradiction|].
    destruct IH as (pre & -> & Hpre); auto.
    { intros n Hn. apply Hmax. right. exact Hn. }
    exists (y :: pre). split; [reflexivity|].
    intros [E|E]; [congruence|contradiction].
Qed.

(** X13. The pie of the ratings pulls out at most one slice, that of
    rating 5: the list [explode] is as long as the rating counts, holds
    zeros only when no row on display is rated 5, and otherwise, no rating
    being above 5, zeros followed by 0.1 in the last place, which is the
    place of rating 5. *)
Theorem explode_marks_five t :
  (forall n, In n (known_ratings t) -> (n <= 5)%Z) ->
  List.length (explode (rating_counts t)) = List.length (rating_counts t)
  /\ (~ In 5%Z (known_ratings t) ->
      explode (rating_counts t)
      = repeat (CInt 0) (List.length (rating_counts t)))
  /\ (In 5%Z (known_ratings t) ->
      exists k,
        List.length (rating_counts t) = S k
        /\ nth_error (map fst (rating_counts t)) k = Some 5%Z
        /\ explode (rating_counts t)
           = repeat (CInt 0) k ++ [CFloat (Finite false 1 (-1))]).
Proof.
  intros Hmax. unfold explode.
  assert (A : ~ In 5%Z (known_ratings t) ->
              get_loc (map fst (rating_counts t)) 5 = None).
  { intros H. apply get_loc_absent. rewrite rating_index_In. exact H. }
  assert (B : In 5%Z (known_ratings t) ->
              exists pre, map fst (rating_counts t) = pre ++ [5%Z]
                          /\ ~ In 5%Z pre).
  { intros H. apply ascending_last_is_max.
    - apply rating_index_sorted.
    - apply rating_index_In. exact H.
    - intros n Hn. apply Hmax. apply rating_index_In. exact Hn. }
  split; [|split].
  - destruct (In_dec Z.eq_dec 5%Z (known_ratings t)) as [H|H].
    + destruct (B H) as (pre & E & Hpre).
      rewrite E, (get_loc_last _ _ Hpre).
      assert (L : List.length (rating_counts t) = S (List.length pre)).
      { rewrite <- (length_map fst), E, length_app. simpl. lia. }
      rewrite L, setitem_last, length_app, repeat_length. simpl. lia.
    + rewrite (A H). apply repeat_length.
  - intros H. rewrite (A H). reflexivity.
  - intros H. destruct (B H) as (pre & E & Hpre).
    exists (List.length pre).
    assert (L : List.length (rating_counts t) = S (List.length pre)).
    { rewrite <- (length_map fst), E, length_app. simpl. lia. }
    split; [exact L|]. split.
    + rewrite E, nth_error_app2, Nat.sub_diag by lia. reflexivity.
    + rewrite E, (get_loc_last _ _ Hpre), L. apply setitem_last.
Qed.

Lemma explode_marks_five_witness :
  List.length (explode (rating_counts odd_table))
  = List.length (rating_counts odd_table)
  /\ exists k,
       List.length (rating_counts odd_table) = S k
       /\ nth_error (map fst (rating_counts odd_table)) k = Some 5%Z
       /\ explode (rating_counts odd_table)
          = repeat (CInt 0) k ++ [CFloat (Finite false 1 (-1))].
Proof.
  destruct (explode_marks_five odd_table) as (H1 & _ & H3).
  - intros n Hn. vm_compute in Hn.
    destruct Hn as [<-|[<-|[<-|[]]]]; lia.
  - split; [exact H1|]. apply H3. vm_compute. auto.
Defined.
